(** * AI-Workout-Counter: the repetition-counting engine

    A shallow embedding of [models/push_up_counter.py], [models/squat_counter.py],
    [models/armcurl_counter.py], [models/pull_up_counter.py] and
    [models/workout_counter.py], and the properties of the engine proved on it.

    Numbers: Python floats (numpy float64) are idealised as real numbers [R];
    Python integers (counts, frame counters) are [Z].  A keypoint array is a
    list of joints, [None] is Python's [None]; an index out of range is the
    [IndexError] the source catches in its [try] blocks.  Logging is dropped. *)

From Stdlib Require Import Reals Lra ZArith Lia List String Bool Sorted.
From Stdlib Require Import DecimalString.
Import ListNotations.
Open Scope R_scope.

(** ** Comparisons on floats, as booleans *)

Definition Rltb (x y : R) : bool := if Rlt_dec x y then true else false.
Definition Rleb (x y : R) : bool := if Rle_dec x y then true else false.
Definition Rgtb (x y : R) : bool := Rltb y x.
Definition Rgeb (x y : R) : bool := Rleb y x.

(** ** Keypoint frames *)

(** One row [(x, y, confidence)] of the pose array. *)
Record Joint : Type := mkJoint { jx : R; jy : R; jc : R }.

(** [keypoints]: [None], or an array of rows (possibly empty). *)
Definition Keypoints : Type := option (list Joint).

(** [keypoints is None or len(keypoints) == 0] *)
Definition no_person (keypoints : Keypoints) : bool :=
  match keypoints with
  | None => true
  | Some [] => true
  | Some (_ :: _) => false
  end.

(** ** [collections.deque(maxlen=n)] and the list operations used on it *)

(** [d.append(x)]: a full deque drops its oldest element. *)
Definition deque_append {A : Type} (maxlen : nat) (d : list A) (x : A) : list A :=
  if (List.length d <? maxlen)%nat then d ++ [x] else tl (d ++ [x]).

(** [list(d)[-n:]] *)
Definition lastn {A : Type} (n : nat) (l : list A) : list A :=
  skipn (List.length l - n) l.

Definition Rsum (l : list R) : R := fold_right Rplus 0 l.

(** [np.mean(l)] *)
Definition mean (l : list R) : R := Rsum l / INR (List.length l).

(** ** GeometryOps: the angle at vertex [b] between the rays [b->a] and [b->c] *)

Module Geometry.

Definition epsilon : R := / 1000000.

(** [np.linalg.norm] of a 2-vector *)
Definition norm (vx vy : R) : R := sqrt (vx * vx + vy * vy).

(** [np.dot] of two 2-vectors *)
Definition dot (ux uy vx vy : R) : R := ux * vx + uy * vy.

(** [np.clip(x, lo, hi)] *)
Definition clip (x lo hi : R) : R := Rmin (Rmax x lo) hi.

(** [np.degrees] *)
Definition degrees (rad : R) : R := rad * (180 / PI).

(** The computation the three [calculate_angle] methods share:
    [None] for a vector shorter than [1e-6], else
    [degrees(arccos(clip(dot / (norm1 * norm2), -1, 1)))]. *)
Definition angle (a b c : Joint) : option R :=
  let v1x := jx a - jx b in
  let v1y := jy a - jy b in
  let v2x := jx c - jx b in
  let v2y := jy c - jy b in
  let norm1 := norm v1x v1y in
  let norm2 := norm v2x v2y in
  if Rltb norm1 epsilon || Rltb norm2 epsilon then None
  else
    let cosine := dot v1x v1y v2x v2y / (norm1 * norm2) in
    let cosine := clip cosine (-1) 1 in
    Some (degrees (acos cosine)).

End Geometry.

(** What [analyze_pose] of the angle counters returns: [(count, angle or None)]. *)
Definition AngleResult : Type := (Z * option R)%type.

(** ** [PushUpCounter] *)

Module PushUp.

Inductive PushUpState : Type := UP | DOWN | TRANSITION.

Definition PushUpState_eqb (x y : PushUpState) : bool :=
  match x, y with
  | UP, UP | DOWN, DOWN | TRANSITION, TRANSITION => true
  | _, _ => false
  end.

Record t : Type := mk {
  count : Z;
  frame_count : Z;
  state : PushUpState;
  last_state_change : Z;
  angle_history : list R;            (* deque(maxlen=3) *)
  went_down : bool;
  UP_ANGLE_THRESHOLD : R;
  DOWN_ANGLE_THRESHOLD : R;
  MIN_CONFIDENCE : R;
  MIN_FRAMES_IN_STATE : Z
}.

Definition R_SHOULDER : nat := 6.
Definition R_ELBOW : nat := 8.
Definition R_WRIST : nat := 10.
Definition L_SHOULDER : nat := 5.
Definition L_ELBOW : nat := 7.
Definition L_WRIST : nat := 9.

(** [__init__] *)
Definition init : t :=
  mk 0 0 UP 0 [] false 135 105 (3 / 10) 2.

Definition set_count (s : t) (v : Z) : t :=
  mk v (frame_count s) (state s) (last_state_change s) (angle_history s)
     (went_down s) (UP_ANGLE_THRESHOLD s) (DOWN_ANGLE_THRESHOLD s)
     (MIN_CONFIDENCE s) (MIN_FRAMES_IN_STATE s).

Definition set_frame_count (s : t) (v : Z) : t :=
  mk (count s) v (state s) (last_state_change s) (angle_history s)
     (went_down s) (UP_ANGLE_THRESHOLD s) (DOWN_ANGLE_THRESHOLD s)
     (MIN_CONFIDENCE s) (MIN_FRAMES_IN_STATE s).

Definition set_state (s : t) (v : PushUpState) : t :=
  mk (count s) (frame_count s) v (last_state_change s) (angle_history s)
     (went_down s) (UP_ANGLE_THRESHOLD s) (DOWN_ANGLE_THRESHOLD s)
     (MIN_CONFIDENCE s) (MIN_FRAMES_IN_STATE s).

Definition set_last_state_change (s : t) (v : Z) : t :=
  mk (count s) (frame_count s) (state s) v (angle_history s)
     (went_down s) (UP_ANGLE_THRESHOLD s) (DOWN_ANGLE_THRESHOLD s)
     (MIN_CONFIDENCE s) (MIN_FRAMES_IN_STATE s).

Definition set_angle_history (s : t) (v : list R) : t :=
  mk (count s) (frame_count s) (state s) (last_state_change s) v
     (went_down s) (UP_ANGLE_THRESHOLD s) (DOWN_ANGLE_THRESHOLD s)
     (MIN_CONFIDENCE s) (MIN_FRAMES_IN_STATE s).

Definition set_went_down (s : t) (v : bool) : t :=
  mk (count s) (frame_count s) (state s) (last_state_change s) (angle_history s)
     v (UP_ANGLE_THRESHOLD s) (DOWN_ANGLE_THRESHOLD s)
     (MIN_CONFIDENCE s) (MIN_FRAMES_IN_STATE s).

(** [adjust_thresholds] *)
Definition adjust_thresholds (s : t) (up_threshold down_threshold : option R) : t :=
  mk (count s) (frame_count s) (state s) (last_state_change s) (angle_history s)
     (went_down s)
     (match up_threshold with Some u => u | None => UP_ANGLE_THRESHOLD s end)
     (match down_threshold with Some d => d | None => DOWN_ANGLE_THRESHOLD s end)
     (MIN_CONFIDENCE s) (MIN_FRAMES_IN_STATE s).

(** [calculate_angle(shoulder, elbow, wrist)] *)
Definition calculate_angle (shoulder elbow wrist : Joint) : option R :=
  Geometry.angle shoulder elbow wrist.

(** [get_best_arm_angle]: [(angle, confidence)]; any missing row raises
    [IndexError] while the confidences are read, which the method turns
    into [(None, 0)]. *)
Definition get_best_arm_angle (s : t) (keypoints : list Joint) : option R * R :=
  match nth_error keypoints R_SHOULDER, nth_error keypoints R_ELBOW,
        nth_error keypoints R_WRIST, nth_error keypoints L_SHOULDER,
        nth_error keypoints L_ELBOW, nth_error keypoints L_WRIST with
  | Some rs, Some re, Some rw, Some ls, Some le, Some lw =>
      let r_confidence := (jc rs + jc re + jc rw) / 3 in
      let l_confidence := (jc ls + jc le + jc lw) / 3 in
      let r_angle :=
        if Rgeb r_confidence (MIN_CONFIDENCE s)
        then calculate_angle rs re rw else None in
      let l_angle :=
        if Rgeb l_confidence (MIN_CONFIDENCE s)
        then calculate_angle ls le lw else None in
      match r_angle, l_angle with
      | Some ra, Some la =>
          if Rltb (Rabs (r_confidence - l_confidence)) (1 / 10)
          then (Some ((ra + la) / 2), (r_confidence + l_confidence) / 2)
          else if Rgtb r_confidence l_confidence
          then (Some ra, r_confidence)
          else (Some la, l_confidence)
      | Some ra, None => (Some ra, r_confidence)
      | None, Some la => (Some la, l_confidence)
      | None, None => (None, 0)
      end
  | _, _, _, _, _, _ => (None, 0)
  end.

(** [smooth_angle]: append to the window, then the mean of the last two
    samples once there are two. *)
Definition smooth_angle (s : t) (angle : option R) : t * option R :=
  match angle with
  | None => (s, None)
  | Some a =>
      let h := deque_append 3 (angle_history s) a in
      let s' := set_angle_history s h in
      if (2 <=? List.length h)%nat then (s', Some (mean (lastn 2 h)))
      else (s', Some a)
  end.

(** [_change_state] *)
Definition _change_state (s : t) (new_state : PushUpState) : t :=
  if negb (PushUpState_eqb new_state (state s))
  then set_last_state_change (set_state s new_state) (frame_count s)
  else s.

(** [update_state_and_count] *)
Definition update_state_and_count (s : t) (angle : option R) : t :=
  match angle with
  | None => s
  | Some a =>
      let frames_in_current_state := (frame_count s - last_state_change s)%Z in
      if (frames_in_current_state <? MIN_FRAMES_IN_STATE s)%Z then s
      else
        match state s with
        | UP =>
            if Rltb a (DOWN_ANGLE_THRESHOLD s)
            then set_went_down (_change_state s DOWN) true
            else s
        | DOWN =>
            if Rgtb a (UP_ANGLE_THRESHOLD s)
            then
              let s1 := _change_state s UP in
              if went_down s1
              then set_went_down (set_count s1 (count s1 + 1)%Z) false
              else s1
            else s
        | TRANSITION => s
        end
  end.

(** The body of [analyze_pose] from the measurement on: the confidence
    floor, the smoothing, the state machine. *)
Definition analyze_angle (s : t) (angle : option R) (confidence : R)
  : t * AngleResult :=
  match angle with
  | None => (s, (count s, None))
  | Some a =>
      if Rltb confidence (MIN_CONFIDENCE s) then (s, (count s, None))
      else
        let (s1, smoothed_angle) := smooth_angle s (Some a) in
        match smoothed_angle with
        | None => (s1, (count s1, None))
        | Some sm =>
            let s2 := update_state_and_count s1 (Some sm) in
            (s2, (count s2, Some sm))
        end
  end.

(** [analyze_pose] *)
Definition analyze_pose (s : t) (keypoints : Keypoints) : t * AngleResult :=
  let s := set_frame_count s (frame_count s + 1)%Z in
  match keypoints with
  | None | Some [] => (s, (count s, None))
  | Some kp =>
      let (angle, confidence) := get_best_arm_angle s kp in
      analyze_angle s angle confidence
  end.

(** [reset] *)
Definition reset (s : t) : t :=
  mk 0 0 UP 0 [] false (UP_ANGLE_THRESHOLD s) (DOWN_ANGLE_THRESHOLD s)
     (MIN_CONFIDENCE s) (MIN_FRAMES_IN_STATE s).

End PushUp.

(** ** [SquatCounter] *)

Module Squat.

(** The strings ["up"] and ["down"] of [self.state]. *)
Inductive SquatState : Type := up | down.

Record t : Type := mk {
  count : Z;
  frame_count : Z;
  state : SquatState;
  angle_history : list R;            (* deque(maxlen=3) *)
  up_threshold : R;
  down_threshold : R;
  went_down : bool;
  last_state_change : Z;
  min_frames_in_state : Z
}.

Definition R_HIP : nat := 12.
Definition R_KNEE : nat := 14.
Definition R_ANKLE : nat := 16.
Definition L_HIP : nat := 11.
Definition L_KNEE : nat := 13.
Definition L_ANKLE : nat := 15.

(** [__init__]; the configuration carries no [squat_up] or [squat_down]
    attribute, so [getattr] yields the defaults. *)
Definition init : t := mk 0 0 up [] 170 140 false 0 2.

(** [calculate_angle(a, b, c)] *)
Definition calculate_angle (a b c : Joint) : option R := Geometry.angle a b c.

(** [get_best_leg_angle]: a missing row is an [IndexError], and a missing
    angle under [abs(r_angle - l_angle)] a [TypeError]; both end in
    [(None, 0)]. *)
Definition get_best_leg_angle (keypoints : list Joint) : option R * R :=
  match nth_error keypoints R_HIP, nth_error keypoints R_KNEE,
        nth_error keypoints R_ANKLE, nth_error keypoints L_HIP,
        nth_error keypoints L_KNEE, nth_error keypoints L_ANKLE with
  | Some rh, Some rk, Some ra, Some lh, Some lk, Some la =>
      let r_angle := calculate_angle rh rk ra in
      let l_angle := calculate_angle lh lk la in
      let r_conf := (jc rh + jc rk + jc ra) / 3 in
      let l_conf := (jc lh + jc lk + jc la) / 3 in
      if Rgeb r_conf (3 / 10) && Rgeb l_conf (3 / 10) then
        match r_angle, l_angle with
        | Some r, Some l =>
            if Rltb (Rabs (r - l)) 30
            then (Some ((r + l) / 2), (r_conf + l_conf) / 2)
            else (if Rgeb r_conf l_conf then Some r else Some l,
                  Rmax r_conf l_conf)
        | _, _ => (None, 0)
        end
      else if Rgeb r_conf (3 / 10) then (r_angle, r_conf)
      else if Rgeb l_conf (3 / 10) then (l_angle, l_conf)
      else (None, 0)
  | _, _, _, _, _, _ => (None, 0)
  end.

(** The body of [analyze_pose] from the measurement on. *)
Definition analyze_angle (s : t) (angle : option R) (confidence : R)
  : t * AngleResult :=
  match angle with
  | None => (s, (count s, None))
  | Some a =>
      if Rltb confidence (3 / 10) then (s, (count s, None))
      else
        let h := deque_append 3 (angle_history s) a in
        let avg_angle :=
          if (2 <=? List.length h)%nat then mean (lastn 2 h) else a in
        let frames_in_current_state := (frame_count s - last_state_change s)%Z in
        if (frames_in_current_state <? min_frames_in_state s)%Z then
          (mk (count s) (frame_count s) (state s) h (up_threshold s)
              (down_threshold s) (went_down s) (last_state_change s)
              (min_frames_in_state s),
           (count s, Some avg_angle))
        else
          match state s with
          | up =>
              if Rltb avg_angle (down_threshold s) then
                (mk (count s) (frame_count s) down h (up_threshold s)
                    (down_threshold s) true (frame_count s)
                    (min_frames_in_state s),
                 (count s, Some avg_angle))
              else
                (mk (count s) (frame_count s) (state s) h (up_threshold s)
                    (down_threshold s) (went_down s) (last_state_change s)
                    (min_frames_in_state s),
                 (count s, Some avg_angle))
          | down =>
              if Rgtb avg_angle (up_threshold s) then
                if went_down s then
                  (mk (count s + 1)%Z (frame_count s) up h (up_threshold s)
                      (down_threshold s) false (frame_count s)
                      (min_frames_in_state s),
                   ((count s + 1)%Z, Some avg_angle))
                else
                  (mk (count s) (frame_count s) up h (up_threshold s)
                      (down_threshold s) (went_down s) (frame_count s)
                      (min_frames_in_state s),
                   (count s, Some avg_angle))
              else
                (mk (count s) (frame_count s) (state s) h (up_threshold s)
                    (down_threshold s) (went_down s) (last_state_change s)
                    (min_frames_in_state s),
                 (count s, Some avg_angle))
          end
  end.

(** [analyze_pose] *)
Definition analyze_pose (s : t) (keypoints : Keypoints) : t * AngleResult :=
  let s := mk (count s) (frame_count s + 1)%Z (state s) (angle_history s)
              (up_threshold s) (down_threshold s) (went_down s)
              (last_state_change s) (min_frames_in_state s) in
  match keypoints with
  | None | Some [] => (s, (count s, None))
  | Some kp =>
      let (angle, confidence) := get_best_leg_angle kp in
      analyze_angle s angle confidence
  end.

(** [reset] *)
Definition reset (s : t) : t :=
  mk 0 0 up [] (up_threshold s) (down_threshold s) false 0
     (min_frames_in_state s).

End Squat.

(** ** [ArmCurlCounter] *)

Module ArmCurl.

(** The strings ["down"] and ["up"] of [self.state]. *)
Inductive CurlState : Type := down | up.

(** The third component of [get_best_arm_angle]. *)
Inductive Side : Type := Right | Left | NoSide | ErrorSide.

Record t : Type := mk {
  count : Z;
  frame_count : Z;
  angle_history : list R;            (* deque(maxlen=5) *)
  state : CurlState;
  up_threshold : R;
  down_threshold : R
}.

Definition R_SHOULDER : nat := 6.
Definition R_ELBOW : nat := 8.
Definition R_WRIST : nat := 10.
Definition L_SHOULDER : nat := 5.
Definition L_ELBOW : nat := 7.
Definition L_WRIST : nat := 9.

Definition maxlen : nat := 5.

(** [__init__]; the configuration carries no [armcurl_up] or
    [armcurl_down] attribute, so [getattr] yields the defaults. *)
Definition init : t := mk 0 0 [] down 90 120.

(** [calculate_angle(a, b, c)]: the shared computation, then
    [angle if 0 <= angle <= 180 else None]. *)
Definition calculate_angle (a b c : Joint) : option R :=
  match Geometry.angle a b c with
  | None => None
  | Some angle => if Rleb 0 angle && Rleb angle 180 then Some angle else None
  end.

(** [get_best_arm_angle] *)
Definition get_best_arm_angle (keypoints : list Joint) : option R * R * Side :=
  match nth_error keypoints R_SHOULDER, nth_error keypoints R_ELBOW,
        nth_error keypoints R_WRIST, nth_error keypoints L_SHOULDER,
        nth_error keypoints L_ELBOW, nth_error keypoints L_WRIST with
  | Some rs, Some re, Some rw, Some ls, Some le, Some lw =>
      let r_angle := calculate_angle rs re rw in
      let l_angle := calculate_angle ls le lw in
      let r_conf := (jc rs + jc re + jc rw) / 3 in
      let l_conf := (jc ls + jc le + jc lw) / 3 in
      match r_angle, l_angle with
      | Some r, Some l =>
          if Rgeb r_conf l_conf then (Some r, r_conf, Right)
          else (Some l, l_conf, Left)
      | Some r, None => (Some r, r_conf, Right)
      | None, Some l => (Some l, l_conf, Left)
      | None, None => (None, 0, NoSide)
      end
  | _, _, _, _, _, _ => (None, 0, ErrorSide)
  end.

(** The body of [analyze_pose] from the measurement on. *)
Definition analyze_angle (s : t) (angle : option R) (confidence : R)
  : t * AngleResult :=
  match angle with
  | None => (s, (count s, None))
  | Some a =>
      if Rltb confidence (1 / 2) then (s, (count s, None))
      else
        let h := deque_append maxlen (angle_history s) a in
        if (List.length h =? maxlen)%nat then
          let avg_angle := mean h in
          match state s with
          | down =>
              if Rltb avg_angle (up_threshold s) then
                (mk (count s) (frame_count s) h up (up_threshold s)
                    (down_threshold s),
                 (count s, Some avg_angle))
              else
                (mk (count s) (frame_count s) h (state s) (up_threshold s)
                    (down_threshold s),
                 (count s, Some avg_angle))
          | up =>
              if Rgtb avg_angle (down_threshold s) then
                (mk (count s + 1)%Z (frame_count s) h down (up_threshold s)
                    (down_threshold s),
                 ((count s + 1)%Z, Some avg_angle))
              else
                (mk (count s) (frame_count s) h (state s) (up_threshold s)
                    (down_threshold s),
                 (count s, Some avg_angle))
          end
        else
          (mk (count s) (frame_count s) h (state s) (up_threshold s)
              (down_threshold s),
           (count s, Some a))
  end.

(** [analyze_pose] *)
Definition analyze_pose (s : t) (keypoints : Keypoints) : t * AngleResult :=
  match keypoints with
  | None | Some [] => (s, (count s, None))
  | Some kp =>
      let '(angle, confidence, arm_side) := get_best_arm_angle kp in
      analyze_angle s angle confidence
  end.

(** [reset] *)
Definition reset (s : t) : t :=
  mk 0 0 [] down (up_threshold s) (down_threshold s).

End ArmCurl.

(** ** [config.Config]: the parameters the pull-up counter reads *)

Record Config : Type := mkConfig {
  min_confidence : R;
  rep_cooldown : R;
  min_consecutive_frames : R;
  movement_threshold : R;
  min_movement_range : R
}.

(** The values [Config.__init__] sets. *)
Definition config : Config := mkConfig (3 / 10) (1 / 2) 3 4 15.

(** The readings of [time.time()] during one [analyze_pose] call: the one
    [detect_direction_change] stamps a direction change with, and
    [current_time] of the rep test. *)
Record Clock : Type := mkClock { log_time : R; current_time : R }.

(** ** [PullUpCounter] *)

Module PullUp.

(** The direction strings ["starting"], ["stable"], ["up"], ["down"]. *)
Inductive Direction : Type := starting | stable | up | down.

Definition Direction_eqb (x y : Direction) : bool :=
  match x, y with
  | starting, starting | stable, stable | up, up | down, down => true
  | _, _ => false
  end.

(** An entry [(direction, timestamp, diff)] of [direction_history]. *)
Definition Change : Type := (Direction * R * R)%type.

Record t : Type := mk {
  count : Z;
  frame_count : Z;
  position : string;
  position_history : list R;         (* deque(maxlen=30) *)
  direction_history : list Change;   (* deque(maxlen=10) *)
  last_rep_time : R;
  current_direction : Direction;
  consecutive_up_frames : R;
  consecutive_down_frames : R
}.

Definition L_SHOULDER : nat := 5.
Definition R_SHOULDER : nat := 6.
Definition L_WRIST : nat := 9.
Definition R_WRIST : nat := 10.

(** [__init__] *)
Definition init : t := mk 0 0 "neutral" [] [] 0 stable 0 0.

Definition Reqb (x y : R) : bool := if Req_dec_T x y then true else false.

(** The decay of one consecutive-frame counter on a frame without a clear
    direction. *)
Definition decay (c : R) : R := if Rgtb c 0 then Rmax 0 (c - 1 / 2) else c.

(** [detect_direction_change] *)
Definition detect_direction_change (cfg : Config) (now : R) (s : t)
    (current_diff : R) : t * (Direction * R) :=
  let h := deque_append 30 (position_history s) current_diff in
  if (List.length h <? 5)%nat then
    (mk (count s) (frame_count s) (position s) h (direction_history s)
        (last_rep_time s) (current_direction s) (consecutive_up_frames s)
        (consecutive_down_frames s),
     (starting, 0))
  else
    let recent := lastn 5 h in
    let movement := last recent 0 - hd 0 recent in
    let new_direction :=
      if Rgtb movement (movement_threshold cfg) then up
      else if Rltb movement (- movement_threshold cfg) then down
      else stable in
    let '(ups, downs) :=
      match new_direction with
      | up => (consecutive_up_frames s + 1, 0)
      | down => (0, consecutive_down_frames s + 1)
      | _ => (decay (consecutive_up_frames s),
              decay (consecutive_down_frames s))
      end in
    let confirmed_direction :=
      if Rgeb ups (min_consecutive_frames cfg) then up
      else if Rgeb downs (min_consecutive_frames cfg) then down
      else if Reqb ups 0 && Reqb downs 0 then stable
      else current_direction s in
    if negb (Direction_eqb confirmed_direction (current_direction s)) then
      (mk (count s) (frame_count s) (position s) h
          (deque_append 10 (direction_history s)
             (confirmed_direction, now, current_diff))
          (last_rep_time s) confirmed_direction ups downs,
       (confirmed_direction, Rabs movement))
    else
      (mk (count s) (frame_count s) (position s) h (direction_history s)
          (last_rep_time s) (current_direction s) ups downs,
       (confirmed_direction, Rabs movement)).

(** The rep test of [analyze_pose]: is a DOWN -> UP cycle with enough range
    the latest pair of the change log, the cooldown being over? *)
Definition rep_detected (cfg : Config) (current_time : R) (s : t) : bool :=
  if Rgtb (current_time - last_rep_time s) (rep_cooldown cfg) then
    if (2 <=? List.length (direction_history s))%nat then
      match lastn 2 (direction_history s) with
      | [(d0, _, down_diff); (d1, _, up_diff)] =>
          if Direction_eqb d0 down && Direction_eqb d1 up then
            let movement_range := Rabs (up_diff - down_diff) in
            Rgtb movement_range (min_movement_range cfg)
          else false
      | _ => false
      end
    else false
  else false.

(** The position label of a direction. *)
Definition position_of (direction : Direction) : string :=
  match direction with
  | up => "pulling_up"
  | down => "lowering_down"
  | _ => "stable"
  end.

(** [analyze_pose]; a missing row is the [IndexError] that ends in
    [(count, "error")]. *)
Definition analyze_pose (cfg : Config) (clk : Clock) (s : t)
    (keypoints : Keypoints) : t * (Z * string) :=
  match keypoints with
  | None | Some [] => (s, (count s, "no_person"%string))
  | Some kp =>
      match nth_error kp L_SHOULDER, nth_error kp R_SHOULDER,
            nth_error kp L_WRIST, nth_error kp R_WRIST with
      | Some left_shoulder, Some right_shoulder,
        Some left_wrist, Some right_wrist =>
          let min_conf :=
            Rmin (Rmin (Rmin (jc left_shoulder) (jc right_shoulder))
                       (jc left_wrist)) (jc right_wrist) in
          if Rltb min_conf (min_confidence cfg) then
            (s, (count s, "low_confidence"%string))
          else
            let shoulder_y := (jy left_shoulder + jy right_shoulder) / 2 in
            let wrist_y := (jy left_wrist + jy right_wrist) / 2 in
            let wrist_shoulder_diff := wrist_y - shoulder_y in
            let '(s1, (direction, magnitude)) :=
              detect_direction_change cfg (log_time clk) s
                wrist_shoulder_diff in
            let s2 :=
              if rep_detected cfg (current_time clk) s1 then
                mk (count s1 + 1)%Z (frame_count s1) (position s1)
                   (position_history s1) [] (current_time clk)
                   (current_direction s1) (consecutive_up_frames s1)
                   (consecutive_down_frames s1)
              else s1 in
            let s3 :=
              mk (count s2) (frame_count s2) (position_of direction)
                 (position_history s2) (direction_history s2)
                 (last_rep_time s2) (current_direction s2)
                 (consecutive_up_frames s2) (consecutive_down_frames s2) in
            (s3, (count s3, position s3))
      | _, _, _, _ => (s, (count s, "error"%string))
      end
  end.

(** [reset] *)
Definition reset (s : t) : t := mk 0 0 "neutral" [] [] 0 stable 0 0.

End PullUp.

(** ** [WorkoutCounter] *)

Module Workout.

(** The closed set of [ExerciseCounter] subclasses. *)
Inductive ExerciseCounter : Type :=
| PullUpCounter (c : PullUp.t)
| PushUpCounter (c : PushUp.t)
| SquatCounter (c : Squat.t)
| ArmCurlCounter (c : ArmCurl.t).

(** The second component of what [analyze_pose] returns. *)
Inductive ExerciseState : Type :=
| AngleValue (a : option R)
| PositionLabel (l : string).

Definition counter_count (c : ExerciseCounter) : Z :=
  match c with
  | PullUpCounter c => PullUp.count c
  | PushUpCounter c => PushUp.count c
  | SquatCounter c => Squat.count c
  | ArmCurlCounter c => ArmCurl.count c
  end.

Definition counter_frame_count (c : ExerciseCounter) : Z :=
  match c with
  | PullUpCounter c => PullUp.frame_count c
  | PushUpCounter c => PushUp.frame_count c
  | SquatCounter c => Squat.frame_count c
  | ArmCurlCounter c => ArmCurl.frame_count c
  end.

(** [counter.frame_count = v] *)
Definition set_counter_frame_count (c : ExerciseCounter) (v : Z)
  : ExerciseCounter :=
  match c with
  | PullUpCounter c =>
      PullUpCounter
        (PullUp.mk (PullUp.count c) v (PullUp.position c)
           (PullUp.position_history c) (PullUp.direction_history c)
           (PullUp.last_rep_time c) (PullUp.current_direction c)
           (PullUp.consecutive_up_frames c)
           (PullUp.consecutive_down_frames c))
  | PushUpCounter c => PushUpCounter (PushUp.set_frame_count c v)
  | SquatCounter c =>
      SquatCounter
        (Squat.mk (Squat.count c) v (Squat.state c) (Squat.angle_history c)
           (Squat.up_threshold c) (Squat.down_threshold c)
           (Squat.went_down c) (Squat.last_state_change c)
           (Squat.min_frames_in_state c))
  | ArmCurlCounter c =>
      ArmCurlCounter
        (ArmCurl.mk (ArmCurl.count c) v (ArmCurl.angle_history c)
           (ArmCurl.state c) (ArmCurl.up_threshold c)
           (ArmCurl.down_threshold c))
  end.

(** Dispatch of [counter.analyze_pose(keypoints)]. *)
Definition counter_analyze_pose (cfg : Config) (clk : Clock)
    (c : ExerciseCounter) (keypoints : Keypoints)
  : ExerciseCounter * (Z * ExerciseState) :=
  match c with
  | PullUpCounter c =>
      let '(c', (n, l)) := PullUp.analyze_pose cfg clk c keypoints in
      (PullUpCounter c', (n, PositionLabel l))
  | PushUpCounter c =>
      let '(c', (n, a)) := PushUp.analyze_pose c keypoints in
      (PushUpCounter c', (n, AngleValue a))
  | SquatCounter c =>
      let '(c', (n, a)) := Squat.analyze_pose c keypoints in
      (SquatCounter c', (n, AngleValue a))
  | ArmCurlCounter c =>
      let '(c', (n, a)) := ArmCurl.analyze_pose c keypoints in
      (ArmCurlCounter c', (n, AngleValue a))
  end.

(** Dispatch of [counter.reset()]. *)
Definition counter_reset (c : ExerciseCounter) : ExerciseCounter :=
  match c with
  | PullUpCounter c => PullUpCounter (PullUp.reset c)
  | PushUpCounter c => PushUpCounter (PushUp.reset c)
  | SquatCounter c => SquatCounter (Squat.reset c)
  | ArmCurlCounter c => ArmCurlCounter (ArmCurl.reset c)
  end.

Record t : Type := mk {
  mode : string;
  counter : option ExerciseCounter;
  frame_count : Z
}.

(** The dictionary [counters] of [_initialize_counter], each class
    instantiated. *)
Definition counters (mode : string) : option ExerciseCounter :=
  if String.eqb mode "chinup" then Some (PullUpCounter PullUp.init)
  else if String.eqb mode "pullup" then Some (PullUpCounter PullUp.init)
  else if String.eqb mode "pushup" then Some (PushUpCounter PushUp.init)
  else if String.eqb mode "squat" then Some (SquatCounter Squat.init)
  else if String.eqb mode "armcurl" then Some (ArmCurlCounter ArmCurl.init)
  else None.

(** [_initialize_counter] *)
Definition _initialize_counter (w : t) (mode' : string) : t :=
  match counters mode' with
  | Some c => mk (mode w) (Some c) (frame_count w)
  | None => mk "chinup" (Some (PullUpCounter PullUp.init)) (frame_count w)
  end.

(** [__init__] *)
Definition init (mode' : string) : t :=
  _initialize_counter (mk mode' None 0) mode'.

(** The property [count]. *)
Definition count (w : t) : Z :=
  match counter w with
  | Some c => counter_count c
  | None => 0%Z
  end.

(** [update] *)
Definition update (cfg : Config) (clk : Clock) (w : t) (keypoints : Keypoints)
  : t * (Z * ExerciseState) :=
  match counter w with
  | None => (w, (0%Z, AngleValue None))
  | Some c =>
      let c1 := set_counter_frame_count c (counter_frame_count c + 1)%Z in
      let '(c2, r) := counter_analyze_pose cfg clk c1 keypoints in
      (mk (mode w) (Some c2) (counter_frame_count c1), r)
  end.

(** [reset] *)
Definition reset (w : t) : t :=
  match counter w with
  | Some c => mk (mode w) (Some (counter_reset c)) 0
  | None => w
  end.

(** [switch_mode] *)
Definition switch_mode (w : t) (new_mode : string) : t :=
  if negb (String.eqb new_mode (mode w)) then
    let w1 := _initialize_counter (mk new_mode (counter w) (frame_count w))
                new_mode in
    mk (mode w1) (counter w1) 0
  else w.

End Workout.

(** ** Sessions: a counter fed a sequence of frames *)

Section Runs.

Context {S I O : Type}.
Variable step : S -> I -> S * O.

(** The calls in order: the state each leaves and what it returns. *)
Fixpoint trace (s : S) (inputs : list I) : list (S * O) :=
  match inputs with
  | [] => []
  | i :: rest => step s i :: trace (fst (step s i)) rest
  end.

(** The states after each call. *)
Definition states (s : S) (inputs : list I) : list S :=
  map fst (trace s inputs).

(** What the calls return. *)
Definition outputs (s : S) (inputs : list I) : list O :=
  map snd (trace s inputs).

(** The state after the last call. *)
Definition final (s : S) (inputs : list I) : S :=
  last (states s inputs) s.

End Runs.

(** The pull-up counter's step on a frame paired with its clock readings. *)
Definition pullup_step (cfg : Config) (s : PullUp.t) (i : Clock * Keypoints)
  : PullUp.t * (Z * string) :=
  PullUp.analyze_pose cfg (fst i) s (snd i).

(** ** Frames for concrete sessions

    Rows of a 17-point frame placed so that a joint angle is a chosen number
    of degrees: the vertex at the origin, one end on the x axis at distance
    1, the other end on the unit circle. *)

Definition polar (d conf : R) : Joint :=
  mkJoint (cos (d * (PI / 180))) (sin (d * (PI / 180))) conf.

Definition at_origin (conf : R) : Joint := mkJoint 0 0 conf.

Definition on_x_axis (conf : R) : Joint := mkJoint 1 0 conf.

Definition unseen : Joint := mkJoint 0 0 0.

(** Left elbow at [dl] degrees seen with confidence [cl], right elbow at
    [dr] degrees seen with confidence [cr]; nothing else detected. *)
Definition arms_frame (dl cl dr cr : R) : list Joint :=
  [ unseen; unseen; unseen; unseen; unseen;
    polar dl cl; polar dr cr;             (* 5, 6: shoulders *)
    at_origin cl; at_origin cr;           (* 7, 8: elbows *)
    on_x_axis cl; on_x_axis cr;           (* 9, 10: wrists *)
    unseen; unseen; unseen; unseen; unseen; unseen ].

(** Left knee at [dl] degrees seen with confidence [cl], right knee at
    [dr] degrees seen with confidence [cr]; nothing else detected. *)
Definition legs_frame (dl cl dr cr : R) : list Joint :=
  [ unseen; unseen; unseen; unseen; unseen;
    unseen; unseen; unseen; unseen; unseen; unseen;
    polar dl cl; polar dr cr;             (* 11, 12: hips *)
    at_origin cl; at_origin cr;           (* 13, 14: knees *)
    on_x_axis cl; on_x_axis cr ].         (* 15, 16: ankles *)

(** Both shoulders at height [shoulder_y], both wrists at height [wrist_y],
    the four seen with confidence [conf]. *)
Definition hang_frame (shoulder_y wrist_y conf : R) : list Joint :=
  [ unseen; unseen; unseen; unseen; unseen;
    mkJoint 0 shoulder_y conf; mkJoint 1 shoulder_y conf;
    unseen; unseen;
    mkJoint 0 wrist_y conf; mkJoint 1 wrist_y conf;
    unseen; unseen; unseen; unseen; unseen; unseen ].

(** A frame in which only the right arm is seen, its elbow at [d] degrees. *)
Definition right_arm_at (d : R) : Keypoints := Some (arms_frame 0 0 d 1).

(** The synthetic push-up sequence, one frame per sample. *)
Definition pushup_sequence : list Keypoints :=
  map right_arm_at [170; 170; 170; 100; 100; 100; 170; 170; 170].

(** The rows of [kp] at [indices], where present, all have a confidence
    below [floor]. *)
Definition all_below (floor : R) (indices : list nat) (kp : list Joint) : Prop :=
  Forall (fun i => forall j, nth_error kp i = Some j -> jc j < floor) indices.

(** A frame that carries nothing to analyse for a counter reading the rows
    [indices] against [floor]: no person, or every such row below the floor. *)
Definition nothing_to_analyse (floor : R) (indices : list nat)
    (keypoints : Keypoints) : Prop :=
  no_person keypoints = true
  \/ exists kp, keypoints = Some kp /\ all_below floor indices kp.

(** A pull-up session about to confirm the way up: lowering confirmed and
    logged at displacement -20, two frames of upward movement seen. *)
Definition before_rep : PullUp.t :=
  PullUp.mk 0 0 "lowering_down" [0; 0; 0; 0] [(PullUp.down, 0, -20)] 0
    PullUp.down 2 0.

(** The frame that completes the rep, at clock reading 5. *)
Definition rep_frame : Clock * Keypoints :=
  (mkClock 5 5, Some (hang_frame 0 10 1)).

(** Lowering over three frames, then two frames of the next way up. *)
Definition next_cycle : list (Clock * Keypoints) :=
  [ (mkClock 6 6, Some (hang_frame 0 (-10) 1));
    (mkClock 7 7, Some (hang_frame 0 (-20) 1));
    (mkClock 8 8, Some (hang_frame 0 (-30) 1));
    (mkClock 9 9, Some (hang_frame 0 40 1));
    (mkClock 10 10, Some (hang_frame 0 50 1)) ].

(** The frame that completes the second rep, at clock reading 11. *)
Definition next_rep_frame : Clock * Keypoints :=
  (mkClock 11 11, Some (hang_frame 0 60 1)).

(** A pull-up session with four samples and two frames of upward movement. *)
Definition rising : PullUp.t :=
  PullUp.mk 0 0 "neutral" [0; 0; 0; 0] [] 0 PullUp.stable 2 0.

(** ** [WorkoutCounter.get_status] and [ExerciseCounter.get_status] *)

Module Status.

(** A value of the status dictionary. *)
Inductive Value : Type :=
| IntValue (z : Z)
| StrValue (s : string).

(** The dictionary, its keys in insertion order. *)
Definition Dict : Type := list (string * Value).

(** [d[key]] *)
Fixpoint get (d : Dict) (key : string) : option Value :=
  match d with
  | [] => None
  | (k, v) :: rest => if String.eqb k key then Some v else get rest key
  end.

(** [ExerciseCounter.get_status] *)
Definition counter_get_status (c : Workout.ExerciseCounter) : Dict :=
  [ ("count"%string, IntValue (Workout.counter_count c));
    ("frame_count"%string, IntValue (Workout.counter_frame_count c)) ].

(** [WorkoutCounter.get_status] *)
Definition get_status (w : Workout.t) : Dict :=
  match Workout.counter w with
  | Some c =>
      counter_get_status c ++ [("mode"%string, StrValue (Workout.mode w))]
  | None =>
      [ ("mode"%string, StrValue (Workout.mode w));
        ("count"%string, IntValue 0);
        ("frame_count"%string, IntValue 0) ]
  end.

End Status.

(** ** A [WorkoutCounter] driven by its caller *)

(** The calls a caller makes on a session. *)
Inductive Call : Type :=
| CallUpdate (cfg : Config) (clk : Clock) (keypoints : Keypoints)
| CallReset
| CallSwitchMode (new_mode : string).

Definition call (w : Workout.t) (c : Call) : Workout.t :=
  match c with
  | CallUpdate cfg clk keypoints => fst (Workout.update cfg clk w keypoints)
  | CallReset => Workout.reset w
  | CallSwitchMode new_mode => Workout.switch_mode w new_mode
  end.

(** The session after a sequence of calls. *)
Definition calls (w : Workout.t) (cs : list Call) : Workout.t :=
  fold_left call cs w.

(** Are two counters instances of the same class? *)
Definition same_class (c1 c2 : Workout.ExerciseCounter) : bool :=
  match c1, c2 with
  | Workout.PullUpCounter _, Workout.PullUpCounter _ => true
  | Workout.PushUpCounter _, Workout.PushUpCounter _ => true
  | Workout.SquatCounter _, Workout.SquatCounter _ => true
  | Workout.ArmCurlCounter _, Workout.ArmCurlCounter _ => true
  | _, _ => false
  end.

(** The direction of a change-log entry. *)
Definition change_direction (e : PullUp.Change) : PullUp.Direction :=
  fst (fst e).

(** No two neighbouring entries of a change log carry the same direction. *)
Fixpoint alternating (log : list PullUp.Change) : Prop :=
  match log with
  | e1 :: rest =>
      match rest with
      | e2 :: _ => change_direction e1 <> change_direction e2
      | [] => True
      end
      /\ alternating rest
  | [] => True
  end.

(** ** [utils.motivation] *)

Module Motivation.

(** [l[i]] for a Python list: negative indices count from the end, an index
    out of range is an [IndexError]. *)
Definition getitem {A : Type} (l : list A) (i : Z) : option A :=
  let n := Z.of_nat (List.length l) in
  if (i <? 0)%Z then
    if (0 <=? n + i)%Z then nth_error l (Z.to_nat (n + i)) else None
  else nth_error l (Z.to_nat i).

(** [str(n)] of an integer. *)
Definition str (n : Z) : string := NilZero.string_of_int (Z.to_int n).

Definition motivational_messages : list string :=
  [ "Yasss queen, slay it! 💃✨";
    "Work it, honeyyy! 🌈";
    "Slay đi em ơi! 🔥";
    "Cố lên diva ơi! 💖";
    "Shine bright, darling! ✨";
    "Beast mode on, baby! 🐯";
    "Push it, gorgeous! 😘";
    "Come throughhh, superstar! 🌟";
    "Ngầu quá trời, em ơi! 😍";
    "No pain, no glam, honey! 💎" ]%string.

(** [get_motivation_text]; [None] is an [IndexError]. *)
Definition get_motivation_text (rep_count : Z) : option string :=
  if (rep_count =? 0)%Z then Some "Ready to start!"%string
  else
    let message_index :=
      ((rep_count - 1) mod Z.of_nat (List.length motivational_messages))%Z in
    match getitem motivational_messages message_index with
    | Some selected_message =>
        Some ("Rep " ++ str rep_count ++ " - " ++ selected_message)%string
    | None => None
    end.

End Motivation.

(** ** [main]: the session handling of the two endpoints

    Of [analyze_frame] and [reset_session] the model keeps what happens to
    [workout_sessions] and to the counter: the mode check, the creation and
    replacement of the session, the frame counter, the dispatch on the pose
    result and the fields [repCount], [position], [motivation] and
    [framesSent] of the response.  Image decoding, pose detection (its result
    is the argument [keypoints]), debug frames, the rounded [angle] and the
    time stamp of the response are outside the model.  An exception raised
    on the way ends in an HTTP error, [None] here, with the session as it
    was changed up to then. *)

Module Main.

(** [config.supported_modes] *)
Definition supported_modes : list string :=
  ["chinup"; "pushup"; "squat"; "armcurl"]%string.

(** [mode in modes] *)
Definition mode_in (mode : string) (modes : list string) : bool :=
  existsb (String.eqb mode) modes.

(** [if mode not in config.supported_modes: mode = "chinup"] *)
Definition checked_mode (mode : string) : string :=
  if mode_in mode supported_modes then mode else "chinup"%string.

(** [workout_sessions], a dictionary with the one key ["default"]. *)
Definition Sessions : Type := option Workout.t.

Record Response : Type := mkResponse {
  repCount : Z;
  position : option string;
  motivation : string;
  framesSent : Z
}.

(** The session [analyze_frame] works on: created when there is none,
    replaced by a new, reset one when its mode is not the requested one,
    and with its frame counter advanced. *)
Definition session_for (sessions : Sessions) (mode : string) : Workout.t :=
  let counter :=
    match sessions with
    | None => Workout.init mode
    | Some w => w
    end in
  let counter :=
    if negb (String.eqb (Workout.mode counter) mode)
    then Workout.reset (Workout.init mode)
    else counter in
  Workout.mk (Workout.mode counter) (Workout.counter counter)
    (Workout.frame_count counter + 1).

(** [analyze_frame], from the mode check on. *)
Definition analyze_frame (cfg : Config) (clk : Clock) (sessions : Sessions)
    (mode : string) (keypoints : option (list Joint))
  : Sessions * option Response :=
  let mode := checked_mode mode in
  let counter := session_for sessions mode in
  match keypoints with
  | Some kp =>
      let '(counter, (rep_count, state)) :=
        Workout.update cfg clk counter (Some kp) in
      let respond (position_value : option string) :=
        match Motivation.get_motivation_text rep_count with
        | Some motivation =>
            (Some counter,
             Some (mkResponse rep_count position_value motivation
                     (Workout.frame_count counter)))
        | None => (Some counter, None)
        end in
      if mode_in mode ["chinup"; "pullup"]%string then
        let position_value :=
          match state with
          | Workout.PositionLabel l => Some l
          | Workout.AngleValue _ => None
          end in
        match nth_error kp 5, nth_error kp 6, nth_error kp 9, nth_error kp 10 with
        | Some _, Some _, Some _, Some _ => respond position_value
        | _, _, _, _ => (Some counter, None)
        end
      else respond None
  | None =>
      let rep_count := Workout.count counter in
      match Motivation.get_motivation_text rep_count with
      | Some motivation =>
          (Some counter,
           Some (mkResponse rep_count None motivation
                   (Workout.frame_count counter)))
      | None => (Some counter, None)
      end
  end.

(** [reset_session]: the new session; the response is a constant. *)
Definition reset_session (sessions : Sessions) (mode : string) : Sessions :=
  Some (Workout.init (checked_mode mode)).

End Main.

(** * Properties *)

(** ** Proof automation *)

Ltac break_if :=
  match goal with
  | |- context [if ?b then _ else _] => destruct b eqn:?
  end.

Ltac break_match :=
  match goal with
  | |- context [match ?x with _ => _ end] => destruct x eqn:?
  end.

Arguments Rltb _ _ : simpl never.
Arguments Rleb _ _ : simpl never.

Lemma Rltb_true (x y : R) : x < y -> Rltb x y = true.
Proof. intros H; unfold Rltb; destruct (Rlt_dec x y); [reflexivity | contradiction]. Qed.

Lemma Rltb_false (x y : R) : y <= x -> Rltb x y = false.
Proof. intros H; unfold Rltb; destruct (Rlt_dec x y); [lra | reflexivity]. Qed.

Lemma Rleb_true (x y : R) : x <= y -> Rleb x y = true.
Proof. intros H; unfold Rleb; destruct (Rle_dec x y); [reflexivity | contradiction]. Qed.

Lemma Rleb_false (x y : R) : y < x -> Rleb x y = false.
Proof. intros H; unfold Rleb; destruct (Rle_dec x y); [lra | reflexivity]. Qed.

Lemma Rltb_iff (x y : R) : Rltb x y = true <-> x < y.
Proof.
  unfold Rltb; destruct (Rlt_dec x y); split; intros; try reflexivity;
    try assumption; try discriminate; contradiction.
Qed.

Lemma Rleb_iff (x y : R) : Rleb x y = true <-> x <= y.
Proof.
  unfold Rleb; destruct (Rle_dec x y); split; intros; try reflexivity;
    try assumption; try discriminate; contradiction.
Qed.

Lemma Rltb_false_iff (x y : R) : Rltb x y = false <-> y <= x.
Proof.
  unfold Rltb; destruct (Rlt_dec x y); split; intros; try reflexivity;
    try discriminate; lra.
Qed.

Lemma Rleb_false_iff (x y : R) : Rleb x y = false <-> y < x.
Proof.
  unfold Rleb; destruct (Rle_dec x y); split; intros; try reflexivity;
    try discriminate; lra.
Qed.

Lemma Reqb_iff (x y : R) : PullUp.Reqb x y = true <-> x = y.
Proof.
  unfold PullUp.Reqb. destruct (Req_dec_T x y); split; intros;
    try reflexivity; try assumption; try discriminate; contradiction.
Qed.

Lemma Reqb_false_iff (x y : R) : PullUp.Reqb x y = false <-> x <> y.
Proof.
  unfold PullUp.Reqb. destruct (Req_dec_T x y); split; intros;
    try reflexivity; try assumption; try discriminate; contradiction.
Qed.

Lemma Reqb_true (x y : R) : x = y -> PullUp.Reqb x y = true.
Proof. apply Reqb_iff. Qed.

Lemma Reqb_false (x y : R) : x <> y -> PullUp.Reqb x y = false.
Proof. apply Reqb_false_iff. Qed.

(** ** The count never decreases *)

Section Monotone.

Context {S I : Type} {X : Type}.
Variable step : S -> I -> S * (Z * X).
Variable count : S -> Z.
Hypothesis step_returns_count :
  forall s i, fst (snd (step s i)) = count (fst (step s i)).
Hypothesis step_mono : forall s i, (count s <= count (fst (step s i)))%Z.

Lemma outputs_bounded_below (inputs : list I) :
  forall s, Forall (Z.le (count s)) (map fst (outputs step s inputs)).
Proof.
  unfold outputs.
  induction inputs as [|i rest IH]; intros s; simpl; constructor.
  - rewrite step_returns_count. apply step_mono.
  - eapply Forall_impl; [| apply IH].
    intros n Hn. pose proof (step_mono s i). lia.
Qed.

Lemma outputs_sorted (inputs : list I) :
  forall s, StronglySorted Z.le (count s :: map fst (outputs step s inputs)).
Proof.
  intros s. constructor; [| apply outputs_bounded_below].
  revert s. induction inputs as [|i rest IH]; intros s;
    unfold outputs; simpl; constructor.
  - apply IH.
  - rewrite step_returns_count. apply outputs_bounded_below.
Qed.

End Monotone.

Lemma pushup_update_mono (s : PushUp.t) (a : option R) :
  (PushUp.count s <= PushUp.count (PushUp.update_state_and_count s a))%Z.
Proof.
  unfold PushUp.update_state_and_count, PushUp._change_state.
  repeat (first [break_match | break_if]; simpl); lia.
Qed.

Lemma pushup_analyze_angle_mono (s : PushUp.t) (a : option R) (c : R) :
  (PushUp.count s <= PushUp.count (fst (PushUp.analyze_angle s a c)))%Z.
Proof.
  unfold PushUp.analyze_angle, PushUp.smooth_angle.
  destruct a as [a|]; cbn [fst]; [| lia].
  break_if; cbn [fst]; [lia |].
  break_if; cbn [fst];
    (eapply Z.le_trans; [| apply pushup_update_mono]); simpl; lia.
Qed.

Lemma pushup_analyze_angle_returns (s : PushUp.t) (a : option R) (c : R) :
  fst (snd (PushUp.analyze_angle s a c)) = PushUp.count (fst (PushUp.analyze_angle s a c)).
Proof.
  unfold PushUp.analyze_angle, PushUp.smooth_angle.
  repeat (first [break_match | break_if]; simpl); reflexivity.
Qed.

Lemma pushup_mono (s : PushUp.t) (kp : Keypoints) :
  (PushUp.count s <= PushUp.count (fst (PushUp.analyze_pose s kp)))%Z.
Proof.
  unfold PushUp.analyze_pose.
  destruct kp as [[|j kp]|]; simpl; try lia.
  destruct (PushUp.get_best_arm_angle _ _) as [a c].
  eapply Z.le_trans; [| apply pushup_analyze_angle_mono]; simpl; lia.
Qed.

Lemma pushup_returns (s : PushUp.t) (kp : Keypoints) :
  fst (snd (PushUp.analyze_pose s kp)) = PushUp.count (fst (PushUp.analyze_pose s kp)).
Proof.
  unfold PushUp.analyze_pose.
  destruct kp as [[|j kp]|]; simpl; try reflexivity.
  destruct (PushUp.get_best_arm_angle _ _) as [a c].
  apply pushup_analyze_angle_returns.
Qed.

Lemma squat_analyze_angle_mono (s : Squat.t) (a : option R) (c : R) :
  (Squat.count s <= Squat.count (fst (Squat.analyze_angle s a c)))%Z
  /\ fst (snd (Squat.analyze_angle s a c)) = Squat.count (fst (Squat.analyze_angle s a c)).
Proof.
  unfold Squat.analyze_angle.
  repeat (first [break_match | break_if]; simpl); split; first [lia | reflexivity].
Qed.

Lemma squat_mono (s : Squat.t) (kp : Keypoints) :
  (Squat.count s <= Squat.count (fst (Squat.analyze_pose s kp)))%Z
  /\ fst (snd (Squat.analyze_pose s kp)) = Squat.count (fst (Squat.analyze_pose s kp)).
Proof.
  unfold Squat.analyze_pose.
  destruct kp as [[|j kp]|]; simpl; try (split; [lia | reflexivity]).
  destruct (Squat.get_best_leg_angle _) as [a c].
  split; [| apply squat_analyze_angle_mono].
  eapply Z.le_trans; [| apply squat_analyze_angle_mono]; simpl; lia.
Qed.

Lemma armcurl_analyze_angle_mono (s : ArmCurl.t) (a : option R) (c : R) :
  (ArmCurl.count s <= ArmCurl.count (fst (ArmCurl.analyze_angle s a c)))%Z
  /\ fst (snd (ArmCurl.analyze_angle s a c)) = ArmCurl.count (fst (ArmCurl.analyze_angle s a c)).
Proof.
  unfold ArmCurl.analyze_angle.
  repeat (first [break_match | break_if]; simpl); split; first [lia | reflexivity].
Qed.

Lemma armcurl_mono (s : ArmCurl.t) (kp : Keypoints) :
  (ArmCurl.count s <= ArmCurl.count (fst (ArmCurl.analyze_pose s kp)))%Z
  /\ fst (snd (ArmCurl.analyze_pose s kp)) = ArmCurl.count (fst (ArmCurl.analyze_pose s kp)).
Proof.
  unfold ArmCurl.analyze_pose.
  destruct kp as [[|j kp]|]; simpl; try (split; [lia | reflexivity]).
  destruct (ArmCurl.get_best_arm_angle _) as [[a c] side].
  apply armcurl_analyze_angle_mono.
Qed.

Lemma pullup_detect_count (cfg : Config) (now : R) (s : PullUp.t) (d : R) :
  PullUp.count (fst (PullUp.detect_direction_change cfg now s d)) = PullUp.count s.
Proof.
  unfold PullUp.detect_direction_change.
  repeat (first [break_match | break_if]; simpl); reflexivity.
Qed.

Lemma pullup_mono (cfg : Config) (clk : Clock) (s : PullUp.t) (kp : Keypoints) :
  (PullUp.count s <= PullUp.count (fst (PullUp.analyze_pose cfg clk s kp)))%Z
  /\ fst (snd (PullUp.analyze_pose cfg clk s kp))
     = PullUp.count (fst (PullUp.analyze_pose cfg clk s kp)).
Proof.
  unfold PullUp.analyze_pose.
  destruct kp as [[|j kp]|]; simpl; try (split; [lia | reflexivity]).
  repeat (break_match; simpl; try (split; [lia | reflexivity])).
  all: match goal with
       | H : PullUp.detect_direction_change ?c ?n ?s0 ?d = (?s1, _) |- _ =>
           pose proof (pullup_detect_count c n s0 d) as Hc;
           rewrite H in Hc; simpl in Hc
       end;
       split; first [lia | reflexivity].
Qed.

(** C1: for each of the four counters and every sequence of frames, the
    counts returned by successive [analyze_pose] calls (preceded by the
    count the session starts from) are non-decreasing, and right after
    [reset] the count is 0. *)
Theorem count_nondecreasing_and_reset_zero :
  (forall (cfg : Config) (s : PullUp.t) (frames : list (Clock * Keypoints)),
      StronglySorted Z.le
        (PullUp.count s :: map fst (outputs (pullup_step cfg) s frames))
      /\ PullUp.count (PullUp.reset s) = 0%Z)
  /\ (forall (s : PushUp.t) (frames : list Keypoints),
      StronglySorted Z.le
        (PushUp.count s :: map fst (outputs PushUp.analyze_pose s frames))
      /\ PushUp.count (PushUp.reset s) = 0%Z)
  /\ (forall (s : Squat.t) (frames : list Keypoints),
      StronglySorted Z.le
        (Squat.count s :: map fst (outputs Squat.analyze_pose s frames))
      /\ Squat.count (Squat.reset s) = 0%Z)
  /\ (forall (s : ArmCurl.t) (frames : list Keypoints),
      StronglySorted Z.le
        (ArmCurl.count s :: map fst (outputs ArmCurl.analyze_pose s frames))
      /\ ArmCurl.count (ArmCurl.reset s) = 0%Z).
Proof.
  repeat split; try reflexivity.
  - apply outputs_sorted; intros s0 i; unfold pullup_step; apply pullup_mono.
  - apply outputs_sorted; intros s0 i; [apply pushup_returns | apply pushup_mono].
  - apply outputs_sorted; intros s0 i; apply squat_mono.
  - apply outputs_sorted; intros s0 i; apply armcurl_mono.
Qed.

(** ** GeometryOps *)

Lemma degrees_range (x : R) : 0 <= x <= PI -> 0 <= Geometry.degrees x <= 180.
Proof.
  intros [H0 H1]. unfold Geometry.degrees.
  pose proof PI_RGT_0 as Hpi.
  assert (Hk : 0 < 180 / PI) by (apply Rdiv_lt_0_compat; lra).
  split.
  - apply Rmult_le_pos; lra.
  - replace 180 with (PI * (180 / PI)) at 2 by (field; lra).
    apply Rmult_le_compat_r; lra.
Qed.

Lemma angle_sym (a b c : Joint) : Geometry.angle a b c = Geometry.angle c b a.
Proof.
  unfold Geometry.angle. cbv zeta.
  rewrite orb_comm. break_if; [reflexivity |].
  unfold Geometry.dot.
  rewrite (Rmult_comm (Geometry.norm (jx a - jx b) (jy a - jy b))).
  do 4 f_equal. f_equal. ring.
Qed.

Lemma angle_degenerate (a b c : Joint) :
  Geometry.norm (jx a - jx b) (jy a - jy b) < Geometry.epsilon
  \/ Geometry.norm (jx c - jx b) (jy c - jy b) < Geometry.epsilon ->
  Geometry.angle a b c = None.
Proof.
  intros H. unfold Geometry.angle. cbv zeta.
  destruct H as [H | H]; rewrite (Rltb_true _ _ H);
    [| rewrite orb_true_r]; reflexivity.
Qed.

Lemma angle_valid (a b c : Joint) :
  Geometry.epsilon <= Geometry.norm (jx a - jx b) (jy a - jy b) ->
  Geometry.epsilon <= Geometry.norm (jx c - jx b) (jy c - jy b) ->
  exists g, Geometry.angle a b c = Some g /\ 0 <= g <= 180.
Proof.
  intros H1 H2. unfold Geometry.angle. cbv zeta.
  rewrite (Rltb_false _ _ H1), (Rltb_false _ _ H2). simpl.
  eexists; split; [reflexivity |].
  apply degrees_range, acos_bound.
Qed.

Lemma angle_in_range (a b c : Joint) (g : R) :
  Geometry.angle a b c = Some g -> 0 <= g <= 180.
Proof.
  unfold Geometry.angle. cbv zeta. break_if; [discriminate |].
  intros H; injection H as <-. apply degrees_range, acos_bound.
Qed.

Lemma armcurl_calculate_angle_eq (a b c : Joint) :
  ArmCurl.calculate_angle a b c = Geometry.angle a b c.
Proof.
  unfold ArmCurl.calculate_angle.
  destruct (Geometry.angle a b c) as [g|] eqn:Hg; [| reflexivity].
  apply angle_in_range in Hg as [H0 H1].
  rewrite (Rleb_true _ _ H0), (Rleb_true _ _ H1). reflexivity.
Qed.

Lemma norm_zero : Geometry.norm 0 0 = 0.
Proof.
  unfold Geometry.norm. replace (0 * 0 + 0 * 0) with 0 by ring. apply sqrt_0.
Qed.

Lemma epsilon_pos : 0 < Geometry.epsilon.
Proof. unfold Geometry.epsilon. apply Rinv_0_lt_compat. lra. Qed.

Lemma epsilon_lt_1 : Geometry.epsilon < 1.
Proof.
  unfold Geometry.epsilon. rewrite <- Rinv_1.
  apply Rinv_lt_contravar; lra.
Qed.

(** C9: when both vectors [b->a] and [b->c] have magnitude at least
    [epsilon], every [calculate_angle] returns a number in [0, 180] and the
    same number for [(c, b, a)]; when one of them is shorter than [epsilon],
    in particular when [a] or [c] has the coordinates of [b], it returns
    [None]. *)
Theorem calculate_angle_range_symmetry_degenerate (a b c : Joint) :
  (Geometry.epsilon <= Geometry.norm (jx a - jx b) (jy a - jy b) ->
   Geometry.epsilon <= Geometry.norm (jx c - jx b) (jy c - jy b) ->
   exists g,
     0 <= g <= 180
     /\ PushUp.calculate_angle a b c = Some g
     /\ PushUp.calculate_angle c b a = Some g
     /\ Squat.calculate_angle a b c = Some g
     /\ Squat.calculate_angle c b a = Some g
     /\ ArmCurl.calculate_angle a b c = Some g
     /\ ArmCurl.calculate_angle c b a = Some g)
  /\ (Geometry.norm (jx a - jx b) (jy a - jy b) < Geometry.epsilon
      \/ Geometry.norm (jx c - jx b) (jy c - jy b) < Geometry.epsilon ->
      PushUp.calculate_angle a b c = None
      /\ Squat.calculate_angle a b c = None
      /\ ArmCurl.calculate_angle a b c = None)
  /\ ((jx a = jx b /\ jy a = jy b) \/ (jx c = jx b /\ jy c = jy b) ->
      PushUp.calculate_angle a b c = None
      /\ Squat.calculate_angle a b c = None
      /\ ArmCurl.calculate_angle a b c = None).
Proof.
  unfold PushUp.calculate_angle, Squat.calculate_angle.
  rewrite !armcurl_calculate_angle_eq.
  assert (Hdeg :
    Geometry.norm (jx a - jx b) (jy a - jy b) < Geometry.epsilon
    \/ Geometry.norm (jx c - jx b) (jy c - jy b) < Geometry.epsilon ->
    Geometry.angle a b c = None /\ Geometry.angle a b c = None
    /\ Geometry.angle a b c = None).
  { intros H. rewrite (angle_degenerate a b c H). repeat split. }
  split; [| split].
  - intros H1 H2. destruct (angle_valid a b c H1 H2) as [g [Hg Hr]].
    exists g. rewrite <- (angle_sym a b c). repeat split; try assumption; apply Hr.
  - exact Hdeg.
  - intros H. apply Hdeg. pose proof epsilon_pos.
    destruct H as [[Hx Hy] | [Hx Hy]]; [left | right];
      rewrite Hx, Hy, !Rminus_diag, norm_zero; assumption.
Qed.

(** ** Concrete frames *)

Lemma angle_polar (d c1 c2 c3 : R) :
  0 <= d <= 180 ->
  Geometry.angle (polar d c1) (at_origin c2) (on_x_axis c3) = Some d.
Proof.
  intros Hd. pose proof PI_RGT_0 as Hpi.
  unfold Geometry.angle, polar, at_origin, on_x_axis. cbn [jx jy].
  set (t := d * (PI / 180)).
  assert (Ht : 0 <= t <= PI).
  { unfold t. split.
    - apply Rmult_le_pos; [lra |]. apply Rlt_le, Rdiv_lt_0_compat; lra.
    - replace PI with (180 * (PI / 180)) at 2 by (field; lra).
      apply Rmult_le_compat_r; [| lra].
      apply Rlt_le, Rdiv_lt_0_compat; lra. }
  assert (N1 : Geometry.norm (cos t - 0) (sin t - 0) = 1).
  { unfold Geometry.norm.
    replace ((cos t - 0) * (cos t - 0) + (sin t - 0) * (sin t - 0))
      with ((sin t)² + (cos t)²) by (unfold Rsqr; ring).
    rewrite sin2_cos2. apply sqrt_1. }
  assert (N2 : Geometry.norm (1 - 0) (0 - 0) = 1).
  { unfold Geometry.norm.
    replace ((1 - 0) * (1 - 0) + (0 - 0) * (0 - 0)) with 1 by ring.
    apply sqrt_1. }
  rewrite N1, N2. pose proof epsilon_lt_1 as He.
  rewrite (Rltb_false 1 Geometry.epsilon) by lra. cbn [orb].
  unfold Geometry.dot, Geometry.clip.
  replace ((cos t - 0) * (1 - 0) + (sin t - 0) * (0 - 0)) with (cos t) by ring.
  replace (cos t / (1 * 1)) with (cos t) by (field).
  pose proof (COS_bound t) as [Hc1 Hc2].
  rewrite Rmax_left by lra. rewrite Rmin_left by lra.
  rewrite acos_cos by exact Ht.
  unfold Geometry.degrees, t. f_equal. field. lra.
Qed.

Lemma trace_step {S I O : Type} (step : S -> I -> S * O) (s s' : S) (o : O)
    (i : I) (rest : list I) :
  step s i = (s', o) ->
  trace step s (i :: rest) = (s', o) :: trace step s' rest.
Proof. intros H. simpl. rewrite H. reflexivity. Qed.

(** Settle the float comparisons of a goal about concrete numbers. *)
Ltac Rnum :=
  unfold mean, lastn, Rsum; cbn; unfold Rabs, Rmin, Rmax;
  repeat match goal with
    | |- context [Rcase_abs ?x] => destruct (Rcase_abs x)
    | |- context [Rle_dec ?x ?y] => destruct (Rle_dec x y)
    end;
  lra.

Ltac Rdecide :=
  unfold Rgtb, Rgeb;
  repeat first
    [ rewrite Rltb_true by Rnum
    | rewrite Rltb_false by Rnum
    | rewrite Rleb_true by Rnum
    | rewrite Rleb_false by Rnum
    | rewrite Reqb_true by Rnum
    | rewrite Reqb_false by Rnum ].

Lemma pushup_sees_right_arm (s : PushUp.t) (d : R) :
  0 <= d <= 180 -> 0 < PushUp.MIN_CONFIDENCE s <= 1 ->
  PushUp.get_best_arm_angle s (arms_frame 0 0 d 1) = (Some d, (1 + 1 + 1) / 3).
Proof.
  intros Hd Hm. unfold PushUp.get_best_arm_angle, arms_frame.
  cbn [nth_error PushUp.R_SHOULDER PushUp.R_ELBOW PushUp.R_WRIST
       PushUp.L_SHOULDER PushUp.L_ELBOW PushUp.L_WRIST].
  cbn [jc polar at_origin on_x_axis]. unfold Rgeb.
  rewrite (Rleb_true (PushUp.MIN_CONFIDENCE s)) by lra.
  rewrite (Rleb_false (PushUp.MIN_CONFIDENCE s)) by lra.
  cbv iota. unfold PushUp.calculate_angle. rewrite angle_polar by exact Hd.
  reflexivity.
Qed.

Lemma pushup_frame_step (s : PushUp.t) (d : R) :
  0 <= d <= 180 -> 0 < PushUp.MIN_CONFIDENCE s <= 1 ->
  PushUp.analyze_pose s (right_arm_at d)
  = PushUp.analyze_angle (PushUp.set_frame_count s (PushUp.frame_count s + 1))
      (Some d) ((1 + 1 + 1) / 3).
Proof.
  intros Hd Hm. unfold PushUp.analyze_pose, right_arm_at.
  rewrite pushup_sees_right_arm by assumption. reflexivity.
Qed.

(** Run the push-up counter on one [right_arm_at] frame from a concrete
    state. *)
Ltac pushup_frame :=
  rewrite pushup_frame_step by (cbn; lra);
  unfold PushUp.analyze_angle, PushUp.smooth_angle,
    PushUp.update_state_and_count, PushUp._change_state;
  cbn; repeat (Rdecide; cbn); reflexivity.

Lemma pushup_sequence_trace :
  trace PushUp.analyze_pose PushUp.init pushup_sequence
  = [ (PushUp.mk 0 1 PushUp.UP 0 [170] false 135 105 (3 / 10) 2,
       (0%Z, Some 170));
      (PushUp.mk 0 2 PushUp.UP 0 [170; 170] false 135 105 (3 / 10) 2,
       (0%Z, Some (mean [170; 170])));
      (PushUp.mk 0 3 PushUp.UP 0 [170; 170; 170] false 135 105 (3 / 10) 2,
       (0%Z, Some (mean [170; 170])));
      (PushUp.mk 0 4 PushUp.UP 0 [170; 170; 100] false 135 105 (3 / 10) 2,
       (0%Z, Some (mean [170; 100])));
      (PushUp.mk 0 5 PushUp.DOWN 5 [170; 100; 100] true 135 105 (3 / 10) 2,
       (0%Z, Some (mean [100; 100])));
      (PushUp.mk 0 6 PushUp.DOWN 5 [100; 100; 100] true 135 105 (3 / 10) 2,
       (0%Z, Some (mean [100; 100])));
      (PushUp.mk 0 7 PushUp.DOWN 5 [100; 100; 170] true 135 105 (3 / 10) 2,
       (0%Z, Some (mean [100; 170])));
      (PushUp.mk 1 8 PushUp.UP 8 [100; 170; 170] false 135 105 (3 / 10) 2,
       (1%Z, Some (mean [170; 170])));
      (PushUp.mk 1 9 PushUp.UP 8 [170; 170; 170] false 135 105 (3 / 10) 2,
       (1%Z, Some (mean [170; 170]))) ].
Proof.
  unfold pushup_sequence, PushUp.init. cbn [map].
  repeat (erewrite trace_step; [f_equal | pushup_frame]).
Qed.

(** C2: the push-up counter, from its initial state (dwell 2, thresholds
    135 and 105), fed the angles 170, 170, 170, 100, 100, 100, 170, 170, 170
    one frame each, ends with count 1.  The state after each frame and the
    count and smoothed angle each call returns are as listed: the counter
    is still UP after frame 4 and DOWN from frame 5, where the smoothed
    angle is 100; at frame 7 the smoothed angle is 135, not above the
    threshold; at frame 8 it is 170 and the count becomes 1. *)
Theorem pushup_synthetic_sequence_counts_one :
  PushUp.MIN_FRAMES_IN_STATE PushUp.init = 2%Z
  /\ PushUp.UP_ANGLE_THRESHOLD PushUp.init = 135
  /\ PushUp.DOWN_ANGLE_THRESHOLD PushUp.init = 105
  /\ PushUp.count (final PushUp.analyze_pose PushUp.init pushup_sequence) = 1%Z
  /\ map (fun s => (PushUp.state s, PushUp.count s))
       (states PushUp.analyze_pose PushUp.init pushup_sequence)
     = [ (PushUp.UP, 0%Z); (PushUp.UP, 0%Z); (PushUp.UP, 0%Z);
         (PushUp.UP, 0%Z); (PushUp.DOWN, 0%Z); (PushUp.DOWN, 0%Z);
         (PushUp.DOWN, 0%Z); (PushUp.UP, 1%Z); (PushUp.UP, 1%Z) ]
  /\ Forall2 (fun out expected => out = (fst expected, Some (snd expected)))
       (outputs PushUp.analyze_pose PushUp.init pushup_sequence)
       [ (0%Z, 170); (0%Z, 170); (0%Z, 170); (0%Z, 135); (0%Z, 100);
         (0%Z, 100); (0%Z, 135); (1%Z, 170); (1%Z, 170) ].
Proof.
  unfold final, states, outputs. rewrite pushup_sequence_trace.
  repeat split.
  cbn [map fst snd].
  repeat constructor; cbn [fst snd]; do 2 f_equal; Rnum.
Qed.

(** ** The motion counter: direction confirmation *)

Lemma Rmax_0_nonneg (x : R) : 0 <= Rmax 0 x.
Proof. apply Rmax_l. Qed.

Lemma decay_spec (c : R) : 0 <= c -> PullUp.decay c = Rmax 0 (c - 1 / 2).
Proof.
  intros Hc. unfold PullUp.decay, Rgtb.
  destruct (Rltb 0 c) eqn:E; [reflexivity |].
  apply Rltb_false_iff in E. rewrite Rmax_left by lra. lra.
Qed.

Lemma Direction_eqb_eq (x y : PullUp.Direction) :
  PullUp.Direction_eqb x y = true <-> x = y.
Proof. destruct x, y; simpl; split; intros; congruence. Qed.

(** Turn the boolean tests in the context into (in)equalities. *)
Ltac reflect_tests :=
  unfold Rgtb, Rgeb in *;
  repeat match goal with
    | H : Rltb _ _ = true |- _ => apply Rltb_iff in H
    | H : Rltb _ _ = false |- _ => apply Rltb_false_iff in H
    | H : Rleb _ _ = true |- _ => apply Rleb_iff in H
    | H : Rleb _ _ = false |- _ => apply Rleb_false_iff in H
    | H : PullUp.Reqb _ _ = true |- _ => apply Reqb_iff in H
    | H : PullUp.Reqb _ _ = false |- _ => apply Reqb_false_iff in H
    | H : (_ && _)%bool = false |- _ => apply andb_false_iff in H; destruct H
    | H : (_ && _)%bool = true |- _ => apply andb_true_iff in H; destruct H
    | H : (_ <? _)%nat = true |- _ => apply Nat.ltb_lt in H
    | H : (_ <? _)%nat = false |- _ => apply Nat.ltb_ge in H
    end.

(** C3: [detect_direction_change] on a frame that is classified (the
    position window holds at least 5 samples once the new one is in), the
    consecutive counters being non-negative on entry.  A frame moving up
    adds 1 to the up counter and zeroes the down counter, a frame moving
    down does the opposite, and a stable frame lowers both by 0.5 without
    going below zero.  The confirmed direction becomes up or down once the
    corresponding counter has reached [min_consecutive_frames] (3 in the
    configuration), becomes stable when both counters are 0, and is the
    previous confirmed direction in every other case. *)
Theorem direction_confirmation_is_sticky
    (cfg : Config) (now : R) (s : PullUp.t) (current_diff : R) :
  let h := deque_append 30 (PullUp.position_history s) current_diff in
  let movement := last (lastn 5 h) 0 - hd 0 (lastn 5 h) in
  let r := PullUp.detect_direction_change cfg now s current_diff in
  let ups := PullUp.consecutive_up_frames (fst r) in
  let downs := PullUp.consecutive_down_frames (fst r) in
  (5 <= List.length h)%nat ->
  0 <= PullUp.consecutive_up_frames s ->
  0 <= PullUp.consecutive_down_frames s ->
  min_consecutive_frames config = 3
  /\ (movement > movement_threshold cfg ->
      ups = PullUp.consecutive_up_frames s + 1 /\ downs = 0)
  /\ (movement <= movement_threshold cfg ->
      movement < - movement_threshold cfg ->
      downs = PullUp.consecutive_down_frames s + 1 /\ ups = 0)
  /\ (movement <= movement_threshold cfg ->
      - movement_threshold cfg <= movement ->
      ups = Rmax 0 (PullUp.consecutive_up_frames s - 1 / 2)
      /\ downs = Rmax 0 (PullUp.consecutive_down_frames s - 1 / 2))
  /\ 0 <= ups /\ 0 <= downs
  /\ (min_consecutive_frames cfg <= ups ->
      PullUp.current_direction (fst r) = PullUp.up)
  /\ (ups < min_consecutive_frames cfg -> min_consecutive_frames cfg <= downs ->
      PullUp.current_direction (fst r) = PullUp.down)
  /\ (ups < min_consecutive_frames cfg -> downs < min_consecutive_frames cfg ->
      ups = 0 -> downs = 0 ->
      PullUp.current_direction (fst r) = PullUp.stable)
  /\ (ups < min_consecutive_frames cfg -> downs < min_consecutive_frames cfg ->
      ~ (ups = 0 /\ downs = 0) ->
      PullUp.current_direction (fst r) = PullUp.current_direction s)
  /\ fst (snd r) = PullUp.current_direction (fst r).
Proof.
  intros h movement r ups downs Hlen Hup Hdown.
  split; [reflexivity |].
  subst ups downs r. unfold PullUp.detect_direction_change.
  fold h. apply Nat.ltb_ge in Hlen. rewrite Hlen. fold movement.
  pose proof (decay_spec _ Hup) as Du. pose proof (decay_spec _ Hdown) as Dd.
  pose proof (Rmax_0_nonneg (PullUp.consecutive_up_frames s - 1 / 2)).
  pose proof (Rmax_0_nonneg (PullUp.consecutive_down_frames s - 1 / 2)).
  destruct (Rgtb movement (movement_threshold cfg)) eqn:E1;
    [| destruct (Rltb movement (- movement_threshold cfg)) eqn:E2];
    cbv iota beta; rewrite ?Du, ?Dd;
    repeat (break_if; cbn [fst snd PullUp.consecutive_up_frames
                             PullUp.consecutive_down_frames
                             PullUp.current_direction]);
    reflect_tests;
    repeat match goal with
      | H : negb (PullUp.Direction_eqb _ _) = false |- _ =>
          apply negb_false_iff, Direction_eqb_eq in H
      end;
    repeat split; intros; try lra; try congruence; try tauto.
Qed.

Lemma direction_confirmation_witness :
  ((5 <= List.length (deque_append 30 (PullUp.position_history rising) 10%R))%nat
   /\ 0 <= PullUp.consecutive_up_frames rising
   /\ 0 <= PullUp.consecutive_down_frames rising)
  /\ PullUp.consecutive_up_frames
       (fst (PullUp.detect_direction_change config 0 rising 10)) = 2 + 1
  /\ PullUp.current_direction
       (fst (PullUp.detect_direction_change config 0 rising 10)) = PullUp.up.
Proof.
  assert (L : (5 <= List.length
                 (deque_append 30 (PullUp.position_history rising) 10%R))%nat)
    by (cbn; lia).
  assert (U : 0 <= PullUp.consecutive_up_frames rising) by (cbn; lra).
  assert (D : 0 <= PullUp.consecutive_down_frames rising) by (cbn; lra).
  pose proof (direction_confirmation_is_sticky config 0 rising 10 L U D) as T.
  cbv zeta in T.
  destruct T as (_ & Hup & _ & _ & _ & _ & Hconf & _).
  assert (M : last (lastn 5 (deque_append 30 (PullUp.position_history rising) 10)) 0
              - hd 0 (lastn 5 (deque_append 30 (PullUp.position_history rising) 10))
              > movement_threshold config) by (cbn; lra).
  destruct (Hup M) as [E _].
  split; [repeat split; assumption |].
  split; [exact E |].
  apply Hconf. rewrite E. cbn. lra.
Defined.

(** ** The motion counter: rep detection *)

Lemma last_cons {A : Type} (l : list A) (x d : A) : last (x :: l) d = last l x.
Proof.
  revert x d. induction l as [|y l IH]; intros x d; [reflexivity |].
  change (last (x :: y :: l) d) with (last (y :: l) d).
  rewrite (IH y d), (IH y x). reflexivity.
Qed.

Lemma final_cons {S I O : Type} (step : S -> I -> S * O) (s : S) (i : I)
    (rest : list I) :
  final step s (i :: rest) = final step (fst (step s i)) rest.
Proof. unfold final, states. cbn [trace map]. apply last_cons. Qed.

(** Below five samples the frame is not classified: only the position
    window changes. *)
Lemma direction_kept_while_starting (cfg : Config) (now : R) (s : PullUp.t)
    (current_diff : R) :
  (List.length (deque_append 30 (PullUp.position_history s) current_diff) < 5)%nat ->
  let r := PullUp.detect_direction_change cfg now s current_diff in
  snd r = (PullUp.starting, 0)
  /\ PullUp.current_direction (fst r) = PullUp.current_direction s
  /\ PullUp.consecutive_up_frames (fst r) = PullUp.consecutive_up_frames s
  /\ PullUp.consecutive_down_frames (fst r) = PullUp.consecutive_down_frames s
  /\ PullUp.direction_history (fst r) = PullUp.direction_history s.
Proof.
  intros H. apply Nat.ltb_lt in H. unfold PullUp.detect_direction_change.
  rewrite H. repeat split.
Qed.

Lemma detect_counters_nonneg (cfg : Config) (now : R) (s : PullUp.t) (d : R) :
  0 <= PullUp.consecutive_up_frames s ->
  0 <= PullUp.consecutive_down_frames s ->
  0 <= PullUp.consecutive_up_frames
         (fst (PullUp.detect_direction_change cfg now s d))
  /\ 0 <= PullUp.consecutive_down_frames
            (fst (PullUp.detect_direction_change cfg now s d)).
Proof.
  intros Hu Hd.
  pose proof (Rmax_0_nonneg (PullUp.consecutive_up_frames s - 1 / 2)).
  pose proof (Rmax_0_nonneg (PullUp.consecutive_down_frames s - 1 / 2)).
  unfold PullUp.detect_direction_change.
  rewrite (decay_spec _ Hu), (decay_spec _ Hd).
  break_if; [split; assumption |].
  destruct (Rgtb _ _); [| destruct (Rltb _ _)]; cbv iota beta;
    repeat (break_if; cbn [fst PullUp.consecutive_up_frames
                             PullUp.consecutive_down_frames]);
    split; lra.
Qed.

(** The consecutive counters start at 0 and stay non-negative. *)
Lemma consecutive_counters_nonneg (cfg : Config)
    (frames : list (Clock * Keypoints)) :
  forall s,
    0 <= PullUp.consecutive_up_frames s ->
    0 <= PullUp.consecutive_down_frames s ->
    0 <= PullUp.consecutive_up_frames (final (pullup_step cfg) s frames)
    /\ 0 <= PullUp.consecutive_down_frames (final (pullup_step cfg) s frames).
Proof.
  induction frames as [|f rest IH]; intros s Hu Hd; [split; assumption |].
  rewrite final_cons.
  assert (Hstep :
    0 <= PullUp.consecutive_up_frames (fst (pullup_step cfg s f))
    /\ 0 <= PullUp.consecutive_down_frames (fst (pullup_step cfg s f))).
  { unfold pullup_step, PullUp.analyze_pose.
    destruct (snd f) as [[|j kp]|]; cbn [fst]; try (split; assumption).
    repeat (break_match; cbn [fst]; try (split; assumption)).
    all: match goal with
         | H : PullUp.detect_direction_change ?c ?n ?s0 ?d = (?s1, _) |- _ =>
             pose proof (detect_counters_nonneg c n s0 d Hu Hd) as Hc;
             rewrite H in Hc; cbn [fst] in Hc; exact Hc
         end. }
  destruct Hstep as [Hu' Hd']. apply IH; assumption.
Qed.

Lemma lastn_app2 {A : Type} (pre : list A) (a b : A) :
  lastn 2 (pre ++ [a; b]) = [a; b].
Proof.
  unfold lastn. rewrite length_app. cbn [List.length].
  replace (List.length pre + 2 - 2)%nat with (List.length pre + 0)%nat by lia.
  rewrite skipn_app, Nat.add_0_r, skipn_all.
  replace (List.length pre - List.length pre)%nat with 0%nat by lia.
  reflexivity.
Qed.

Lemma lastn_2_inv {A : Type} (l : list A) (a b : A) :
  lastn 2 l = [a; b] -> exists pre, l = pre ++ [a; b].
Proof.
  unfold lastn. intros H. exists (firstn (List.length l - 2) l).
  rewrite <- H. symmetry. apply firstn_skipn.
Qed.

Lemma deque_append_length {A : Type} (n : nat) (l : list A) (x : A) :
  (List.length (deque_append n l x) <= List.length l + 1)%nat.
Proof.
  unfold deque_append. break_if.
  - rewrite length_app. simpl. lia.
  - destruct l; simpl; [lia |]. rewrite length_app. simpl. lia.
Qed.

Lemma rep_detected_spec (cfg : Config) (t : R) (s : PullUp.t) :
  PullUp.rep_detected cfg t s = true <->
  t - PullUp.last_rep_time s > rep_cooldown cfg
  /\ exists pre t0 x0 t1 x1,
       PullUp.direction_history s
       = pre ++ [(PullUp.down, t0, x0); (PullUp.up, t1, x1)]
       /\ Rabs (x1 - x0) > min_movement_range cfg.
Proof.
  unfold PullUp.rep_detected. split.
  - intros H.
    destruct (Rgtb _ _) eqn:E1; [| discriminate].
    destruct (2 <=? _)%nat eqn:E2; [| discriminate].
    destruct (lastn 2 _) as [|[[d0 t0] x0] [|[[d1 t1] x1] [|]]] eqn:E3;
      try discriminate.
    destruct (PullUp.Direction_eqb d0 PullUp.down && _)%bool eqn:E4;
      [| discriminate].
    apply andb_true_iff in E4 as [D0 D1].
    apply Direction_eqb_eq in D0, D1. subst d0 d1.
    apply lastn_2_inv in E3 as [pre Hpre].
    reflect_tests. split; [lra |].
    exists pre, t0, x0, t1, x1. split; [assumption | lra].
  - intros (Hc & pre & t0 & x0 & t1 & x1 & Hh & Hr).
    unfold Rgtb. rewrite Rltb_true by lra.
    rewrite Hh, lastn_app2, length_app. cbn [List.length].
    replace (2 <=? List.length pre + 2)%nat with true
      by (symmetry; apply Nat.leb_le; lia).
    cbn. apply Rltb_true. lra.
Qed.

Lemma detect_keeps_rep_fields (cfg : Config) (now : R) (s : PullUp.t) (d : R) :
  let s1 := fst (PullUp.detect_direction_change cfg now s d) in
  PullUp.count s1 = PullUp.count s
  /\ PullUp.last_rep_time s1 = PullUp.last_rep_time s
  /\ (List.length (PullUp.direction_history s1)
      <= List.length (PullUp.direction_history s) + 1)%nat.
Proof.
  unfold PullUp.detect_direction_change.
  repeat (first [break_match | break_if];
          cbn [fst PullUp.count PullUp.last_rep_time PullUp.direction_history]);
    repeat split; try lia; apply deque_append_length.
Qed.

(** What one [analyze_pose] call of the pull-up counter does to the fields
    of the rep test: nothing on a frame that is not analysed, and otherwise
    the direction detection followed by the rep test. *)
Lemma pullup_step_cases (cfg : Config) (clk : Clock) (s : PullUp.t)
    (kp : Keypoints) :
  fst (PullUp.analyze_pose cfg clk s kp) = s
  \/ exists kpl ls rs lw rw,
       kp = Some kpl
       /\ nth_error kpl PullUp.L_SHOULDER = Some ls
       /\ nth_error kpl PullUp.R_SHOULDER = Some rs
       /\ nth_error kpl PullUp.L_WRIST = Some lw
       /\ nth_error kpl PullUp.R_WRIST = Some rw
       /\ let s1 := fst (PullUp.detect_direction_change cfg (log_time clk) s
                           ((jy lw + jy rw) / 2 - (jy ls + jy rs) / 2)) in
          let s' := fst (PullUp.analyze_pose cfg clk s kp) in
          (PullUp.rep_detected cfg (current_time clk) s1 = true
           /\ PullUp.count s' = (PullUp.count s + 1)%Z
           /\ PullUp.last_rep_time s' = current_time clk
           /\ PullUp.direction_history s' = [])
          \/ (PullUp.rep_detected cfg (current_time clk) s1 = false
              /\ PullUp.count s' = PullUp.count s
              /\ PullUp.last_rep_time s' = PullUp.last_rep_time s
              /\ PullUp.direction_history s' = PullUp.direction_history s1).
Proof.
  unfold PullUp.analyze_pose.
  destruct kp as [[|j kp]|]; [left; reflexivity | | left; reflexivity].
  destruct (nth_error (j :: kp) PullUp.L_SHOULDER) as [ls|] eqn:E1;
    [| left; reflexivity].
  destruct (nth_error (j :: kp) PullUp.R_SHOULDER) as [rs|] eqn:E2;
    [| left; reflexivity].
  destruct (nth_error (j :: kp) PullUp.L_WRIST) as [lw|] eqn:E3;
    [| left; reflexivity].
  destruct (nth_error (j :: kp) PullUp.R_WRIST) as [rw|] eqn:E4;
    [| left; reflexivity].
  break_if; [left; reflexivity |].
  right. exists (j :: kp), ls, rs, lw, rw. repeat split; try assumption.
  pose proof (detect_keeps_rep_fields cfg (log_time clk) s
                ((jy lw + jy rw) / 2 - (jy ls + jy rs) / 2)) as K.
  cbv zeta in K. cbv zeta.
  destruct (PullUp.detect_direction_change cfg (log_time clk) s _)
    as [s1 [direction magnitude]].
  cbn [fst] in *. destruct K as (Kc & Kt & _).
  destruct (PullUp.rep_detected cfg (current_time clk) s1);
    [left | right]; cbn; repeat split; congruence.
Qed.

Lemma pullup_step_stamp (cfg : Config) (clk : Clock) (s : PullUp.t)
    (kp : Keypoints) :
  let s' := fst (PullUp.analyze_pose cfg clk s kp) in
  (PullUp.count s' = PullUp.count s
   /\ PullUp.last_rep_time s' = PullUp.last_rep_time s)
  \/ (PullUp.count s' = (PullUp.count s + 1)%Z
      /\ PullUp.last_rep_time s' = current_time clk
      /\ PullUp.direction_history s' = []
      /\ current_time clk - PullUp.last_rep_time s > rep_cooldown cfg).
Proof.
  cbv zeta.
  destruct (pullup_step_cases cfg clk s kp)
    as [-> | (kpl & ls & rs & lw & rw & _ & _ & _ & _ & _ & H)];
    [left; split; reflexivity |].
  cbv zeta in H.
  pose proof (detect_keeps_rep_fields cfg (log_time clk) s
                ((jy lw + jy rw) / 2 - (jy ls + jy rs) / 2)) as K.
  cbv zeta in K. destruct K as (_ & Kt & _).
  destruct H as [(Hr & Hc & Ht & Hh) | (_ & Hc & Ht & _)].
  - right. apply rep_detected_spec in Hr as [Hcd _].
    rewrite Kt in Hcd. repeat split; assumption.
  - left. split; assumption.
Qed.

Lemma pullup_frame_stamp (cfg : Config) (s : PullUp.t) (f : Clock * Keypoints) :
  let s' := fst (pullup_step cfg s f) in
  (PullUp.count s' = PullUp.count s
   /\ PullUp.last_rep_time s' = PullUp.last_rep_time s)
  \/ (PullUp.count s' = (PullUp.count s + 1)%Z
      /\ PullUp.last_rep_time s' = current_time (fst f)
      /\ PullUp.direction_history s' = []
      /\ current_time (fst f) - PullUp.last_rep_time s > rep_cooldown cfg).
Proof. apply pullup_step_stamp. Qed.

Lemma pullup_last_rep_time_grows (cfg : Config) (t0 : R)
    (frames : list (Clock * Keypoints)) :
  0 <= rep_cooldown cfg ->
  forall s, t0 <= PullUp.last_rep_time s ->
    t0 <= PullUp.last_rep_time (final (pullup_step cfg) s frames).
Proof.
  intros Hcd. induction frames as [|f rest IH]; intros s Hs; [exact Hs |].
  rewrite final_cons. apply IH.
  destruct (pullup_frame_stamp cfg s f)
    as [(_ & ->) | (_ & -> & _ & Hgt)]; lra.
Qed.

(** C4: the pull-up counter's count changes in an [analyze_pose] call only
    by one, and only when the cooldown since the last rep is over and the
    change log, after this frame's direction detection, ends with a DOWN
    entry followed by an UP entry whose recorded displacements differ by
    more than [min_movement_range]; the call then stamps the last-rep time
    and empties the change log.  Hence, for a non-negative cooldown, the
    clock readings of two calls that both count a rep are more than
    [rep_cooldown] apart, and the call right after a counted rep, which
    sees at most one new log entry, counts nothing. *)
Theorem pullup_rep_needs_cooldown_and_down_up_pair (cfg : Config) :
  (forall (clk : Clock) (s : PullUp.t) (kp : Keypoints),
      let s' := fst (PullUp.analyze_pose cfg clk s kp) in
      PullUp.count s' <> PullUp.count s ->
      PullUp.count s' = (PullUp.count s + 1)%Z
      /\ current_time clk - PullUp.last_rep_time s > rep_cooldown cfg
      /\ (exists kpl ls rs lw rw pre t0 x0 t1 x1,
            kp = Some kpl
            /\ nth_error kpl PullUp.L_SHOULDER = Some ls
            /\ nth_error kpl PullUp.R_SHOULDER = Some rs
            /\ nth_error kpl PullUp.L_WRIST = Some lw
            /\ nth_error kpl PullUp.R_WRIST = Some rw
            /\ PullUp.direction_history
                 (fst (PullUp.detect_direction_change cfg (log_time clk) s
                         ((jy lw + jy rw) / 2 - (jy ls + jy rs) / 2)))
               = pre ++ [(PullUp.down, t0, x0); (PullUp.up, t1, x1)]
            /\ Rabs (x1 - x0) > min_movement_range cfg)
      /\ PullUp.last_rep_time s' = current_time clk
      /\ PullUp.direction_history s' = [])
  /\ (0 <= rep_cooldown cfg ->
      forall (s : PullUp.t) (f1 f2 : Clock * Keypoints)
             (between : list (Clock * Keypoints)),
        let s1 := fst (pullup_step cfg s f1) in
        let s2 := final (pullup_step cfg) s1 between in
        let s3 := fst (pullup_step cfg s2 f2) in
        PullUp.count s1 = (PullUp.count s + 1)%Z ->
        PullUp.count s3 = (PullUp.count s2 + 1)%Z ->
        current_time (fst f2) - current_time (fst f1) > rep_cooldown cfg)
  /\ (forall (s : PullUp.t) (f1 f2 : Clock * Keypoints),
        let s1 := fst (pullup_step cfg s f1) in
        PullUp.count s1 = (PullUp.count s + 1)%Z ->
        PullUp.count (fst (pullup_step cfg s1 f2)) = PullUp.count s1).
Proof.
  split; [| split].
  - intros clk s kp s' Hne. subst s'.
    destruct (pullup_step_cases cfg clk s kp)
      as [E | (kpl & ls & rs & lw & rw & Hkp & L1 & L2 & L3 & L4 & H)];
      [rewrite E in Hne; contradiction |].
    cbv zeta in H.
    pose proof (detect_keeps_rep_fields cfg (log_time clk) s
                  ((jy lw + jy rw) / 2 - (jy ls + jy rs) / 2)) as K.
    cbv zeta in K. destruct K as (_ & Kt & _).
    destruct H as [(Hr & Hc & Ht & Hh) | (_ & Hc & _)]; [| contradiction].
    apply rep_detected_spec in Hr
      as (Hcd & pre & t0 & x0 & t1 & x1 & Hlog & Hrange).
    rewrite Kt in Hcd. repeat split; try assumption.
    exists kpl, ls, rs, lw, rw, pre, t0, x0, t1, x1.
    repeat split; assumption.
  - intros Hcd s f1 f2 between s1 s2 s3 H1 H3. subst s1 s2 s3.
    destruct (pullup_frame_stamp cfg s f1)
      as [(Hc & _) | (_ & Ht1 & _ & _)]; [lia |].
    pose proof (pullup_last_rep_time_grows cfg (current_time (fst f1)) between
                  Hcd _ (Req_le_sym _ _ Ht1)) as Hinv.
    destruct (pullup_frame_stamp cfg
                (final (pullup_step cfg) (fst (pullup_step cfg s f1)) between)
                f2)
      as [(Hc & _) | (_ & _ & _ & Hgt)]; [lia |].
    lra.
  - intros s f1 f2 s1 H1.
    destruct (pullup_frame_stamp cfg s f1)
      as [(Hc & _) | (_ & _ & Hlog & _)]; [subst s1; lia |].
    fold s1 in Hlog. clearbody s1. unfold pullup_step.
    destruct (pullup_step_cases cfg (fst f2) s1 (snd f2))
      as [-> | (kpl & ls & rs & lw & rw & _ & _ & _ & _ & _ & H)];
      [reflexivity |].
    cbv zeta in H.
    destruct H as [(Hr & _) | (_ & Hc & _)]; [| exact Hc].
    apply rep_detected_spec in Hr as (_ & pre & t0 & x0 & t1 & x1 & Hh & _).
    pose proof (detect_keeps_rep_fields cfg (log_time (fst f2)) s1
                  ((jy lw + jy rw) / 2 - (jy ls + jy rs) / 2)) as K.
    cbv zeta in K. destruct K as (_ & _ & Kl).
    rewrite Hh, Hlog, length_app in Kl. cbn in Kl. lia.
Qed.

Lemma final_step {S I O : Type} (step : S -> I -> S * O) (s s' : S) (o : O)
    (i : I) (rest : list I) :
  step s i = (s', o) -> final step s (i :: rest) = final step s' rest.
Proof. intros H. rewrite final_cons, H. reflexivity. Qed.

(** Run the pull-up counter on one [hang_frame] from a concrete state under
    the default configuration. *)
Ltac pullup_frame :=
  unfold pullup_step; cbn [fst snd];
  unfold PullUp.analyze_pose, hang_frame;
  cbn [nth_error PullUp.L_SHOULDER PullUp.R_SHOULDER PullUp.L_WRIST
       PullUp.R_WRIST jc jy];
  unfold PullUp.detect_direction_change, PullUp.rep_detected, PullUp.decay,
    config;
  cbn; repeat (Rdecide; cbn); reflexivity.

Lemma pullup_rep_witness :
  (0 <= rep_cooldown config
   /\ PullUp.count (fst (pullup_step config before_rep rep_frame))
      = (PullUp.count before_rep + 1)%Z
   /\ PullUp.count
        (fst (pullup_step config
                (final (pullup_step config)
                   (fst (pullup_step config before_rep rep_frame)) next_cycle)
                next_rep_frame))
      = (PullUp.count
           (final (pullup_step config)
              (fst (pullup_step config before_rep rep_frame)) next_cycle)
         + 1)%Z)
  /\ current_time (fst next_rep_frame) - current_time (fst rep_frame)
     > rep_cooldown config
  /\ PullUp.last_rep_time (fst (pullup_step config before_rep rep_frame)) = 5
  /\ PullUp.direction_history (fst (pullup_step config before_rep rep_frame))
     = []
  /\ PullUp.count
       (fst (pullup_step config
               (fst (pullup_step config before_rep rep_frame))
               (mkClock 6 6, Some (hang_frame 0 (-10) 1))))
     = PullUp.count (fst (pullup_step config before_rep rep_frame)).
Proof.
  assert (E1 : pullup_step config before_rep rep_frame
               = (PullUp.mk 1 0 "pulling_up"
                    [0; 0; 0; 0; (10 + 10) / 2 - (0 + 0) / 2] [] 5 PullUp.up
                    (2 + 1) 0,
                  (1%Z, "pulling_up"%string)))
    by (unfold before_rep, rep_frame; pullup_frame).
  assert (C1 : PullUp.count (fst (pullup_step config before_rep rep_frame))
               = (PullUp.count before_rep + 1)%Z)
    by (rewrite E1; reflexivity).
  assert (E2 : final (pullup_step config)
                 (fst (pullup_step config before_rep rep_frame)) next_cycle
               = PullUp.mk 1 0 "lowering_down"
                   [0; 0; 0; 0; (10 + 10) / 2 - (0 + 0) / 2;
                    (-10 + -10) / 2 - (0 + 0) / 2;
                    (-20 + -20) / 2 - (0 + 0) / 2;
                    (-30 + -30) / 2 - (0 + 0) / 2;
                    (40 + 40) / 2 - (0 + 0) / 2;
                    (50 + 50) / 2 - (0 + 0) / 2]
                   [(PullUp.down, 8, (-30 + -30) / 2 - (0 + 0) / 2)] 5
                   PullUp.down (0 + 1 + 1) 0).
  { rewrite E1. cbn [fst]. unfold next_cycle.
    repeat (erewrite final_step; [| pullup_frame]).
    reflexivity. }
  assert (C3 : PullUp.count
                 (fst (pullup_step config
                         (final (pullup_step config)
                            (fst (pullup_step config before_rep rep_frame))
                            next_cycle)
                         next_rep_frame))
               = (PullUp.count
                    (final (pullup_step config)
                       (fst (pullup_step config before_rep rep_frame))
                       next_cycle)
                  + 1)%Z).
  { rewrite E2. unfold next_rep_frame.
    replace (pullup_step config _ _)
      with (PullUp.mk 2 0 "pulling_up"
              [0; 0; 0; 0; (10 + 10) / 2 - (0 + 0) / 2;
               (-10 + -10) / 2 - (0 + 0) / 2;
               (-20 + -20) / 2 - (0 + 0) / 2;
               (-30 + -30) / 2 - (0 + 0) / 2;
               (40 + 40) / 2 - (0 + 0) / 2;
               (50 + 50) / 2 - (0 + 0) / 2;
               (60 + 60) / 2 - (0 + 0) / 2] [] 11 PullUp.up (0 + 1 + 1 + 1) 0,
            (2%Z, "pulling_up"%string))
      by (symmetry; pullup_frame).
    reflexivity. }
  assert (Hcd : 0 <= rep_cooldown config) by (cbn; lra).
  destruct (pullup_rep_needs_cooldown_and_down_up_pair config)
    as (Hgate & Hapart & Honce).
  assert (Hne : PullUp.count (fst (pullup_step config before_rep rep_frame))
                <> PullUp.count before_rep) by lia.
  destruct (Hgate (fst rep_frame) before_rep (snd rep_frame) Hne)
    as (_ & _ & _ & Hstamp & Hlog).
  split; [repeat split; assumption |].
  split; [exact (Hapart Hcd before_rep rep_frame next_rep_frame next_cycle C1 C3) |].
  split; [exact Hstamp |].
  split; [exact Hlog |].
  exact (Honce before_rep rep_frame _ C1).
Defined.

(** ** GeometryOps on concrete points *)

Lemma norm_unit_x : Geometry.norm (1 - 0) (0 - 0) = 1.
Proof.
  unfold Geometry.norm.
  replace ((1 - 0) * (1 - 0) + (0 - 0) * (0 - 0)) with 1 by ring.
  apply sqrt_1.
Qed.

Lemma norm_unit_y : Geometry.norm (0 - 0) (1 - 0) = 1.
Proof.
  unfold Geometry.norm.
  replace ((0 - 0) * (0 - 0) + (1 - 0) * (1 - 0)) with 1 by ring.
  apply sqrt_1.
Qed.

Lemma calculate_angle_witness :
  (Geometry.epsilon <= Geometry.norm (1 - 0) (0 - 0)
   /\ Geometry.epsilon <= Geometry.norm (0 - 0) (1 - 0))
  /\ (exists g,
        0 <= g <= 180
        /\ PushUp.calculate_angle (mkJoint 1 0 1) (mkJoint 0 0 1) (mkJoint 0 1 1)
           = Some g
        /\ PushUp.calculate_angle (mkJoint 0 1 1) (mkJoint 0 0 1) (mkJoint 1 0 1)
           = Some g)
  /\ ArmCurl.calculate_angle (mkJoint 0 0 1) (mkJoint 0 0 1) (mkJoint 0 1 1)
     = None.
Proof.
  pose proof epsilon_lt_1 as He.
  assert (H1 : Geometry.epsilon <= Geometry.norm (1 - 0) (0 - 0))
    by (rewrite norm_unit_x; lra).
  assert (H2 : Geometry.epsilon <= Geometry.norm (0 - 0) (1 - 0))
    by (rewrite norm_unit_y; lra).
  split; [split; assumption |]. split.
  - destruct (calculate_angle_range_symmetry_degenerate
                (mkJoint 1 0 1) (mkJoint 0 0 1) (mkJoint 0 1 1))
      as (Hvalid & _ & _).
    destruct (Hvalid H1 H2) as (g & Hr & Ha & Hs & _).
    exists g. repeat split; try assumption; apply Hr.
  - destruct (calculate_angle_range_symmetry_degenerate
                (mkJoint 0 0 1) (mkJoint 0 0 1) (mkJoint 0 1 1))
      as (_ & _ & Hsame).
    apply Hsame. left. split; reflexivity.
Defined.

(** ** Choosing the working angle *)

Lemma armcurl_sees_both_arms (dl dr : R) :
  0 <= dl <= 180 -> 0 <= dr <= 180 ->
  ArmCurl.get_best_arm_angle (arms_frame dl 1 dr 1)
  = (Some dr, (1 + 1 + 1) / 3, ArmCurl.Right).
Proof.
  intros Hl Hr. unfold ArmCurl.get_best_arm_angle, arms_frame.
  cbn [nth_error ArmCurl.R_SHOULDER ArmCurl.R_ELBOW ArmCurl.R_WRIST
       ArmCurl.L_SHOULDER ArmCurl.L_ELBOW ArmCurl.L_WRIST].
  rewrite !armcurl_calculate_angle_eq, !angle_polar by assumption.
  cbn [jc polar at_origin on_x_axis]. unfold Rgeb.
  rewrite Rleb_true by lra. reflexivity.
Qed.

Lemma squat_sees_both_legs_apart (dl dr : R) :
  0 <= dl <= 180 -> 0 <= dr <= 180 -> 30 <= Rabs (dr - dl) ->
  Squat.get_best_leg_angle (legs_frame dl 1 dr 1)
  = (Some dr, Rmax ((1 + 1 + 1) / 3) ((1 + 1 + 1) / 3)).
Proof.
  intros Hl Hr Hd. unfold Squat.get_best_leg_angle, legs_frame.
  cbn [nth_error Squat.R_HIP Squat.R_KNEE Squat.R_ANKLE
       Squat.L_HIP Squat.L_KNEE Squat.L_ANKLE].
  unfold Squat.calculate_angle. rewrite !angle_polar by assumption.
  cbn [jc polar at_origin on_x_axis]. unfold Rgeb.
  rewrite (Rleb_true (3 / 10)) by lra. cbn [andb].
  rewrite (Rltb_false _ 30) by exact Hd.
  rewrite Rleb_true by lra. reflexivity.
Qed.

(** Against C5 as stated: with both arms valid and seen with the same
    confidence, at 60 and 120 degrees, the arm-curl counter works with the
    right arm's 120 degrees and not with the average 90; and the squat
    counter, with both legs valid and seen with the same confidence at 60
    and 120 degrees, works with the right leg's 120 degrees. *)
Lemma armcurl_and_squat_do_not_average_by_confidence :
  ArmCurl.calculate_angle (polar 120 1) (at_origin 1) (on_x_axis 1) = Some 120
  /\ ArmCurl.calculate_angle (polar 60 1) (at_origin 1) (on_x_axis 1) = Some 60
  /\ Rabs ((1 + 1 + 1) / 3 - (1 + 1 + 1) / 3) < 1 / 10
  /\ fst (fst (ArmCurl.get_best_arm_angle (arms_frame 60 1 120 1))) = Some 120
  /\ fst (Squat.get_best_leg_angle (legs_frame 60 1 120 1)) = Some 120
  /\ Some 120 <> Some ((120 + 60) / 2).
Proof.
  rewrite !armcurl_calculate_angle_eq, !angle_polar by lra.
  rewrite armcurl_sees_both_arms by lra.
  rewrite squat_sees_both_legs_apart by (try lra; Rnum).
  repeat split.
  - Rnum.
  - intros H. injection H as H. lra.
Qed.

Lemma pushup_floor_is_kept (s : PushUp.t) (v : Z) (kp : list Joint) :
  PushUp.get_best_arm_angle (PushUp.set_frame_count s v) kp
  = PushUp.get_best_arm_angle s kp.
Proof. reflexivity. Qed.

(** C5, amended.  With the six rows of the two limbs present, [rc] and [lc]
    the mean confidences of the right and left side:
    - push-up: a side is valid when its confidence reaches the floor and its
      angle is defined; with both valid the working angle is the average
      when the confidences differ by less than 0.1 and the angle of the more
      confident side otherwise; with one valid, that side's angle; with none,
      no angle;
    - squat: with both confidences at least 0.3 and both angles defined the
      working angle is the average when the two angles differ by less than
      30 degrees and otherwise the angle of the more confident leg (the
      right one on a tie); with one confidence at least 0.3, that leg's
      angle; with none, no angle;
    - arm-curl: with both angles defined the working angle is the one of the
      more confident arm (the right one on a tie), never an average; with one
      defined, that one; with none, no angle.
    When there is no working angle or the confidence that comes with it is
    below the floor (push-up: [MIN_CONFIDENCE]; squat: 0.3; arm-curl: 0.5),
    [analyze_pose] returns [(count, None)] and leaves count, state, window
    and dwell fields as they were, the push-up and squat counters having
    advanced [frame_count] by one. *)
Theorem working_angle_selection :
  (* push-up *)
  (forall (s : PushUp.t) (kp : list Joint) (rs re rw ls le lw : Joint),
      nth_error kp PushUp.R_SHOULDER = Some rs ->
      nth_error kp PushUp.R_ELBOW = Some re ->
      nth_error kp PushUp.R_WRIST = Some rw ->
      nth_error kp PushUp.L_SHOULDER = Some ls ->
      nth_error kp PushUp.L_ELBOW = Some le ->
      nth_error kp PushUp.L_WRIST = Some lw ->
      let rc := (jc rs + jc re + jc rw) / 3 in
      let lc := (jc ls + jc le + jc lw) / 3 in
      let r_angle := PushUp.calculate_angle rs re rw in
      let l_angle := PushUp.calculate_angle ls le lw in
      let floor := PushUp.MIN_CONFIDENCE s in
      (forall ra la, floor <= rc -> floor <= lc ->
         r_angle = Some ra -> l_angle = Some la ->
         (Rabs (rc - lc) < 1 / 10 ->
          PushUp.get_best_arm_angle s kp = (Some ((ra + la) / 2), (rc + lc) / 2))
         /\ (1 / 10 <= Rabs (rc - lc) -> lc < rc ->
             PushUp.get_best_arm_angle s kp = (Some ra, rc))
         /\ (1 / 10 <= Rabs (rc - lc) -> rc <= lc ->
             PushUp.get_best_arm_angle s kp = (Some la, lc)))
      /\ (forall ra, floor <= rc -> r_angle = Some ra ->
          lc < floor \/ l_angle = None ->
          PushUp.get_best_arm_angle s kp = (Some ra, rc))
      /\ (forall la, floor <= lc -> l_angle = Some la ->
          rc < floor \/ r_angle = None ->
          PushUp.get_best_arm_angle s kp = (Some la, lc))
      /\ (rc < floor \/ r_angle = None -> lc < floor \/ l_angle = None ->
          PushUp.get_best_arm_angle s kp = (None, 0)))
  /\ (forall (s : PushUp.t) (kp : list Joint),
        fst (PushUp.get_best_arm_angle s kp) = None
        \/ snd (PushUp.get_best_arm_angle s kp) < PushUp.MIN_CONFIDENCE s ->
        PushUp.analyze_pose s (Some kp)
        = (PushUp.set_frame_count s (PushUp.frame_count s + 1),
           (PushUp.count s, None)))
  (* squat *)
  /\ (forall (kp : list Joint) (rh rk ra lh lk la : Joint),
        nth_error kp Squat.R_HIP = Some rh ->
        nth_error kp Squat.R_KNEE = Some rk ->
        nth_error kp Squat.R_ANKLE = Some ra ->
        nth_error kp Squat.L_HIP = Some lh ->
        nth_error kp Squat.L_KNEE = Some lk ->
        nth_error kp Squat.L_ANKLE = Some la ->
        let rc := (jc rh + jc rk + jc ra) / 3 in
        let lc := (jc lh + jc lk + jc la) / 3 in
        let r_angle := Squat.calculate_angle rh rk ra in
        let l_angle := Squat.calculate_angle lh lk la in
        (forall r l, 3 / 10 <= rc -> 3 / 10 <= lc ->
           r_angle = Some r -> l_angle = Some l ->
           (Rabs (r - l) < 30 ->
            Squat.get_best_leg_angle kp = (Some ((r + l) / 2), (rc + lc) / 2))
           /\ (30 <= Rabs (r - l) -> lc <= rc ->
               Squat.get_best_leg_angle kp = (Some r, Rmax rc lc))
           /\ (30 <= Rabs (r - l) -> rc < lc ->
               Squat.get_best_leg_angle kp = (Some l, Rmax rc lc)))
        /\ (3 / 10 <= rc -> lc < 3 / 10 ->
            Squat.get_best_leg_angle kp = (r_angle, rc))
        /\ (rc < 3 / 10 -> 3 / 10 <= lc ->
            Squat.get_best_leg_angle kp = (l_angle, lc))
        /\ (rc < 3 / 10 -> lc < 3 / 10 ->
            Squat.get_best_leg_angle kp = (None, 0)))
  /\ (forall (s : Squat.t) (kp : list Joint),
        fst (Squat.get_best_leg_angle kp) = None
        \/ snd (Squat.get_best_leg_angle kp) < 3 / 10 ->
        Squat.analyze_pose s (Some kp)
        = (Squat.mk (Squat.count s) (Squat.frame_count s + 1) (Squat.state s)
             (Squat.angle_history s) (Squat.up_threshold s)
             (Squat.down_threshold s) (Squat.went_down s)
             (Squat.last_state_change s) (Squat.min_frames_in_state s),
           (Squat.count s, None)))
  (* arm-curl *)
  /\ (forall (kp : list Joint) (rs re rw ls le lw : Joint),
        nth_error kp ArmCurl.R_SHOULDER = Some rs ->
        nth_error kp ArmCurl.R_ELBOW = Some re ->
        nth_error kp ArmCurl.R_WRIST = Some rw ->
        nth_error kp ArmCurl.L_SHOULDER = Some ls ->
        nth_error kp ArmCurl.L_ELBOW = Some le ->
        nth_error kp ArmCurl.L_WRIST = Some lw ->
        let rc := (jc rs + jc re + jc rw) / 3 in
        let lc := (jc ls + jc le + jc lw) / 3 in
        let r_angle := ArmCurl.calculate_angle rs re rw in
        let l_angle := ArmCurl.calculate_angle ls le lw in
        (forall r l, r_angle = Some r -> l_angle = Some l ->
           (lc <= rc ->
            ArmCurl.get_best_arm_angle kp = (Some r, rc, ArmCurl.Right))
           /\ (rc < lc ->
               ArmCurl.get_best_arm_angle kp = (Some l, lc, ArmCurl.Left)))
        /\ (forall r, r_angle = Some r -> l_angle = None ->
            ArmCurl.get_best_arm_angle kp = (Some r, rc, ArmCurl.Right))
        /\ (forall l, r_angle = None -> l_angle = Some l ->
            ArmCurl.get_best_arm_angle kp = (Some l, lc, ArmCurl.Left))
        /\ (r_angle = None -> l_angle = None ->
            ArmCurl.get_best_arm_angle kp = (None, 0, ArmCurl.NoSide)))
  /\ (forall (s : ArmCurl.t) (kp : list Joint),
        fst (fst (ArmCurl.get_best_arm_angle kp)) = None
        \/ snd (fst (ArmCurl.get_best_arm_angle kp)) < 1 / 2 ->
        ArmCurl.analyze_pose s (Some kp) = (s, (ArmCurl.count s, None))).
Proof.
  split; [| split; [| split; [| split; [| split]]]].
  - intros s kp rs re rw ls le lw E1 E2 E3 E4 E5 E6 rc lc r_angle l_angle floor.
    unfold PushUp.get_best_arm_angle. rewrite E1, E2, E3, E4, E5, E6.
    cbv zeta. fold rc lc r_angle l_angle floor. unfold Rgeb, Rgtb.
    split; [intros ra la Hr Hl Ea El; split; [| split] | split; [| split]].
    + intros H. rewrite (Rleb_true _ _ Hr), (Rleb_true _ _ Hl), Ea, El.
      rewrite Rltb_true by assumption. reflexivity.
    + intros Ha Hb. rewrite (Rleb_true _ _ Hr), (Rleb_true _ _ Hl), Ea, El.
      rewrite Rltb_false by assumption. rewrite Rltb_true by assumption.
      reflexivity.
    + intros Ha Hb. rewrite (Rleb_true _ _ Hr), (Rleb_true _ _ Hl), Ea, El.
      rewrite Rltb_false by assumption. rewrite Rltb_false by assumption.
      reflexivity.
    + intros ra Hr Ea [Hl | El]; rewrite (Rleb_true _ _ Hr), Ea.
      * rewrite (Rleb_false _ _ Hl). reflexivity.
      * rewrite El. destruct (Rleb floor lc); reflexivity.
    + intros la Hl Ea [Hr | Er]; rewrite (Rleb_true _ _ Hl), Ea.
      * rewrite (Rleb_false _ _ Hr). reflexivity.
      * rewrite Er. destruct (Rleb floor rc); reflexivity.
    + intros [Hr | Er] [Hl | El];
        rewrite ?(Rleb_false _ _ Hr), ?(Rleb_false _ _ Hl), ?Er, ?El;
        repeat break_if; reflexivity.
  - intros s [|j kp] H.
    + reflexivity.
    + unfold PushUp.analyze_pose. rewrite pushup_floor_is_kept.
      destruct (PushUp.get_best_arm_angle s (j :: kp)) as [[a|] c];
        cbn [fst snd] in H; unfold PushUp.analyze_angle.
      * destruct H as [H | H]; [discriminate |].
        cbn [PushUp.MIN_CONFIDENCE PushUp.set_frame_count].
        rewrite (Rltb_true _ _ H). reflexivity.
      * reflexivity.
  - intros kp rh rk ra lh lk la E1 E2 E3 E4 E5 E6 rc lc r_angle l_angle.
    unfold Squat.get_best_leg_angle. rewrite E1, E2, E3, E4, E5, E6.
    cbv zeta. fold rc lc r_angle l_angle. unfold Rgeb.
    split; [intros r l Hr Hl Ea El; split; [| split] | split; [| split]].
    + intros H. rewrite (Rleb_true _ _ Hr), (Rleb_true _ _ Hl), Ea, El.
      cbn [andb]. rewrite Rltb_true by assumption. reflexivity.
    + intros Ha Hb. rewrite (Rleb_true _ _ Hr), (Rleb_true _ _ Hl), Ea, El.
      cbn [andb]. rewrite Rltb_false by assumption.
      rewrite Rleb_true by assumption. reflexivity.
    + intros Ha Hb. rewrite (Rleb_true _ _ Hr), (Rleb_true _ _ Hl), Ea, El.
      cbn [andb]. rewrite Rltb_false by assumption.
      rewrite Rleb_false by assumption. reflexivity.
    + intros Hr Hl. rewrite (Rleb_true _ _ Hr), (Rleb_false _ _ Hl).
      reflexivity.
    + intros Hr Hl. rewrite (Rleb_false _ _ Hr), (Rleb_true _ _ Hl).
      reflexivity.
    + intros Hr Hl. rewrite (Rleb_false _ _ Hr), (Rleb_false _ _ Hl).
      reflexivity.
  - intros s [|j kp] H.
    + reflexivity.
    + unfold Squat.analyze_pose.
      destruct (Squat.get_best_leg_angle (j :: kp)) as [[a|] c];
        cbn [fst snd] in H; unfold Squat.analyze_angle.
      * destruct H as [H | H]; [discriminate |].
        rewrite (Rltb_true _ _ H). reflexivity.
      * reflexivity.
  - intros kp rs re rw ls le lw E1 E2 E3 E4 E5 E6 rc lc r_angle l_angle.
    unfold ArmCurl.get_best_arm_angle. rewrite E1, E2, E3, E4, E5, E6.
    cbv zeta. fold rc lc r_angle l_angle. unfold Rgeb.
    split; [intros r l Er El; split | split; [| split]].
    + intros Hc. rewrite Er, El, (Rleb_true _ _ Hc). reflexivity.
    + intros Hc. rewrite Er, El, (Rleb_false _ _ Hc). reflexivity.
    + intros r Er El. rewrite Er, El. reflexivity.
    + intros l Er El. rewrite Er, El. reflexivity.
    + intros Er El. rewrite Er, El. reflexivity.
  - intros s [|j kp] H.
    + reflexivity.
    + unfold ArmCurl.analyze_pose.
      destruct (ArmCurl.get_best_arm_angle (j :: kp)) as [[[a|] c] side];
        cbn [fst snd] in H; unfold ArmCurl.analyze_angle.
      * destruct H as [H | H]; [discriminate |].
        rewrite (Rltb_true _ _ H). reflexivity.
      * reflexivity.
Qed.

Lemma working_angle_selection_witness :
  (PushUp.MIN_CONFIDENCE PushUp.init <= (1 + 1 + 1) / 3
   /\ PushUp.calculate_angle (polar 120 1) (at_origin 1) (on_x_axis 1) = Some 120
   /\ PushUp.calculate_angle (polar 60 1) (at_origin 1) (on_x_axis 1) = Some 60
   /\ Rabs ((1 + 1 + 1) / 3 - (1 + 1 + 1) / 3) < 1 / 10)
  /\ PushUp.get_best_arm_angle PushUp.init (arms_frame 60 1 120 1)
     = (Some ((120 + 60) / 2), ((1 + 1 + 1) / 3 + (1 + 1 + 1) / 3) / 2).
Proof.
  assert (F : PushUp.MIN_CONFIDENCE PushUp.init <= (1 + 1 + 1) / 3)
    by (cbn; lra).
  assert (R : PushUp.calculate_angle (polar 120 1) (at_origin 1) (on_x_axis 1)
              = Some 120) by (apply angle_polar; lra).
  assert (L : PushUp.calculate_angle (polar 60 1) (at_origin 1) (on_x_axis 1)
              = Some 60) by (apply angle_polar; lra).
  assert (C : Rabs ((1 + 1 + 1) / 3 - (1 + 1 + 1) / 3) < 1 / 10) by Rnum.
  split; [repeat split; assumption |].
  destruct working_angle_selection as (Hpush & _).
  destruct (Hpush PushUp.init (arms_frame 60 1 120 1)
              (polar 120 1) (at_origin 1) (on_x_axis 1)
              (polar 60 1) (at_origin 1) (on_x_axis 1)
              eq_refl eq_refl eq_refl eq_refl eq_refl eq_refl)
    as (Hboth & _).
  destruct (Hboth 120 60 F F R L) as (Havg & _).
  exact (Havg C).
Defined.

(** ** The arm-curl window *)

Lemma armcurl_sees_right_arm (d : R) :
  0 <= d <= 180 ->
  ArmCurl.get_best_arm_angle (arms_frame 0 0 d 1)
  = (Some d, (1 + 1 + 1) / 3, ArmCurl.Right).
Proof.
  intros Hd. unfold ArmCurl.get_best_arm_angle, arms_frame.
  cbn [nth_error ArmCurl.R_SHOULDER ArmCurl.R_ELBOW ArmCurl.R_WRIST
       ArmCurl.L_SHOULDER ArmCurl.L_ELBOW ArmCurl.L_WRIST].
  rewrite !armcurl_calculate_angle_eq.
  rewrite (angle_polar d) by assumption. rewrite (angle_polar 0) by lra.
  cbn [jc polar at_origin on_x_axis]. unfold Rgeb.
  rewrite Rleb_true by lra. reflexivity.
Qed.

(** Against C6 as stated: the first frame of a fresh arm-curl counter, with
    the elbow at 80 degrees, leaves one sample in the window of five and
    returns [(0, 80)], the raw angle, not [(0, None)]. *)
Lemma armcurl_returns_raw_angle_while_filling :
  ArmCurl.analyze_pose ArmCurl.init (right_arm_at 80)
  = (ArmCurl.mk 0 0 [80] ArmCurl.down 90 120, (0%Z, Some 80))
  /\ (0%Z, Some 80) <> (0%Z, @None R).
Proof.
  split; [| discriminate].
  unfold ArmCurl.analyze_pose, right_arm_at.
  rewrite armcurl_sees_right_arm by lra.
  unfold ArmCurl.analyze_angle. rewrite Rltb_false by lra. reflexivity.
Qed.

Lemma deque_append_full {A : Type} (n : nat) (l : list A) (x : A) :
  (n - 1 <= List.length l <= n)%nat -> (0 < n)%nat ->
  List.length (deque_append n l x) = n.
Proof.
  intros H Hn. unfold deque_append.
  destruct (List.length l <? n)%nat eqn:E.
  - apply Nat.ltb_lt in E. rewrite length_app. simpl. lia.
  - apply Nat.ltb_ge in E. destruct l as [|y l]; simpl in *; [lia |].
    rewrite length_app. simpl. lia.
Qed.

Lemma deque_append_filling {A : Type} (n : nat) (l : list A) (x : A) :
  (List.length l + 1 < n)%nat ->
  deque_append n l x = l ++ [x] /\ List.length (deque_append n l x) <> n.
Proof.
  intros H. unfold deque_append.
  replace (List.length l <? n)%nat with true
    by (symmetry; apply Nat.ltb_lt; lia).
  split; [reflexivity |]. rewrite length_app. simpl. lia.
Qed.

(** C6, amended.  A frame whose working angle [a] passes the 0.5 floor is
    appended to the arm-curl window [h] (five samples at most).  While the
    window, the new sample included, holds fewer than five samples (fewer
    than four before the call), [analyze_pose] returns [(count, a)], the raw
    angle, and changes neither state nor count.  Once it holds five (four or
    five before the call), the call returns the arithmetic mean of the five
    and the state machine runs on that mean: from down to up below
    [up_threshold], from up to down above [down_threshold] with the count
    increased by one, and no change otherwise. *)
Theorem armcurl_window_gates_state_machine
    (s : ArmCurl.t) (kp : list Joint) (a c : R) (side : ArmCurl.Side) :
  ArmCurl.get_best_arm_angle kp = (Some a, c, side) ->
  1 / 2 <= c ->
  let h := deque_append ArmCurl.maxlen (ArmCurl.angle_history s) a in
  let r := ArmCurl.analyze_pose s (Some kp) in
  ArmCurl.angle_history (fst r) = h
  /\ ((List.length (ArmCurl.angle_history s) < 4)%nat ->
      h = ArmCurl.angle_history s ++ [a]
      /\ snd r = (ArmCurl.count s, Some a)
      /\ ArmCurl.state (fst r) = ArmCurl.state s
      /\ ArmCurl.count (fst r) = ArmCurl.count s)
  /\ ((4 <= List.length (ArmCurl.angle_history s) <= 5)%nat ->
      List.length h = 5%nat
      /\ mean h = Rsum h / 5
      /\ snd (snd r) = Some (mean h)
      /\ fst (snd r) = ArmCurl.count (fst r)
      /\ (ArmCurl.state s = ArmCurl.down -> mean h < ArmCurl.up_threshold s ->
          ArmCurl.state (fst r) = ArmCurl.up
          /\ ArmCurl.count (fst r) = ArmCurl.count s)
      /\ (ArmCurl.state s = ArmCurl.down -> ArmCurl.up_threshold s <= mean h ->
          ArmCurl.state (fst r) = ArmCurl.down
          /\ ArmCurl.count (fst r) = ArmCurl.count s)
      /\ (ArmCurl.state s = ArmCurl.up -> mean h > ArmCurl.down_threshold s ->
          ArmCurl.state (fst r) = ArmCurl.down
          /\ ArmCurl.count (fst r) = (ArmCurl.count s + 1)%Z)
      /\ (ArmCurl.state s = ArmCurl.up -> mean h <= ArmCurl.down_threshold s ->
          ArmCurl.state (fst r) = ArmCurl.up
          /\ ArmCurl.count (fst r) = ArmCurl.count s)).
Proof.
  intros Hbest Hc h r. subst r.
  assert (Hstep : ArmCurl.analyze_pose s (Some kp)
                  = ArmCurl.analyze_angle s (Some a) c).
  { unfold ArmCurl.analyze_pose. destruct kp as [|j kp].
    - discriminate Hbest.
    - rewrite Hbest. reflexivity. }
  rewrite Hstep. unfold ArmCurl.analyze_angle.
  rewrite (Rltb_false _ _ Hc). fold h.
  split; [| split].
  - repeat (first [break_match | break_if]); reflexivity.
  - intros Hlen.
    destruct (deque_append_filling ArmCurl.maxlen (ArmCurl.angle_history s) a)
      as [Hh Hn]; [unfold ArmCurl.maxlen; lia |].
    fold h in Hh, Hn. apply Nat.eqb_neq in Hn. rewrite Hn.
    repeat split. exact Hh.
  - intros Hlen.
    assert (Hfull : List.length h = ArmCurl.maxlen)
      by (apply deque_append_full; unfold ArmCurl.maxlen; lia).
    rewrite Hfull, Nat.eqb_refl.
    split; [reflexivity |].
    split.
    { unfold mean. rewrite Hfull. unfold ArmCurl.maxlen. cbn [INR].
      f_equal. lra. }
    unfold Rgtb.
    destruct (ArmCurl.state s) eqn:Est;
      [destruct (Rltb (mean h) (ArmCurl.up_threshold s)) eqn:E
      | destruct (Rltb (ArmCurl.down_threshold s) (mean h)) eqn:E];
      reflect_tests; cbn [fst snd ArmCurl.state ArmCurl.count];
      repeat split; intros; try reflexivity; try discriminate;
      try congruence; try (exfalso; lra).
Qed.

Lemma armcurl_window_witness :
  (ArmCurl.get_best_arm_angle (arms_frame 0 0 80 1)
   = (Some 80, (1 + 1 + 1) / 3, ArmCurl.Right)
   /\ 1 / 2 <= (1 + 1 + 1) / 3
   /\ (List.length (ArmCurl.angle_history ArmCurl.init) < 4)%nat)
  /\ snd (ArmCurl.analyze_pose ArmCurl.init (Some (arms_frame 0 0 80 1)))
     = (ArmCurl.count ArmCurl.init, Some 80)
  /\ ArmCurl.state
       (fst (ArmCurl.analyze_pose ArmCurl.init (Some (arms_frame 0 0 80 1))))
     = ArmCurl.state ArmCurl.init.
Proof.
  assert (B : ArmCurl.get_best_arm_angle (arms_frame 0 0 80 1)
              = (Some 80, (1 + 1 + 1) / 3, ArmCurl.Right))
    by (apply armcurl_sees_right_arm; lra).
  assert (C : 1 / 2 <= (1 + 1 + 1) / 3) by lra.
  assert (L : (List.length (ArmCurl.angle_history ArmCurl.init) < 4)%nat)
    by (cbn; lia).
  split; [repeat split; assumption |].
  destruct (armcurl_window_gates_state_machine ArmCurl.init
              (arms_frame 0 0 80 1) 80 ((1 + 1 + 1) / 3) ArmCurl.Right B C)
    as (_ & Hfill & _).
  destruct (Hfill L) as (_ & Hret & Hst & _).
  split; assumption.
Defined.

(** ** Frames that are not analysed *)

Lemma all_below_at (floor : R) (indices : list nat) (kp : list Joint)
    (i : nat) (j : Joint) :
  all_below floor indices kp -> In i indices -> nth_error kp i = Some j ->
  jc j < floor.
Proof.
  unfold all_below. rewrite Forall_forall. intros H Hi Hj. exact (H i Hi j Hj).
Qed.

Ltac below H E :=
  match type of E with
  | nth_error ?kp ?i = Some ?j =>
      pose proof (all_below_at _ _ kp i j H ltac:(simpl; tauto) E)
  end.

Lemma pushup_low_confidence (s : PushUp.t) (kp : list Joint) :
  all_below (PushUp.MIN_CONFIDENCE s)
    [PushUp.R_SHOULDER; PushUp.R_ELBOW; PushUp.R_WRIST;
     PushUp.L_SHOULDER; PushUp.L_ELBOW; PushUp.L_WRIST] kp ->
  PushUp.get_best_arm_angle s kp = (None, 0).
Proof.
  intros H. unfold PushUp.get_best_arm_angle.
  destruct (nth_error kp PushUp.R_SHOULDER) as [rs|] eqn:E1; [| reflexivity].
  destruct (nth_error kp PushUp.R_ELBOW) as [re|] eqn:E2; [| reflexivity].
  destruct (nth_error kp PushUp.R_WRIST) as [rw|] eqn:E3; [| reflexivity].
  destruct (nth_error kp PushUp.L_SHOULDER) as [ls|] eqn:E4; [| reflexivity].
  destruct (nth_error kp PushUp.L_ELBOW) as [le|] eqn:E5; [| reflexivity].
  destruct (nth_error kp PushUp.L_WRIST) as [lw|] eqn:E6; [| reflexivity].
  below H E1.
  below H E2.
  below H E3.
  below H E4.
  below H E5.
  below H E6.
  cbv zeta. unfold Rgeb. rewrite !Rleb_false by lra. reflexivity.
Qed.

Lemma squat_low_confidence (kp : list Joint) :
  all_below (3 / 10)
    [Squat.R_HIP; Squat.R_KNEE; Squat.R_ANKLE;
     Squat.L_HIP; Squat.L_KNEE; Squat.L_ANKLE] kp ->
  Squat.get_best_leg_angle kp = (None, 0).
Proof.
  intros H. unfold Squat.get_best_leg_angle.
  destruct (nth_error kp Squat.R_HIP) as [rh|] eqn:E1; [| reflexivity].
  destruct (nth_error kp Squat.R_KNEE) as [rk|] eqn:E2; [| reflexivity].
  destruct (nth_error kp Squat.R_ANKLE) as [ra|] eqn:E3; [| reflexivity].
  destruct (nth_error kp Squat.L_HIP) as [lh|] eqn:E4; [| reflexivity].
  destruct (nth_error kp Squat.L_KNEE) as [lk|] eqn:E5; [| reflexivity].
  destruct (nth_error kp Squat.L_ANKLE) as [la|] eqn:E6; [| reflexivity].
  below H E1.
  below H E2.
  below H E3.
  below H E4.
  below H E5.
  below H E6.
  cbv zeta. unfold Rgeb. rewrite !Rleb_false by lra. reflexivity.
Qed.

Lemma armcurl_low_confidence (kp : list Joint) :
  all_below (1 / 2)
    [ArmCurl.R_SHOULDER; ArmCurl.R_ELBOW; ArmCurl.R_WRIST;
     ArmCurl.L_SHOULDER; ArmCurl.L_ELBOW; ArmCurl.L_WRIST] kp ->
  fst (fst (ArmCurl.get_best_arm_angle kp)) = None
  \/ snd (fst (ArmCurl.get_best_arm_angle kp)) < 1 / 2.
Proof.
  intros H. unfold ArmCurl.get_best_arm_angle.
  destruct (nth_error kp ArmCurl.R_SHOULDER) as [rs|] eqn:E1; [| left; reflexivity].
  destruct (nth_error kp ArmCurl.R_ELBOW) as [re|] eqn:E2; [| left; reflexivity].
  destruct (nth_error kp ArmCurl.R_WRIST) as [rw|] eqn:E3; [| left; reflexivity].
  destruct (nth_error kp ArmCurl.L_SHOULDER) as [ls|] eqn:E4; [| left; reflexivity].
  destruct (nth_error kp ArmCurl.L_ELBOW) as [le|] eqn:E5; [| left; reflexivity].
  destruct (nth_error kp ArmCurl.L_WRIST) as [lw|] eqn:E6; [| left; reflexivity].
  below H E1.
  below H E2.
  below H E3.
  below H E4.
  below H E5.
  below H E6.
  cbv zeta.
  repeat (first [break_match | break_if]); cbn [fst snd];
    first [left; reflexivity | right; lra].
Qed.

Lemma armcurl_unanalysed (s : ArmCurl.t) (kp : list Joint) :
  fst (fst (ArmCurl.get_best_arm_angle kp)) = None
  \/ snd (fst (ArmCurl.get_best_arm_angle kp)) < 1 / 2 ->
  ArmCurl.analyze_pose s (Some kp) = (s, (ArmCurl.count s, None)).
Proof.
  intros H. destruct kp as [|j kp]; [reflexivity |].
  unfold ArmCurl.analyze_pose.
  destruct (ArmCurl.get_best_arm_angle (j :: kp)) as [[[a|] c] side];
    cbn [fst snd] in H; unfold ArmCurl.analyze_angle; [| reflexivity].
  destruct H as [H | H]; [discriminate |].
  rewrite (Rltb_true _ _ H). reflexivity.
Qed.

Lemma pullup_low_confidence (cfg : Config) (clk : Clock) (s : PullUp.t)
    (kp : list Joint) :
  all_below (min_confidence cfg)
    [PullUp.L_SHOULDER; PullUp.R_SHOULDER; PullUp.L_WRIST; PullUp.R_WRIST] kp ->
  exists label,
    PullUp.analyze_pose cfg clk s (Some kp) = (s, (PullUp.count s, label))
    /\ In label ["no_person"; "low_confidence"; "error"]%string.
Proof.
  intros H. unfold PullUp.analyze_pose.
  destruct kp as [|j kp]; [eexists; split; [reflexivity | simpl; tauto] |].
  destruct (nth_error (j :: kp) PullUp.L_SHOULDER) as [ls|] eqn:E1;
    [| eexists; split; [reflexivity | simpl; tauto]].
  destruct (nth_error (j :: kp) PullUp.R_SHOULDER) as [rs|] eqn:E2;
    [| eexists; split; [reflexivity | simpl; tauto]].
  destruct (nth_error (j :: kp) PullUp.L_WRIST) as [lw|] eqn:E3;
    [| eexists; split; [reflexivity | simpl; tauto]].
  destruct (nth_error (j :: kp) PullUp.R_WRIST) as [rw|] eqn:E4;
    [| eexists; split; [reflexivity | simpl; tauto]].
  below H E4.
  rewrite Rltb_true.
  - eexists; split; [reflexivity | simpl; tauto].
  - eapply Rle_lt_trans; [apply Rmin_r | eassumption].
Qed.

(** Against C7 as stated: a frame without a person changes the push-up
    counter, which counts the frame in [frame_count], the counter of the
    dwell test. *)
Lemma pushup_counts_frames_without_person :
  fst (PushUp.analyze_pose PushUp.init None) <> PushUp.init
  /\ PushUp.frame_count (fst (PushUp.analyze_pose PushUp.init None)) = 1%Z
  /\ PushUp.frame_count PushUp.init = 0%Z.
Proof.
  repeat split. intros H. apply (f_equal PushUp.frame_count) in H.
  discriminate H.
Qed.

(** C7, amended.  On a frame with no person, or with all the rows the
    counter reads below its confidence floor (or missing), [analyze_pose]
    returns the current count with a sentinel and leaves count, state,
    windows, [went_down] and [last_state_change] as they were.  The pull-up
    and arm-curl counters change nothing at all; the push-up and squat
    counters have advanced [frame_count] by one. *)
Theorem unanalysed_frames_keep_counting_state :
  (forall (cfg : Config) (clk : Clock) (s : PullUp.t) (keypoints : Keypoints),
      nothing_to_analyse (min_confidence cfg)
        [PullUp.L_SHOULDER; PullUp.R_SHOULDER; PullUp.L_WRIST; PullUp.R_WRIST]
        keypoints ->
      exists label,
        PullUp.analyze_pose cfg clk s keypoints = (s, (PullUp.count s, label))
        /\ In label ["no_person"; "low_confidence"; "error"]%string)
  /\ (forall (s : ArmCurl.t) (keypoints : Keypoints),
        nothing_to_analyse (1 / 2)
          [ArmCurl.R_SHOULDER; ArmCurl.R_ELBOW; ArmCurl.R_WRIST;
           ArmCurl.L_SHOULDER; ArmCurl.L_ELBOW; ArmCurl.L_WRIST] keypoints ->
        ArmCurl.analyze_pose s keypoints = (s, (ArmCurl.count s, None)))
  /\ (forall (s : PushUp.t) (keypoints : Keypoints),
        nothing_to_analyse (PushUp.MIN_CONFIDENCE s)
          [PushUp.R_SHOULDER; PushUp.R_ELBOW; PushUp.R_WRIST;
           PushUp.L_SHOULDER; PushUp.L_ELBOW; PushUp.L_WRIST] keypoints ->
        PushUp.analyze_pose s keypoints
        = (PushUp.mk (PushUp.count s) (PushUp.frame_count s + 1)
             (PushUp.state s) (PushUp.last_state_change s)
             (PushUp.angle_history s) (PushUp.went_down s)
             (PushUp.UP_ANGLE_THRESHOLD s) (PushUp.DOWN_ANGLE_THRESHOLD s)
             (PushUp.MIN_CONFIDENCE s) (PushUp.MIN_FRAMES_IN_STATE s),
           (PushUp.count s, None)))
  /\ (forall (s : Squat.t) (keypoints : Keypoints),
        nothing_to_analyse (3 / 10)
          [Squat.R_HIP; Squat.R_KNEE; Squat.R_ANKLE;
           Squat.L_HIP; Squat.L_KNEE; Squat.L_ANKLE] keypoints ->
        Squat.analyze_pose s keypoints
        = (Squat.mk (Squat.count s) (Squat.frame_count s + 1) (Squat.state s)
             (Squat.angle_history s) (Squat.up_threshold s)
             (Squat.down_threshold s) (Squat.went_down s)
             (Squat.last_state_change s) (Squat.min_frames_in_state s),
           (Squat.count s, None))).
Proof.
  split; [| split; [| split]].
  - intros cfg clk s kp [H | (kpl & -> & H)].
    + exists "no_person"%string. split; [| simpl; tauto].
      destruct kp as [[|j kp]|]; try discriminate H; reflexivity.
    + apply pullup_low_confidence. exact H.
  - intros s kp [H | (kpl & -> & H)].
    + destruct kp as [[|j kp]|]; try discriminate H; reflexivity.
    + apply armcurl_unanalysed, armcurl_low_confidence. exact H.
  - intros s kp [H | (kpl & -> & H)].
    + destruct kp as [[|j kp]|]; try discriminate H; reflexivity.
    + destruct kpl as [|j kpl]; [reflexivity |].
      unfold PushUp.analyze_pose.
      rewrite pushup_floor_is_kept, (pushup_low_confidence s _ H).
      reflexivity.
  - intros s kp [H | (kpl & -> & H)].
    + destruct kp as [[|j kp]|]; try discriminate H; reflexivity.
    + destruct kpl as [|j kpl]; [reflexivity |].
      unfold Squat.analyze_pose. rewrite (squat_low_confidence _ H).
      reflexivity.
Qed.

Lemma unanalysed_frames_witness :
  (nothing_to_analyse (PushUp.MIN_CONFIDENCE PushUp.init)
     [PushUp.R_SHOULDER; PushUp.R_ELBOW; PushUp.R_WRIST;
      PushUp.L_SHOULDER; PushUp.L_ELBOW; PushUp.L_WRIST]
     (Some (arms_frame 90 (1 / 10) 90 (2 / 10)))
   /\ nothing_to_analyse (1 / 2)
        [ArmCurl.R_SHOULDER; ArmCurl.R_ELBOW; ArmCurl.R_WRIST;
         ArmCurl.L_SHOULDER; ArmCurl.L_ELBOW; ArmCurl.L_WRIST] None)
  /\ PushUp.analyze_pose PushUp.init (Some (arms_frame 90 (1 / 10) 90 (2 / 10)))
     = (PushUp.mk 0 (0 + 1) PushUp.UP 0 [] false 135 105 (3 / 10) 2, (0%Z, None))
  /\ ArmCurl.analyze_pose ArmCurl.init None = (ArmCurl.init, (0%Z, None)).
Proof.
  assert (P : nothing_to_analyse (PushUp.MIN_CONFIDENCE PushUp.init)
                [PushUp.R_SHOULDER; PushUp.R_ELBOW; PushUp.R_WRIST;
                 PushUp.L_SHOULDER; PushUp.L_ELBOW; PushUp.L_WRIST]
                (Some (arms_frame 90 (1 / 10) 90 (2 / 10)))).
  { right. eexists. split; [reflexivity |].
    unfold all_below.
    repeat constructor; intros j Hj; injection Hj as <-; cbn; lra. }
  assert (A : nothing_to_analyse (1 / 2)
                [ArmCurl.R_SHOULDER; ArmCurl.R_ELBOW; ArmCurl.R_WRIST;
                 ArmCurl.L_SHOULDER; ArmCurl.L_ELBOW; ArmCurl.L_WRIST] None)
    by (left; reflexivity).
  split; [split; assumption |].
  destruct unanalysed_frames_keep_counting_state as (_ & Harm & Hpush & _).
  split; [exact (Hpush PushUp.init _ P) | exact (Harm ArmCurl.init _ A)].
Defined.

(** ** The session: mode switching and frame counting *)

Lemma switch_mode_same (w : Workout.t) :
  Workout.switch_mode w (Workout.mode w) = w.
Proof. unfold Workout.switch_mode. rewrite String.eqb_refl. reflexivity. Qed.

(** C8: switching a session to a mode other than its current one leaves
    exactly the session that [WorkoutCounter(new_mode)] constructs: the
    counter is the freshly constructed counter of the new mode (the pull-up
    counter for ["chinup"], ["pullup"] and any unknown mode), so its count is
    0 and its windows and logs are empty, nothing of the old counter is
    kept, and the cumulative frame count is 0. *)
Theorem switch_mode_starts_fresh (w : Workout.t) (new_mode : string) :
  new_mode <> Workout.mode w ->
  let w' := Workout.switch_mode w new_mode in
  w' = Workout.init new_mode
  /\ Workout.count w' = 0%Z
  /\ Workout.frame_count w' = 0%Z
  /\ (exists c,
        Workout.counter w' = Some c
        /\ Workout.counter_frame_count c = 0%Z
        /\ (c = Workout.PullUpCounter PullUp.init
            \/ c = Workout.PushUpCounter PushUp.init
            \/ c = Workout.SquatCounter Squat.init
            \/ c = Workout.ArmCurlCounter ArmCurl.init))
  /\ (new_mode = "chinup"%string \/ new_mode = "pullup"%string ->
      Workout.counter w' = Some (Workout.PullUpCounter PullUp.init))
  /\ (new_mode = "pushup"%string ->
      Workout.counter w' = Some (Workout.PushUpCounter PushUp.init))
  /\ (new_mode = "squat"%string ->
      Workout.counter w' = Some (Workout.SquatCounter Squat.init))
  /\ (new_mode = "armcurl"%string ->
      Workout.counter w' = Some (Workout.ArmCurlCounter ArmCurl.init))
  /\ PullUp.position_history PullUp.init = []
  /\ PullUp.direction_history PullUp.init = []
  /\ PushUp.angle_history PushUp.init = []
  /\ Squat.angle_history Squat.init = []
  /\ ArmCurl.angle_history ArmCurl.init = [].
Proof.
  intros Hne w'. subst w'. unfold Workout.switch_mode.
  apply String.eqb_neq in Hne. rewrite Hne. cbn [negb].
  unfold Workout.init, Workout._initialize_counter, Workout.count,
    Workout.counters.
  repeat split; try reflexivity.
  - repeat break_if; reflexivity.
  - repeat break_if; reflexivity.
  - repeat break_if; cbn [Workout.counter]; eexists;
      (split; [reflexivity |]); (split; [reflexivity |]); tauto.
  - intros [-> | ->]; reflexivity.
  - intros ->; reflexivity.
  - intros ->; reflexivity.
  - intros ->; reflexivity.
Qed.

Lemma switch_mode_witness :
  "squat"%string <> Workout.mode (Workout.init "pushup")
  /\ Workout.switch_mode
       (fst (Workout.update config (mkClock 0 0) (Workout.init "pushup") None))
       "squat"
     = Workout.init "squat"
  /\ Workout.counter
       (Workout.switch_mode
          (fst (Workout.update config (mkClock 0 0) (Workout.init "pushup") None))
          "squat")
     = Some (Workout.SquatCounter Squat.init).
Proof.
  assert (N : "squat"%string
              <> Workout.mode
                   (fst (Workout.update config (mkClock 0 0)
                           (Workout.init "pushup") None)))
    by (cbn; discriminate).
  split; [cbn; discriminate |].
  destruct (switch_mode_starts_fresh _ "squat" N)
    as (Hinit & _ & _ & _ & _ & _ & Hsquat & _).
  split; [exact Hinit | exact (Hsquat eq_refl)].
Defined.

Lemma pushup_update_frame_count (s : PushUp.t) (a : option R) :
  PushUp.frame_count (PushUp.update_state_and_count s a) = PushUp.frame_count s.
Proof.
  unfold PushUp.update_state_and_count, PushUp._change_state.
  repeat (first [break_match | break_if]; simpl); reflexivity.
Qed.

Lemma pushup_frame_count (s : PushUp.t) (kp : Keypoints) :
  PushUp.frame_count (fst (PushUp.analyze_pose s kp))
  = (PushUp.frame_count s + 1)%Z.
Proof.
  unfold PushUp.analyze_pose.
  destruct kp as [[|j kp]|]; try reflexivity.
  destruct (PushUp.get_best_arm_angle _ _) as [a c].
  unfold PushUp.analyze_angle, PushUp.smooth_angle.
  destruct a as [a|]; [| reflexivity].
  break_if; [reflexivity |].
  break_if; cbn [fst]; rewrite pushup_update_frame_count; reflexivity.
Qed.

Lemma squat_frame_count (s : Squat.t) (kp : Keypoints) :
  Squat.frame_count (fst (Squat.analyze_pose s kp))
  = (Squat.frame_count s + 1)%Z.
Proof.
  unfold Squat.analyze_pose.
  destruct kp as [[|j kp]|]; try reflexivity.
  destruct (Squat.get_best_leg_angle _) as [a c].
  unfold Squat.analyze_angle.
  repeat (first [break_match | break_if]; cbn [fst Squat.frame_count]);
    reflexivity.
Qed.

Lemma armcurl_frame_count (s : ArmCurl.t) (kp : Keypoints) :
  ArmCurl.frame_count (fst (ArmCurl.analyze_pose s kp)) = ArmCurl.frame_count s.
Proof.
  unfold ArmCurl.analyze_pose.
  destruct kp as [[|j kp]|]; try reflexivity.
  destruct (ArmCurl.get_best_arm_angle _) as [[a c] side].
  unfold ArmCurl.analyze_angle.
  repeat (first [break_match | break_if]; cbn [fst ArmCurl.frame_count]);
    reflexivity.
Qed.

Lemma pullup_detect_frame_count (cfg : Config) (now : R) (s : PullUp.t)
    (d : R) :
  PullUp.frame_count (fst (PullUp.detect_direction_change cfg now s d))
  = PullUp.frame_count s.
Proof.
  unfold PullUp.detect_direction_change.
  repeat (first [break_match | break_if]; simpl); reflexivity.
Qed.

Lemma pullup_frame_count (cfg : Config) (clk : Clock) (s : PullUp.t)
    (kp : Keypoints) :
  PullUp.frame_count (fst (PullUp.analyze_pose cfg clk s kp))
  = PullUp.frame_count s.
Proof.
  unfold PullUp.analyze_pose.
  destruct kp as [[|j kp]|]; simpl; try reflexivity.
  repeat (break_match; simpl; try reflexivity).
  all: match goal with
       | H : PullUp.detect_direction_change ?c ?n ?s0 ?d = (?s1, _) |- _ =>
           pose proof (pullup_detect_frame_count c n s0 d) as Hc;
           rewrite H in Hc; simpl in Hc; exact Hc
       end.
Qed.

(** C10: one [WorkoutCounter.update] raises the active counter's
    [frame_count] by 2 when that counter is the push-up or the squat counter
    ([update] adds one and [analyze_pose] adds one more), so the dwell
    measure [frame_count - last_state_change] of a frame without a state
    change grows by 2; it raises it by 1 when the counter is the pull-up or
    the arm-curl counter. *)
Theorem update_advances_frame_count
    (cfg : Config) (clk : Clock) (w : Workout.t) (keypoints : Keypoints) :
  (forall c, Workout.counter w = Some (Workout.PushUpCounter c) ->
     exists c',
       Workout.counter (fst (Workout.update cfg clk w keypoints))
       = Some (Workout.PushUpCounter c')
       /\ PushUp.frame_count c' = (PushUp.frame_count c + 2)%Z
       /\ (PushUp.last_state_change c' = PushUp.last_state_change c ->
           (PushUp.frame_count c' - PushUp.last_state_change c'
            = PushUp.frame_count c - PushUp.last_state_change c + 2)%Z))
  /\ (forall c, Workout.counter w = Some (Workout.SquatCounter c) ->
     exists c',
       Workout.counter (fst (Workout.update cfg clk w keypoints))
       = Some (Workout.SquatCounter c')
       /\ Squat.frame_count c' = (Squat.frame_count c + 2)%Z
       /\ (Squat.last_state_change c' = Squat.last_state_change c ->
           (Squat.frame_count c' - Squat.last_state_change c'
            = Squat.frame_count c - Squat.last_state_change c + 2)%Z))
  /\ (forall c, Workout.counter w = Some (Workout.PullUpCounter c) ->
     exists c',
       Workout.counter (fst (Workout.update cfg clk w keypoints))
       = Some (Workout.PullUpCounter c')
       /\ PullUp.frame_count c' = (PullUp.frame_count c + 1)%Z)
  /\ (forall c, Workout.counter w = Some (Workout.ArmCurlCounter c) ->
     exists c',
       Workout.counter (fst (Workout.update cfg clk w keypoints))
       = Some (Workout.ArmCurlCounter c')
       /\ ArmCurl.frame_count c' = (ArmCurl.frame_count c + 1)%Z).
Proof.
  unfold Workout.update.
  split; [| split; [| split]]; intros c Hc; rewrite Hc;
    cbn [Workout.set_counter_frame_count Workout.counter_frame_count
         Workout.counter_analyze_pose].
  - match goal with
    | |- context [PushUp.analyze_pose ?s0 keypoints] =>
        pose proof (pushup_frame_count s0 keypoints) as F;
        destruct (PushUp.analyze_pose s0 keypoints) as [c' [n a]]
    end.
    cbn [fst Workout.counter PushUp.frame_count PushUp.set_frame_count] in *.
    exists c'. split; [reflexivity |]. split; [lia |]. intros E. lia.
  - match goal with
    | |- context [Squat.analyze_pose ?s0 keypoints] =>
        pose proof (squat_frame_count s0 keypoints) as F;
        destruct (Squat.analyze_pose s0 keypoints) as [c' [n a]]
    end.
    cbn [fst Workout.counter Squat.frame_count] in *.
    exists c'. split; [reflexivity |]. split; [lia |]. intros E. lia.
  - match goal with
    | |- context [PullUp.analyze_pose cfg clk ?s0 keypoints] =>
        pose proof (pullup_frame_count cfg clk s0 keypoints) as F;
        destruct (PullUp.analyze_pose cfg clk s0 keypoints) as [c' [n l]]
    end.
    cbn [fst Workout.counter PullUp.frame_count] in *.
    exists c'. split; [reflexivity | exact F].
  - match goal with
    | |- context [ArmCurl.analyze_pose ?s0 keypoints] =>
        pose proof (armcurl_frame_count s0 keypoints) as F;
        destruct (ArmCurl.analyze_pose s0 keypoints) as [c' [n a]]
    end.
    cbn [fst Workout.counter ArmCurl.frame_count] in *.
    exists c'. split; [reflexivity | exact F].
Qed.

Lemma update_frame_count_witness :
  Workout.counter (Workout.init "pushup")
  = Some (Workout.PushUpCounter PushUp.init)
  /\ exists c',
       Workout.counter
         (fst (Workout.update config (mkClock 0 0) (Workout.init "pushup") None))
       = Some (Workout.PushUpCounter c')
       /\ PushUp.frame_count c' = (PushUp.frame_count PushUp.init + 2)%Z.
Proof.
  split; [reflexivity |].
  destruct (update_advances_frame_count config (mkClock 0 0)
              (Workout.init "pushup") None) as (Hpush & _).
  destruct (Hpush PushUp.init eq_refl) as (c' & Hc & Hf & _).
  exists c'. split; assumption.
Defined.

(** * Further properties of the code *)

(** ** GeometryOps: what the angle is *)

Lemma norm_nonneg (vx vy : R) : 0 <= Geometry.norm vx vy.
Proof. apply sqrt_pos. Qed.

Lemma norm_sqr (vx vy : R) :
  Geometry.norm vx vy * Geometry.norm vx vy = vx * vx + vy * vy.
Proof. unfold Geometry.norm. apply sqrt_sqrt. nra. Qed.

(** Cauchy-Schwarz for the two rays: the cosine needs no clipping in exact
    arithmetic. *)
Lemma cosine_in_range (ux uy vx vy : R) :
  0 < Geometry.norm ux uy -> 0 < Geometry.norm vx vy ->
  -1 <= Geometry.dot ux uy vx vy / (Geometry.norm ux uy * Geometry.norm vx vy)
     <= 1.
Proof.
  intros Hu Hv.
  pose proof (norm_sqr ux uy) as Su. pose proof (norm_sqr vx vy) as Sv.
  set (n1 := Geometry.norm ux uy) in *. set (n2 := Geometry.norm vx vy) in *.
  assert (Hn : 0 < n1 * n2) by (apply Rmult_lt_0_compat; assumption).
  assert (Hcs : Geometry.dot ux uy vx vy * Geometry.dot ux uy vx vy
                <= (n1 * n2) * (n1 * n2)).
  { replace ((n1 * n2) * (n1 * n2)) with ((n1 * n1) * (n2 * n2)) by ring.
    rewrite Su, Sv. unfold Geometry.dot.
    replace ((ux * ux + uy * uy) * (vx * vx + vy * vy))
      with ((ux * vx + uy * vy) * (ux * vx + uy * vy)
            + (ux * vy - uy * vx) * (ux * vy - uy * vx)) by ring.
    pose proof (Rle_0_sqr (ux * vy - uy * vx)) as Hs. unfold Rsqr in Hs.
    lra. }
  assert (Hd : - (n1 * n2) <= Geometry.dot ux uy vx vy <= n1 * n2) by nra.
  split.
  - apply Rmult_le_reg_r with (n1 * n2); [exact Hn |].
    unfold Rdiv. rewrite Rmult_assoc, Rinv_l by lra. lra.
  - apply Rmult_le_reg_r with (n1 * n2); [exact Hn |].
    unfold Rdiv. rewrite Rmult_assoc, Rinv_l by lra. lra.
Qed.

(** X1: for rays of magnitude at least [epsilon], the number of degrees
    [calculate_angle] returns lies in [0, 180] and its cosine is the
    normalised dot product of the two rays: the clip to [-1, 1] changes
    nothing in exact arithmetic, so the result is the geometric angle at the
    vertex. *)
Theorem calculate_angle_is_the_vertex_angle (a b c : Joint) :
  Geometry.epsilon <= Geometry.norm (jx a - jx b) (jy a - jy b) ->
  Geometry.epsilon <= Geometry.norm (jx c - jx b) (jy c - jy b) ->
  exists g,
    PushUp.calculate_angle a b c = Some g
    /\ Squat.calculate_angle a b c = Some g
    /\ ArmCurl.calculate_angle a b c = Some g
    /\ 0 <= g <= 180
    /\ cos (g * (PI / 180))
       = Geometry.dot (jx a - jx b) (jy a - jy b) (jx c - jx b) (jy c - jy b)
         / (Geometry.norm (jx a - jx b) (jy a - jy b)
            * Geometry.norm (jx c - jx b) (jy c - jy b)).
Proof.
  intros H1 H2. pose proof epsilon_pos as He. pose proof PI_RGT_0 as Hpi.
  destruct (angle_valid a b c H1 H2) as (g & Hg & Hr).
  exists g. unfold PushUp.calculate_angle, Squat.calculate_angle.
  rewrite armcurl_calculate_angle_eq.
  repeat split; try assumption; try apply Hr.
  revert Hg. unfold Geometry.angle. cbv zeta.
  rewrite (Rltb_false _ _ H1), (Rltb_false _ _ H2). cbn [orb].
  intros Hg. injection Hg as <-.
  pose proof (cosine_in_range (jx a - jx b) (jy a - jy b)
                (jx c - jx b) (jy c - jy b) ltac:(lra) ltac:(lra)) as [Hlo Hhi].
  unfold Geometry.clip. rewrite Rmax_left by lra. rewrite Rmin_left by lra.
  unfold Geometry.degrees.
  replace (acos _ * (180 / PI) * (PI / 180)) with
    (acos (Geometry.dot (jx a - jx b) (jy a - jy b) (jx c - jx b) (jy c - jy b)
           / (Geometry.norm (jx a - jx b) (jy a - jy b)
              * Geometry.norm (jx c - jx b) (jy c - jy b))))
    by (field; lra).
  apply cos_acos. split; assumption.
Qed.

Lemma calculate_angle_is_the_vertex_angle_witness :
  (Geometry.epsilon <= Geometry.norm (1 - 0) (0 - 0)
   /\ Geometry.epsilon <= Geometry.norm (0 - 0) (1 - 0))
  /\ exists g,
       PushUp.calculate_angle (mkJoint 1 0 1) (mkJoint 0 0 1) (mkJoint 0 1 1)
       = Some g
       /\ cos (g * (PI / 180))
          = Geometry.dot (1 - 0) (0 - 0) (0 - 0) (1 - 0)
            / (Geometry.norm (1 - 0) (0 - 0) * Geometry.norm (0 - 0) (1 - 0)).
Proof.
  pose proof epsilon_lt_1 as He.
  assert (H1 : Geometry.epsilon <= Geometry.norm (1 - 0) (0 - 0))
    by (rewrite norm_unit_x; lra).
  assert (H2 : Geometry.epsilon <= Geometry.norm (0 - 0) (1 - 0))
    by (rewrite norm_unit_y; lra).
  split; [split; assumption |].
  destruct (calculate_angle_is_the_vertex_angle
              (mkJoint 1 0 1) (mkJoint 0 0 1) (mkJoint 0 1 1) H1 H2)
    as (g & Hp & _ & _ & _ & Hc).
  exists g. split; assumption.
Defined.

(** X2: [calculate_angle] reads positions only relative to the vertex and
    never reads a confidence: moving the three points by the same offset and
    changing their confidences leaves the result as it was. *)
Theorem calculate_angle_ignores_offset_and_confidence
    (a b c : Joint) (tx ty ca cb cc : R) :
  let a' := mkJoint (jx a + tx) (jy a + ty) ca in
  let b' := mkJoint (jx b + tx) (jy b + ty) cb in
  let c' := mkJoint (jx c + tx) (jy c + ty) cc in
  PushUp.calculate_angle a' b' c' = PushUp.calculate_angle a b c
  /\ Squat.calculate_angle a' b' c' = Squat.calculate_angle a b c
  /\ ArmCurl.calculate_angle a' b' c' = ArmCurl.calculate_angle a b c.
Proof.
  cbv zeta.
  assert (E : Geometry.angle (mkJoint (jx a + tx) (jy a + ty) ca)
                (mkJoint (jx b + tx) (jy b + ty) cb)
                (mkJoint (jx c + tx) (jy c + ty) cc)
              = Geometry.angle a b c).
  { unfold Geometry.angle. cbn [jx jy].
    replace (jx a + tx - (jx b + tx)) with (jx a - jx b) by ring.
    replace (jy a + ty - (jy b + ty)) with (jy a - jy b) by ring.
    replace (jx c + tx - (jx b + tx)) with (jx c - jx b) by ring.
    replace (jy c + ty - (jy b + ty)) with (jy c - jy b) by ring.
    reflexivity. }
  unfold PushUp.calculate_angle, Squat.calculate_angle.
  rewrite !armcurl_calculate_angle_eq, E. repeat split.
Qed.

(** X3: a limb folded onto itself reads 0 degrees and a straight limb reads
    180 degrees: with the ray [b->a] of magnitude at least [epsilon],
    [calculate_angle] returns 0 when the third point has the coordinates of
    [a] and 180 when it is the mirror image of [a] through the vertex. *)
Theorem folded_limb_is_0_and_straight_limb_is_180 (a b c : Joint) :
  Geometry.epsilon <= Geometry.norm (jx a - jx b) (jy a - jy b) ->
  (jx c = jx a -> jy c = jy a ->
   PushUp.calculate_angle a b c = Some 0
   /\ Squat.calculate_angle a b c = Some 0
   /\ ArmCurl.calculate_angle a b c = Some 0)
  /\ (jx c = 2 * jx b - jx a -> jy c = 2 * jy b - jy a ->
      PushUp.calculate_angle a b c = Some 180
      /\ Squat.calculate_angle a b c = Some 180
      /\ ArmCurl.calculate_angle a b c = Some 180).
Proof.
  intros H1. pose proof epsilon_pos as He. pose proof PI_RGT_0 as Hpi.
  pose proof (norm_sqr (jx a - jx b) (jy a - jy b)) as Sq.
  unfold PushUp.calculate_angle, Squat.calculate_angle.
  rewrite !armcurl_calculate_angle_eq.
  set (n := Geometry.norm (jx a - jx b) (jy a - jy b)) in *.
  assert (Hnn : n * n <> 0) by nra.
  split; intros Hx Hy.
  - assert (E : Geometry.angle a b c = Some 0).
    { unfold Geometry.angle. cbv zeta. rewrite Hx, Hy. fold n.
      rewrite (Rltb_false _ _ H1). cbn [orb].
      unfold Geometry.dot. rewrite <- Sq.
      replace (n * n / (n * n)) with 1 by (field; lra).
      unfold Geometry.clip. rewrite Rmax_left by lra. rewrite Rmin_left by lra.
      rewrite acos_1. unfold Geometry.degrees. f_equal. lra. }
    rewrite E. repeat split.
  - assert (E : Geometry.angle a b c = Some 180).
    { unfold Geometry.angle. cbv zeta. rewrite Hx, Hy.
      assert (N2 : Geometry.norm (2 * jx b - jx a - jx b)
                     (2 * jy b - jy a - jy b) = n).
      { unfold n, Geometry.norm. f_equal. ring. }
      rewrite N2. fold n. rewrite (Rltb_false _ _ H1). cbn [orb].
      unfold Geometry.dot.
      replace ((jx a - jx b) * (2 * jx b - jx a - jx b)
               + (jy a - jy b) * (2 * jy b - jy a - jy b))
        with (- (n * n)) by (rewrite Sq; ring).
      replace (- (n * n) / (n * n)) with (- (1)) by (field; lra).
      unfold Geometry.clip. rewrite Rmax_left by lra. rewrite Rmin_left by lra.
      rewrite acos_opp, acos_1. unfold Geometry.degrees. f_equal. field. lra. }
    rewrite E. repeat split.
Qed.

Lemma folded_and_straight_limb_witness :
  Geometry.epsilon <= Geometry.norm (1 - 0) (0 - 0)
  /\ PushUp.calculate_angle (mkJoint 1 0 1) (mkJoint 0 0 1) (mkJoint 1 0 1)
     = Some 0
  /\ PushUp.calculate_angle (mkJoint 1 0 1) (mkJoint 0 0 1) (mkJoint (-1) 0 1)
     = Some 180.
Proof.
  pose proof epsilon_lt_1 as He.
  assert (H1 : Geometry.epsilon <= Geometry.norm (1 - 0) (0 - 0))
    by (rewrite norm_unit_x; lra).
  split; [exact H1 |]. split.
  - destruct (folded_limb_is_0_and_straight_limb_is_180
                (mkJoint 1 0 1) (mkJoint 0 0 1) (mkJoint 1 0 1) H1)
      as (Hfold & _).
    apply Hfold; reflexivity.
  - destruct (folded_limb_is_0_and_straight_limb_is_180
                (mkJoint 1 0 1) (mkJoint 0 0 1) (mkJoint (-1) 0 1) H1)
      as (_ & Hstraight).
    apply Hstraight; cbn; lra.
Defined.

(** ** The windows *)

Lemma for_all_calls {S I O : Type} (step : S -> I -> S * O) (P : S -> Prop) :
  (forall s i, P s -> P (fst (step s i))) ->
  forall inputs s, P s -> P (final step s inputs).
Proof.
  intros Hstep. induction inputs as [|i rest IH]; intros s Hs; [exact Hs |].
  rewrite final_cons. apply IH, Hstep, Hs.
Qed.

Lemma last_app_one {A : Type} (l : list A) (x d : A) : last (l ++ [x]) d = x.
Proof. apply last_last. Qed.

Lemma lastn_all {A : Type} (n : nat) (l : list A) :
  (List.length l <= n)%nat -> lastn n l = l.
Proof.
  intros H. unfold lastn.
  replace (List.length l - n)%nat with 0%nat by lia. reflexivity.
Qed.

(** [append] on a [deque(maxlen=n)] holding at most [n] elements keeps
    the most recent [n] elements of the old content followed by the new
    element, in order: the new element is last, the length grows by one up
    to [n], and a full deque loses exactly its oldest element. *)
Theorem deque_append_keeps_most_recent
    {A : Type} (n : nat) (d : list A) (x dflt : A) :
  (0 < n)%nat -> (List.length d <= n)%nat ->
  deque_append n d x = lastn n (d ++ [x])
  /\ List.length (deque_append n d x) = Nat.min (List.length d + 1) n
  /\ last (deque_append n d x) dflt = x
  /\ (List.length d = n -> deque_append n d x = tl d ++ [x]).
Proof.
  intros Hn Hlen. unfold deque_append.
  destruct (List.length d <? n)%nat eqn:E.
  - apply Nat.ltb_lt in E.
    rewrite lastn_all by (rewrite length_app; simpl; lia).
    repeat split.
    + rewrite length_app. cbn [List.length]. lia.
    + apply last_app_one.
    + intros H. lia.
  - apply Nat.ltb_ge in E. assert (Hfull : List.length d = n) by lia.
    destruct d as [|y d]; [simpl in Hfull; lia |].
    cbn [app tl]. simpl in Hfull.
    repeat split.
    + unfold lastn. cbn [List.length]. rewrite length_app. cbn [List.length].
      replace (S (List.length d + 1) - n)%nat with 1%nat by lia. reflexivity.
    + rewrite length_app. cbn [List.length]. lia.
    + apply last_app_one.
Qed.

Lemma deque_append_witness :
  ((0 < 3)%nat /\ (List.length [1; 2; 3]%Z <= 3)%nat)
  /\ deque_append 3 [1; 2; 3]%Z 4%Z = lastn 3 ([1; 2; 3]%Z ++ [4%Z])
  /\ deque_append 3 [1; 2; 3]%Z 4%Z = tl [1; 2; 3]%Z ++ [4%Z].
Proof.
  assert (H0 : (0 < 3)%nat) by lia.
  assert (H1 : (List.length [1; 2; 3]%Z <= 3)%nat) by (simpl; lia).
  split; [split; assumption |].
  destruct (deque_append_keeps_most_recent 3 [1; 2; 3]%Z 4%Z 0%Z H0 H1)
    as (Hrecent & _ & _ & Hfull).
  split; [exact Hrecent | exact (Hfull eq_refl)].
Defined.

Lemma deque_append_bounded {A : Type} (n : nat) (d : list A) (x : A) :
  (0 < n)%nat -> (List.length d <= n)%nat ->
  (List.length (deque_append n d x) <= n)%nat.
Proof.
  intros Hn Hlen. unfold deque_append. break_if.
  - apply Nat.ltb_lt in Heqb. rewrite length_app. simpl. lia.
  - destruct d as [|y d]; simpl in *; [lia |]. rewrite length_app. simpl. lia.
Qed.

Lemma pushup_update_history (s : PushUp.t) (a : option R) :
  PushUp.angle_history (PushUp.update_state_and_count s a)
  = PushUp.angle_history s.
Proof.
  unfold PushUp.update_state_and_count, PushUp._change_state.
  repeat (first [break_match | break_if]; simpl); reflexivity.
Qed.

Lemma pushup_window_step (s : PushUp.t) (kp : Keypoints) :
  (List.length (PushUp.angle_history s) <= 3)%nat ->
  (List.length (PushUp.angle_history (fst (PushUp.analyze_pose s kp))) <= 3)%nat.
Proof.
  intros H. unfold PushUp.analyze_pose.
  destruct kp as [[|j kp]|]; try exact H.
  destruct (PushUp.get_best_arm_angle _ _) as [[a|] c]; [| exact H].
  unfold PushUp.analyze_angle, PushUp.smooth_angle.
  break_if; [exact H |].
  break_if; cbn [fst]; rewrite pushup_update_history; cbn;
    apply deque_append_bounded; solve [lia | exact H].
Qed.

Lemma squat_window_step (s : Squat.t) (kp : Keypoints) :
  (List.length (Squat.angle_history s) <= 3)%nat ->
  (List.length (Squat.angle_history (fst (Squat.analyze_pose s kp))) <= 3)%nat.
Proof.
  intros H. unfold Squat.analyze_pose.
  destruct kp as [[|j kp]|]; try exact H.
  destruct (Squat.get_best_leg_angle _) as [[a|] c]; [| exact H].
  unfold Squat.analyze_angle.
  pose proof (deque_append_bounded 3 (Squat.angle_history s) a
                ltac:(lia) H) as B.
  repeat (first [break_match | break_if]; cbn [fst Squat.angle_history]);
    first [exact H | exact B].
Qed.

Lemma armcurl_window_step (s : ArmCurl.t) (kp : Keypoints) :
  (List.length (ArmCurl.angle_history s) <= 5)%nat ->
  (List.length (ArmCurl.angle_history (fst (ArmCurl.analyze_pose s kp))) <= 5)%nat.
Proof.
  intros H. unfold ArmCurl.analyze_pose.
  destruct kp as [[|j kp]|]; try exact H.
  destruct (ArmCurl.get_best_arm_angle _) as [[[a|] c] side]; [| exact H].
  unfold ArmCurl.analyze_angle.
  pose proof (deque_append_bounded ArmCurl.maxlen (ArmCurl.angle_history s) a
                ltac:(unfold ArmCurl.maxlen; lia) H) as B.
  unfold ArmCurl.maxlen in B at 2.
  repeat (first [break_match | break_if]; cbn [fst ArmCurl.angle_history]);
    first [exact H | exact B].
Qed.

Lemma pullup_detect_windows (cfg : Config) (now : R) (s : PullUp.t) (d : R) :
  (List.length (PullUp.position_history s) <= 30)%nat ->
  (List.length (PullUp.direction_history s) <= 10)%nat ->
  (List.length (PullUp.position_history
                  (fst (PullUp.detect_direction_change cfg now s d))) <= 30)%nat
  /\ (List.length (PullUp.direction_history
                     (fst (PullUp.detect_direction_change cfg now s d))) <= 10)%nat.
Proof.
  intros Hp Hd.
  pose proof (deque_append_bounded 30 (PullUp.position_history s) d
                ltac:(lia) Hp) as Bp.
  unfold PullUp.detect_direction_change.
  repeat (first [break_match | break_if];
          cbn [fst PullUp.position_history PullUp.direction_history]);
    split; try assumption; apply deque_append_bounded; solve [lia | assumption].
Qed.

Lemma pullup_window_step (cfg : Config) (s : PullUp.t) (f : Clock * Keypoints) :
  (List.length (PullUp.position_history s) <= 30)%nat
  /\ (List.length (PullUp.direction_history s) <= 10)%nat ->
  (List.length (PullUp.position_history (fst (pullup_step cfg s f))) <= 30)%nat
  /\ (List.length (PullUp.direction_history (fst (pullup_step cfg s f))) <= 10)%nat.
Proof.
  intros [Hp Hd]. unfold pullup_step, PullUp.analyze_pose.
  destruct (snd f) as [[|j kp]|]; cbn [fst]; try (split; assumption).
  repeat (break_match; cbn [fst]; try (split; assumption)).
  all: match goal with
       | H : PullUp.detect_direction_change ?c ?n ?s0 ?d = (?s1, _) |- _ =>
           pose proof (pullup_detect_windows c n s0 d Hp Hd) as Hc;
           rewrite H in Hc; cbn [fst] in Hc
       end;
       cbn [PullUp.position_history PullUp.direction_history];
       split; first [apply Hc | simpl; lia].
Qed.

(** X4: no window ever exceeds its capacity.  Whatever frames a counter is
    fed after construction, the push-up and squat angle windows hold at
    most 3 samples, the arm-curl window at most 5, the pull-up position
    window at most 30 and its change log at most 10 entries. *)
Theorem windows_stay_within_capacity :
  (forall frames,
      (List.length (PushUp.angle_history
                      (final PushUp.analyze_pose PushUp.init frames)) <= 3)%nat)
  /\ (forall frames,
      (List.length (Squat.angle_history
                      (final Squat.analyze_pose Squat.init frames)) <= 3)%nat)
  /\ (forall frames,
      (List.length (ArmCurl.angle_history
                      (final ArmCurl.analyze_pose ArmCurl.init frames)) <= 5)%nat)
  /\ (forall cfg frames,
      (List.length (PullUp.position_history
                      (final (pullup_step cfg) PullUp.init frames)) <= 30)%nat
      /\ (List.length (PullUp.direction_history
                         (final (pullup_step cfg) PullUp.init frames)) <= 10)%nat).
Proof.
  split; [| split; [| split]].
  - intros frames.
    apply (for_all_calls PushUp.analyze_pose
             (fun s => (List.length (PushUp.angle_history s) <= 3)%nat));
      [apply pushup_window_step | simpl; lia].
  - intros frames.
    apply (for_all_calls Squat.analyze_pose
             (fun s => (List.length (Squat.angle_history s) <= 3)%nat));
      [apply squat_window_step | simpl; lia].
  - intros frames.
    apply (for_all_calls ArmCurl.analyze_pose
             (fun s => (List.length (ArmCurl.angle_history s) <= 5)%nat));
      [apply armcurl_window_step | simpl; lia].
  - intros cfg frames.
    apply (for_all_calls (pullup_step cfg)
             (fun s => (List.length (PullUp.position_history s) <= 30)%nat
                       /\ (List.length (PullUp.direction_history s) <= 10)%nat));
      [apply pullup_window_step | simpl; lia].
Qed.

(** ** The angle state machines *)

Ltac reflect_int_tests :=
  repeat match goal with
    | H : (_ <? _)%Z = true |- _ => apply Z.ltb_lt in H
    | H : (_ <? _)%Z = false |- _ => apply Z.ltb_ge in H
    end.

(** One [analyze_pose] call of the push-up counter: the parameters stay,
    [frame_count] advances, and the state machine either rests, or goes
    down on a smoothed angle below the down threshold, or comes up on one
    above the up threshold, the dwell being over in both cases. *)
Lemma pushup_step_spec (s : PushUp.t) (kp : Keypoints) :
  let r := PushUp.analyze_pose s kp in
  let s' := fst r in
  (PushUp.UP_ANGLE_THRESHOLD s' = PushUp.UP_ANGLE_THRESHOLD s
   /\ PushUp.DOWN_ANGLE_THRESHOLD s' = PushUp.DOWN_ANGLE_THRESHOLD s
   /\ PushUp.MIN_CONFIDENCE s' = PushUp.MIN_CONFIDENCE s
   /\ PushUp.MIN_FRAMES_IN_STATE s' = PushUp.MIN_FRAMES_IN_STATE s
   /\ PushUp.frame_count s' = (PushUp.frame_count s + 1)%Z)
  /\ ((PushUp.state s' = PushUp.state s
       /\ PushUp.count s' = PushUp.count s
       /\ PushUp.went_down s' = PushUp.went_down s
       /\ PushUp.last_state_change s' = PushUp.last_state_change s)
      \/ (PushUp.state s = PushUp.UP /\ PushUp.state s' = PushUp.DOWN
          /\ PushUp.count s' = PushUp.count s
          /\ PushUp.went_down s' = true
          /\ PushUp.last_state_change s' = (PushUp.frame_count s + 1)%Z
          /\ (PushUp.MIN_FRAMES_IN_STATE s
              <= PushUp.frame_count s + 1 - PushUp.last_state_change s)%Z
          /\ exists a, snd (snd r) = Some a
                       /\ a < PushUp.DOWN_ANGLE_THRESHOLD s)
      \/ (PushUp.state s = PushUp.DOWN /\ PushUp.state s' = PushUp.UP
          /\ PushUp.count s'
             = (if PushUp.went_down s then PushUp.count s + 1
                else PushUp.count s)%Z
          /\ PushUp.went_down s' = false
          /\ PushUp.last_state_change s' = (PushUp.frame_count s + 1)%Z
          /\ (PushUp.MIN_FRAMES_IN_STATE s
              <= PushUp.frame_count s + 1 - PushUp.last_state_change s)%Z
          /\ exists a, snd (snd r) = Some a
                       /\ a > PushUp.UP_ANGLE_THRESHOLD s)).
Proof.
  cbv zeta. unfold PushUp.analyze_pose.
  destruct kp as [[|j kp]|]; try solve [split; [repeat split | left; repeat split]].
  destruct (PushUp.get_best_arm_angle _ _) as [[a|] c];
    [| split; [repeat split | left; repeat split]].
  unfold PushUp.analyze_angle, PushUp.smooth_angle.
  break_if; [split; [repeat split | left; repeat split] |].
  match goal with
  | |- context [if ?b then (?s1, Some ?m) else (?s2, Some ?x)] =>
      set (sm := if b then m else x);
      replace (if b then (s1, Some m) else (s2, Some x)) with (s1, Some sm)
        by (unfold sm; destruct b; reflexivity)
  end.
  clearbody sm.
  unfold PushUp.update_state_and_count, PushUp._change_state.
  cbn [PushUp.frame_count PushUp.last_state_change PushUp.MIN_FRAMES_IN_STATE
       PushUp.state PushUp.DOWN_ANGLE_THRESHOLD PushUp.UP_ANGLE_THRESHOLD
       PushUp.set_angle_history PushUp.set_frame_count].
  destruct (_ <? _)%Z eqn:Edwell;
    [split; [repeat split | left; repeat split] |].
  apply Z.ltb_ge in Edwell.
  destruct (PushUp.state s) eqn:Est.
  - destruct (Rltb sm (PushUp.DOWN_ANGLE_THRESHOLD s)) eqn:Ea;
      [| split; [repeat split | left; repeat split; cbn; assumption]].
    apply Rltb_iff in Ea. cbn.
    split; [repeat split |]. right; left. repeat split; try assumption.
    exists sm. split; [reflexivity | assumption].
  - unfold Rgtb.
    destruct (Rltb (PushUp.UP_ANGLE_THRESHOLD s) sm) eqn:Ea;
      [| split; [repeat split | left; repeat split; cbn; assumption]].
    apply Rltb_iff in Ea. cbn.
    destruct (PushUp.went_down s) eqn:Ewd; cbn;
      (split; [repeat split |]); right; right; repeat split; try assumption;
      exists sm; (split; [reflexivity | lra]).
  - split; [repeat split | left; repeat split; cbn; assumption].
Qed.

(** The same for the squat counter. *)
Lemma squat_step_spec (s : Squat.t) (kp : Keypoints) :
  let r := Squat.analyze_pose s kp in
  let s' := fst r in
  (Squat.up_threshold s' = Squat.up_threshold s
   /\ Squat.down_threshold s' = Squat.down_threshold s
   /\ Squat.min_frames_in_state s' = Squat.min_frames_in_state s
   /\ Squat.frame_count s' = (Squat.frame_count s + 1)%Z)
  /\ ((Squat.state s' = Squat.state s
       /\ Squat.count s' = Squat.count s
       /\ Squat.went_down s' = Squat.went_down s
       /\ Squat.last_state_change s' = Squat.last_state_change s)
      \/ (Squat.state s = Squat.up /\ Squat.state s' = Squat.down
          /\ Squat.count s' = Squat.count s
          /\ Squat.went_down s' = true
          /\ Squat.last_state_change s' = (Squat.frame_count s + 1)%Z
          /\ (Squat.min_frames_in_state s
              <= Squat.frame_count s + 1 - Squat.last_state_change s)%Z
          /\ exists a, snd (snd r) = Some a /\ a < Squat.down_threshold s)
      \/ (Squat.state s = Squat.down /\ Squat.state s' = Squat.up
          /\ Squat.count s'
             = (if Squat.went_down s then Squat.count s + 1
                else Squat.count s)%Z
          /\ Squat.went_down s' = false
          /\ Squat.last_state_change s' = (Squat.frame_count s + 1)%Z
          /\ (Squat.min_frames_in_state s
              <= Squat.frame_count s + 1 - Squat.last_state_change s)%Z
          /\ exists a, snd (snd r) = Some a /\ a > Squat.up_threshold s)).
Proof.
  cbv zeta. unfold Squat.analyze_pose.
  destruct kp as [[|j kp]|];
    try solve [split; [repeat split | left; repeat split]].
  destruct (Squat.get_best_leg_angle _) as [[a|] c];
    [| split; [repeat split | left; repeat split]].
  unfold Squat.analyze_angle.
  break_if; [split; [repeat split | left; repeat split] |].
  cbn [Squat.frame_count Squat.last_state_change Squat.min_frames_in_state
       Squat.state Squat.down_threshold Squat.up_threshold Squat.count
       Squat.went_down Squat.angle_history].
  match goal with
  | |- context [Some (if ?b then ?m else a)] =>
      set (sm := if b then m else a); clearbody sm
  end.
  destruct (_ <? _)%Z eqn:Edwell;
    [split; [repeat split | left; repeat split] |].
  apply Z.ltb_ge in Edwell.
  destruct (Squat.state s) eqn:Est.
  - destruct (Rltb sm (Squat.down_threshold s)) eqn:Ea;
      [| split; [repeat split | left; repeat split; cbn; assumption]].
    apply Rltb_iff in Ea. cbn.
    split; [repeat split |]. right; left. repeat split; try assumption.
    exists sm. split; [reflexivity | assumption].
  - unfold Rgtb.
    destruct (Rltb (Squat.up_threshold s) sm) eqn:Ea;
      [| split; [repeat split | left; repeat split; cbn; assumption]].
    apply Rltb_iff in Ea.
    destruct (Squat.went_down s) eqn:Ewd; cbn;
      (split; [repeat split |]); right; right; repeat split; try assumption;
      exists sm; (split; [reflexivity | lra]).
Qed.

Lemma pushup_paired_step (s : PushUp.t) (kp : Keypoints) :
  (PushUp.state s = PushUp.DOWN /\ PushUp.went_down s = true
   \/ PushUp.state s = PushUp.UP /\ PushUp.went_down s = false) ->
  let s' := fst (PushUp.analyze_pose s kp) in
  PushUp.state s' = PushUp.DOWN /\ PushUp.went_down s' = true
  \/ PushUp.state s' = PushUp.UP /\ PushUp.went_down s' = false.
Proof.
  intros H. cbv zeta.
  destruct (pushup_step_spec s kp)
    as (_ & [(Es & _ & Ew & _)
            | [(_ & Es & _ & Ew & _) | (_ & Es & _ & Ew & _)]]).
  - rewrite Es, Ew. exact H.
  - left. split; assumption.
  - right. split; assumption.
Qed.

Lemma squat_paired_step (s : Squat.t) (kp : Keypoints) :
  (Squat.state s = Squat.down /\ Squat.went_down s = true
   \/ Squat.state s = Squat.up /\ Squat.went_down s = false) ->
  let s' := fst (Squat.analyze_pose s kp) in
  Squat.state s' = Squat.down /\ Squat.went_down s' = true
  \/ Squat.state s' = Squat.up /\ Squat.went_down s' = false.
Proof.
  intros H. cbv zeta.
  destruct (squat_step_spec s kp)
    as (_ & [(Es & _ & Ew & _)
            | [(_ & Es & _ & Ew & _) | (_ & Es & _ & Ew & _)]]).
  - rewrite Es, Ew. exact H.
  - left. split; assumption.
  - right. split; assumption.
Qed.

(** X5: one rep per way up.  In every state a push-up or squat counter
    reaches from construction, [went_down] is set exactly while the state is
    DOWN (the push-up state TRANSITION is never entered), so the branch
    "UP detected but no prior DOWN" is never taken: the next call counts a
    rep exactly when it takes the state from DOWN to UP, and then it counts
    one. *)
Theorem one_rep_per_way_up :
  (forall (frames : list Keypoints) (kp : Keypoints),
      let s := final PushUp.analyze_pose PushUp.init frames in
      let s' := fst (PushUp.analyze_pose s kp) in
      (PushUp.went_down s = true <-> PushUp.state s = PushUp.DOWN)
      /\ PushUp.state s <> PushUp.TRANSITION
      /\ (PushUp.state s = PushUp.DOWN /\ PushUp.state s' = PushUp.UP
          <-> PushUp.count s' = (PushUp.count s + 1)%Z)
      /\ (PushUp.count s' = PushUp.count s
          \/ PushUp.count s' = (PushUp.count s + 1)%Z))
  /\ (forall (frames : list Keypoints) (kp : Keypoints),
      let s := final Squat.analyze_pose Squat.init frames in
      let s' := fst (Squat.analyze_pose s kp) in
      (Squat.went_down s = true <-> Squat.state s = Squat.down)
      /\ (Squat.state s = Squat.down /\ Squat.state s' = Squat.up
          <-> Squat.count s' = (Squat.count s + 1)%Z)
      /\ (Squat.count s' = Squat.count s
          \/ Squat.count s' = (Squat.count s + 1)%Z)).
Proof.
  split.
  - intros frames kp s s'.
    assert (Inv : PushUp.state s = PushUp.DOWN /\ PushUp.went_down s = true
                  \/ PushUp.state s = PushUp.UP /\ PushUp.went_down s = false).
    { subst s.
      apply (for_all_calls PushUp.analyze_pose
               (fun s => PushUp.state s = PushUp.DOWN
                         /\ PushUp.went_down s = true
                         \/ PushUp.state s = PushUp.UP
                            /\ PushUp.went_down s = false));
        [intros s0 i; apply pushup_paired_step | right; split; reflexivity]. }
    subst s'.
    destruct (pushup_step_spec s kp)
      as (_ & [(Es & Ec & _) | [(Eu & Es & Ec & _) | (Ed & Es & Ec & _)]]);
      destruct Inv as [[I1 I2] | [I1 I2]];
      rewrite ?I2 in Ec;
      repeat split; intros; try congruence; try lia; try tauto;
      try (destruct H; congruence).
  - intros frames kp s s'.
    assert (Inv : Squat.state s = Squat.down /\ Squat.went_down s = true
                  \/ Squat.state s = Squat.up /\ Squat.went_down s = false).
    { subst s.
      apply (for_all_calls Squat.analyze_pose
               (fun s => Squat.state s = Squat.down
                         /\ Squat.went_down s = true
                         \/ Squat.state s = Squat.up
                            /\ Squat.went_down s = false));
        [intros s0 i; apply squat_paired_step | right; split; reflexivity]. }
    subst s'.
    destruct (squat_step_spec s kp)
      as (_ & [(Es & Ec & _) | [(Eu & Es & Ec & _) | (Ed & Es & Ec & _)]]);
      destruct Inv as [[I1 I2] | [I1 I2]];
      rewrite ?I2 in Ec;
      repeat split; intros; try congruence; try lia; try tauto;
      try (destruct H; congruence).
Qed.

Lemma final_length_pushup (frames : list Keypoints) :
  forall s,
    PushUp.frame_count (final PushUp.analyze_pose s frames)
    = (PushUp.frame_count s + Z.of_nat (List.length frames))%Z.
Proof.
  induction frames as [|f rest IH]; intros s.
  - change (final PushUp.analyze_pose s []) with s. cbn [List.length]. lia.
  - rewrite final_cons, IH, pushup_frame_count.
    change (List.length (f :: rest)) with (S (List.length rest)). lia.
Qed.

Lemma final_length_squat (frames : list Keypoints) :
  forall s,
    Squat.frame_count (final Squat.analyze_pose s frames)
    = (Squat.frame_count s + Z.of_nat (List.length frames))%Z.
Proof.
  induction frames as [|f rest IH]; intros s.
  - change (final Squat.analyze_pose s []) with s. cbn [List.length]. lia.
  - rewrite final_cons, IH, squat_frame_count.
    change (List.length (f :: rest)) with (S (List.length rest)). lia.
Qed.

Lemma pushup_pace_step (s : PushUp.t) (kp : Keypoints) :
  (PushUp.MIN_FRAMES_IN_STATE s = 2%Z
   /\ (PushUp.last_state_change s <= PushUp.frame_count s)%Z
   /\ (PushUp.state s = PushUp.UP /\ PushUp.went_down s = false
       /\ (4 * PushUp.count s <= PushUp.last_state_change s)%Z
       \/ PushUp.state s = PushUp.DOWN /\ PushUp.went_down s = true
          /\ (4 * PushUp.count s + 2 <= PushUp.last_state_change s)%Z)) ->
  let s' := fst (PushUp.analyze_pose s kp) in
  PushUp.MIN_FRAMES_IN_STATE s' = 2%Z
  /\ (PushUp.last_state_change s' <= PushUp.frame_count s')%Z
  /\ (PushUp.state s' = PushUp.UP /\ PushUp.went_down s' = false
      /\ (4 * PushUp.count s' <= PushUp.last_state_change s')%Z
      \/ PushUp.state s' = PushUp.DOWN /\ PushUp.went_down s' = true
         /\ (4 * PushUp.count s' + 2 <= PushUp.last_state_change s')%Z).
Proof.
  intros (Hm & Hl & Hs). cbv zeta.
  destruct (pushup_step_spec s kp)
    as ((_ & _ & _ & Em & Ef)
        & [(Es & Ec & Ew & El)
          | [(Eu & Es & Ec & Ew & El & Ed & _)
            | (Eu & Es & Ec & Ew & El & Ed & _)]]).
  - rewrite Em, Ef, Es, Ec, Ew, El. repeat split; try assumption; lia.
  - rewrite Em, Ef, Es, Ec, Ew, El.
    destruct Hs as [(H1 & H2 & H3) | (H1 & H2 & H3)]; [| congruence].
    split; [assumption |]. split; [lia |]. right. repeat split; lia.
  - rewrite Em, Ef, Es, Ec, Ew, El.
    destruct Hs as [(H1 & H2 & H3) | (H1 & H2 & H3)]; [congruence |].
    rewrite H2.
    split; [assumption |]. split; [lia |]. left. repeat split; lia.
Qed.

Lemma squat_pace_step (s : Squat.t) (kp : Keypoints) :
  (Squat.min_frames_in_state s = 2%Z
   /\ (Squat.last_state_change s <= Squat.frame_count s)%Z
   /\ (Squat.state s = Squat.up /\ Squat.went_down s = false
       /\ (4 * Squat.count s <= Squat.last_state_change s)%Z
       \/ Squat.state s = Squat.down /\ Squat.went_down s = true
          /\ (4 * Squat.count s + 2 <= Squat.last_state_change s)%Z)) ->
  let s' := fst (Squat.analyze_pose s kp) in
  Squat.min_frames_in_state s' = 2%Z
  /\ (Squat.last_state_change s' <= Squat.frame_count s')%Z
  /\ (Squat.state s' = Squat.up /\ Squat.went_down s' = false
      /\ (4 * Squat.count s' <= Squat.last_state_change s')%Z
      \/ Squat.state s' = Squat.down /\ Squat.went_down s' = true
         /\ (4 * Squat.count s' + 2 <= Squat.last_state_change s')%Z).
Proof.
  intros (Hm & Hl & Hs). cbv zeta.
  destruct (squat_step_spec s kp)
    as ((_ & _ & Em & Ef)
        & [(Es & Ec & Ew & El)
          | [(Eu & Es & Ec & Ew & El & Ed & _)
            | (Eu & Es & Ec & Ew & El & Ed & _)]]).
  - rewrite Em, Ef, Es, Ec, Ew, El. repeat split; try assumption; lia.
  - rewrite Em, Ef, Es, Ec, Ew, El.
    destruct Hs as [(H1 & H2 & H3) | (H1 & H2 & H3)]; [| congruence].
    split; [assumption |]. split; [lia |]. right. repeat split; lia.
  - rewrite Em, Ef, Es, Ec, Ew, El.
    destruct Hs as [(H1 & H2 & H3) | (H1 & H2 & H3)]; [congruence |].
    rewrite H2.
    split; [assumption |]. split; [lia |]. left. repeat split; lia.
Qed.

(** X6: the dwell of two frames paces the count.  A push-up or squat
    counter fed [n] frames after construction has [frame_count = n], never
    has [last_state_change] ahead of [frame_count], and has counted at most
    [n / 4] reps: each rep needs two frames down and two frames up. *)
Theorem dwell_paces_the_count :
  (forall frames : list Keypoints,
      let s := final PushUp.analyze_pose PushUp.init frames in
      PushUp.frame_count s = Z.of_nat (List.length frames)
      /\ (PushUp.last_state_change s <= PushUp.frame_count s)%Z
      /\ (4 * PushUp.count s <= Z.of_nat (List.length frames))%Z)
  /\ (forall frames : list Keypoints,
      let s := final Squat.analyze_pose Squat.init frames in
      Squat.frame_count s = Z.of_nat (List.length frames)
      /\ (Squat.last_state_change s <= Squat.frame_count s)%Z
      /\ (4 * Squat.count s <= Z.of_nat (List.length frames))%Z).
Proof.
  split; intros frames s.
  - assert (F : PushUp.frame_count s = Z.of_nat (List.length frames))
      by (subst s; rewrite final_length_pushup; reflexivity).
    assert (Inv :
      PushUp.MIN_FRAMES_IN_STATE s = 2%Z
      /\ (PushUp.last_state_change s <= PushUp.frame_count s)%Z
      /\ (PushUp.state s = PushUp.UP /\ PushUp.went_down s = false
          /\ (4 * PushUp.count s <= PushUp.last_state_change s)%Z
          \/ PushUp.state s = PushUp.DOWN /\ PushUp.went_down s = true
             /\ (4 * PushUp.count s + 2 <= PushUp.last_state_change s)%Z)).
    { subst s.
      apply (for_all_calls PushUp.analyze_pose (fun s =>
        PushUp.MIN_FRAMES_IN_STATE s = 2%Z
        /\ (PushUp.last_state_change s <= PushUp.frame_count s)%Z
        /\ (PushUp.state s = PushUp.UP /\ PushUp.went_down s = false
            /\ (4 * PushUp.count s <= PushUp.last_state_change s)%Z
            \/ PushUp.state s = PushUp.DOWN /\ PushUp.went_down s = true
               /\ (4 * PushUp.count s + 2 <= PushUp.last_state_change s)%Z)));
        [intros s0 i; apply pushup_pace_step |].
      cbn. split; [reflexivity |]. split; [lia |]. left. repeat split; lia. }
    destruct Inv as (_ & Hl & [(_ & _ & H) | (_ & _ & H)]);
      repeat split; try assumption; lia.
  - assert (F : Squat.frame_count s = Z.of_nat (List.length frames))
      by (subst s; rewrite final_length_squat; reflexivity).
    assert (Inv :
      Squat.min_frames_in_state s = 2%Z
      /\ (Squat.last_state_change s <= Squat.frame_count s)%Z
      /\ (Squat.state s = Squat.up /\ Squat.went_down s = false
          /\ (4 * Squat.count s <= Squat.last_state_change s)%Z
          \/ Squat.state s = Squat.down /\ Squat.went_down s = true
             /\ (4 * Squat.count s + 2 <= Squat.last_state_change s)%Z)).
    { subst s.
      apply (for_all_calls Squat.analyze_pose (fun s =>
        Squat.min_frames_in_state s = 2%Z
        /\ (Squat.last_state_change s <= Squat.frame_count s)%Z
        /\ (Squat.state s = Squat.up /\ Squat.went_down s = false
            /\ (4 * Squat.count s <= Squat.last_state_change s)%Z
            \/ Squat.state s = Squat.down /\ Squat.went_down s = true
               /\ (4 * Squat.count s + 2 <= Squat.last_state_change s)%Z)));
        [intros s0 i; apply squat_pace_step |].
      cbn. split; [reflexivity |]. split; [lia |]. left. repeat split; lia. }
    destruct Inv as (_ & Hl & [(_ & _ & H) | (_ & _ & H)]);
      repeat split; try assumption; lia.
Qed.

(** X7: hysteresis and dwell.  A push-up or squat frame changes neither
    state nor count, [went_down] nor [last_state_change] when it comes
    before the dwell is over ([frame_count + 1 - last_state_change] below
    the minimum), and when the smoothed angle it returns lies between the
    down and the up threshold, both included. *)
Theorem dead_band_and_dwell_hold_the_state :
  (forall (s : PushUp.t) (kp : Keypoints),
      let r := PushUp.analyze_pose s kp in
      let unchanged :=
        PushUp.state (fst r) = PushUp.state s
        /\ PushUp.count (fst r) = PushUp.count s
        /\ PushUp.went_down (fst r) = PushUp.went_down s
        /\ PushUp.last_state_change (fst r) = PushUp.last_state_change s in
      ((PushUp.frame_count s + 1 - PushUp.last_state_change s
        < PushUp.MIN_FRAMES_IN_STATE s)%Z -> unchanged)
      /\ (forall a, snd (snd r) = Some a ->
          PushUp.DOWN_ANGLE_THRESHOLD s <= a <= PushUp.UP_ANGLE_THRESHOLD s ->
          unchanged))
  /\ (forall (s : Squat.t) (kp : Keypoints),
      let r := Squat.analyze_pose s kp in
      let unchanged :=
        Squat.state (fst r) = Squat.state s
        /\ Squat.count (fst r) = Squat.count s
        /\ Squat.went_down (fst r) = Squat.went_down s
        /\ Squat.last_state_change (fst r) = Squat.last_state_change s in
      ((Squat.frame_count s + 1 - Squat.last_state_change s
        < Squat.min_frames_in_state s)%Z -> unchanged)
      /\ (forall a, snd (snd r) = Some a ->
          Squat.down_threshold s <= a <= Squat.up_threshold s ->
          unchanged)).
Proof.
  split; intros s kp; cbv zeta.
  - destruct (pushup_step_spec s kp)
      as (_ & [H | [(_ & _ & _ & _ & _ & Ed & a' & Ea & Hlt)
                   | (_ & _ & _ & _ & _ & Ed & a' & Ea & Hlt)]]).
    + split; intros; exact H.
    + split; [intros; lia |]. intros a Ha Hr. rewrite Ea in Ha.
      injection Ha as <-. lra.
    + split; [intros; lia |]. intros a Ha Hr. rewrite Ea in Ha.
      injection Ha as <-. lra.
  - destruct (squat_step_spec s kp)
      as (_ & [H | [(_ & _ & _ & _ & _ & Ed & a' & Ea & Hlt)
                   | (_ & _ & _ & _ & _ & Ed & a' & Ea & Hlt)]]).
    + split; intros; exact H.
    + split; [intros; lia |]. intros a Ha Hr. rewrite Ea in Ha.
      injection Ha as <-. lra.
    + split; [intros; lia |]. intros a Ha Hr. rewrite Ea in Ha.
      injection Ha as <-. lra.
Qed.

(** ** The smoothed angle *)

Lemma Rsum_bounds (lo hi : R) (l : list R) :
  Forall (fun a => lo <= a <= hi) l ->
  INR (List.length l) * lo <= Rsum l <= INR (List.length l) * hi.
Proof.
  induction 1 as [|a l Ha Hl IH].
  - simpl. lra.
  - change (Rsum (a :: l)) with (a + Rsum l).
    change (List.length (a :: l)) with (S (List.length l)).
    rewrite S_INR. lra.
Qed.

Lemma mean_in_range (lo hi : R) (l : list R) :
  l <> [] -> Forall (fun a => lo <= a <= hi) l -> lo <= mean l <= hi.
Proof.
  intros Hne Hl. pose proof (Rsum_bounds lo hi l Hl) as [H1 H2].
  assert (Hn : 0 < INR (List.length l)).
  { apply lt_0_INR. destruct l; [contradiction | simpl; lia]. }
  unfold mean. split.
  - apply Rmult_le_reg_r with (INR (List.length l)); [exact Hn |].
    unfold Rdiv. rewrite Rmult_assoc, Rinv_l by lra. lra.
  - apply Rmult_le_reg_r with (INR (List.length l)); [exact Hn |].
    unfold Rdiv. rewrite Rmult_assoc, Rinv_l by lra. lra.
Qed.

Lemma Forall_skipn_keeps {A : Type} (P : A -> Prop) (n : nat) (l : list A) :
  Forall P l -> Forall P (skipn n l).
Proof.
  revert l. induction n as [|n IH]; intros l H; [exact H |].
  destruct H as [|a l Ha Hl]; [constructor |]. simpl. apply IH, Hl.
Qed.

Lemma Forall_deque_append {A : Type} (P : A -> Prop) (n : nat) (l : list A)
    (x : A) :
  Forall P l -> P x -> Forall P (deque_append n l x).
Proof.
  intros Hl Hx. unfold deque_append.
  assert (H : Forall P (l ++ [x])) by (apply Forall_app; split; [| constructor]; auto).
  break_if; [exact H |].
  destruct (l ++ [x]); [constructor |]. inversion H; assumption.
Qed.

Lemma lastn_nonempty {A : Type} (n : nat) (l : list A) :
  (0 < n)%nat -> l <> [] -> lastn n l <> [].
Proof.
  intros Hn Hl E. apply (f_equal (@List.length A)) in E.
  unfold lastn in E. rewrite length_skipn in E.
  destruct l as [|y l]; [contradiction |].
  change (List.length (@nil A)) with 0%nat in E.
  change (List.length (y :: l)) with (S (List.length l)) in E. lia.
Qed.

Lemma deque_append_nonempty {A : Type} (n : nat) (l : list A) (x : A) :
  (2 <= List.length (deque_append n l x))%nat -> deque_append n l x <> [].
Proof. destruct (deque_append n l x); simpl; [lia | discriminate]. Qed.

Lemma pushup_best_in_range (s : PushUp.t) (kp : list Joint) (a : R) :
  fst (PushUp.get_best_arm_angle s kp) = Some a -> 0 <= a <= 180.
Proof.
  unfold PushUp.get_best_arm_angle, PushUp.calculate_angle.
  repeat (break_match; try discriminate); cbn [fst]; intros H;
    injection H as <-;
    repeat match goal with
      | E : (if _ then _ else _) = Some _ |- _ =>
          revert E; break_if; [| discriminate]; intros E
      | E : Geometry.angle _ _ _ = Some _ |- _ => apply angle_in_range in E
      end; lra.
Qed.

Lemma squat_best_in_range (kp : list Joint) (a : R) :
  fst (Squat.get_best_leg_angle kp) = Some a -> 0 <= a <= 180.
Proof.
  unfold Squat.get_best_leg_angle, Squat.calculate_angle.
  repeat (break_match; try discriminate); cbn [fst]; intros H;
    try discriminate;
    try (injection H as <-);
    repeat match goal with
      | E : Geometry.angle _ _ _ = Some _ |- _ => apply angle_in_range in E
      end;
    try lra;
    match goal with
    | E : Geometry.angle _ _ _ = _ |- _ =>
        rewrite H in E; apply angle_in_range in E; lra
    end.
Qed.

Lemma armcurl_best_in_range (kp : list Joint) (a : R) :
  fst (fst (ArmCurl.get_best_arm_angle kp)) = Some a -> 0 <= a <= 180.
Proof.
  unfold ArmCurl.get_best_arm_angle. rewrite ?armcurl_calculate_angle_eq.
  repeat (break_match; try discriminate); cbn [fst]; intros H;
    try discriminate; injection H as <-;
    repeat match goal with
      | E : ArmCurl.calculate_angle _ _ _ = Some _ |- _ =>
          rewrite armcurl_calculate_angle_eq in E
      | E : Geometry.angle _ _ _ = Some _ |- _ => apply angle_in_range in E
      end; lra.
Qed.

Lemma every_output {S I O : Type} (step : S -> I -> S * O) (P : S -> Prop)
    (Q : O -> Prop) :
  (forall s i, P s -> P (fst (step s i)) /\ Q (snd (step s i))) ->
  forall inputs s, P s -> Forall Q (outputs step s inputs).
Proof.
  intros Hstep. unfold outputs.
  induction inputs as [|i rest IH]; intros s Hs; simpl; constructor.
  - apply Hstep, Hs.
  - apply IH, Hstep, Hs.
Qed.

Lemma smoothed_in_range (h : list R) (a : R) :
  Forall (fun x => 0 <= x <= 180) h -> 0 <= a <= 180 ->
  0 <= (if (2 <=? List.length h)%nat then mean (lastn 2 h) else a) <= 180.
Proof.
  intros Hh Ha. destruct (2 <=? List.length h)%nat eqn:E; [| exact Ha].
  apply Nat.leb_le in E. apply mean_in_range.
  - apply lastn_nonempty; [lia |]. destruct h; [simpl in E; lia | discriminate].
  - apply Forall_skipn_keeps, Hh.
Qed.

Lemma pushup_range_step (s : PushUp.t) (kp : Keypoints) :
  Forall (fun x => 0 <= x <= 180) (PushUp.angle_history s) ->
  Forall (fun x => 0 <= x <= 180)
    (PushUp.angle_history (fst (PushUp.analyze_pose s kp)))
  /\ (forall a, snd (snd (PushUp.analyze_pose s kp)) = Some a -> 0 <= a <= 180).
Proof.
  intros H. unfold PushUp.analyze_pose.
  destruct kp as [[|j kp]|]; try (split; [exact H | discriminate]).
  destruct (PushUp.get_best_arm_angle _ _) as [[a|] c] eqn:Eb;
    [| split; [exact H | discriminate]].
  assert (Ha : 0 <= a <= 180)
    by (eapply pushup_best_in_range; rewrite Eb; reflexivity).
  unfold PushUp.analyze_angle, PushUp.smooth_angle.
  break_if; [split; [exact H | discriminate] |].
  pose proof (Forall_deque_append _ 3 _ a H Ha) as Hh.
  pose proof (smoothed_in_range _ a Hh Ha) as Hs.
  cbn [PushUp.angle_history PushUp.set_frame_count] in *.
  break_if; cbn [fst snd]; rewrite pushup_update_history;
    (split; [exact Hh |]); intros x Hx; injection Hx as <-; exact Hs.
Qed.

Lemma squat_range_step (s : Squat.t) (kp : Keypoints) :
  Forall (fun x => 0 <= x <= 180) (Squat.angle_history s) ->
  Forall (fun x => 0 <= x <= 180)
    (Squat.angle_history (fst (Squat.analyze_pose s kp)))
  /\ (forall a, snd (snd (Squat.analyze_pose s kp)) = Some a -> 0 <= a <= 180).
Proof.
  intros H. unfold Squat.analyze_pose.
  destruct kp as [[|j kp]|]; try (split; [exact H | discriminate]).
  destruct (Squat.get_best_leg_angle _) as [[a|] c] eqn:Eb;
    [| split; [exact H | discriminate]].
  assert (Ha : 0 <= a <= 180)
    by (apply (squat_best_in_range (j :: kp)); rewrite Eb; reflexivity).
  unfold Squat.analyze_angle.
  break_if; [split; [exact H | discriminate] |].
  cbn [Squat.angle_history] in *.
  pose proof (Forall_deque_append _ 3 _ a H Ha) as Hh.
  pose proof (smoothed_in_range _ a Hh Ha) as Hs.
  repeat (first [break_match | break_if]; cbn [fst snd Squat.angle_history]);
    (split; [exact Hh |]); intros x Hx; injection Hx as <-; exact Hs.
Qed.

Lemma armcurl_range_step (s : ArmCurl.t) (kp : Keypoints) :
  Forall (fun x => 0 <= x <= 180) (ArmCurl.angle_history s) ->
  Forall (fun x => 0 <= x <= 180)
    (ArmCurl.angle_history (fst (ArmCurl.analyze_pose s kp)))
  /\ (forall a, snd (snd (ArmCurl.analyze_pose s kp)) = Some a -> 0 <= a <= 180).
Proof.
  intros H. unfold ArmCurl.analyze_pose.
  destruct kp as [[|j kp]|]; try (split; [exact H | discriminate]).
  destruct (ArmCurl.get_best_arm_angle _) as [[[a|] c] side] eqn:Eb;
    [| split; [exact H | discriminate]].
  assert (Ha : 0 <= a <= 180)
    by (apply (armcurl_best_in_range (j :: kp)); rewrite Eb; reflexivity).
  unfold ArmCurl.analyze_angle.
  break_if; [split; [exact H | discriminate] |].
  pose proof (Forall_deque_append _ ArmCurl.maxlen _ a H Ha) as Hh.
  destruct (List.length _ =? ArmCurl.maxlen)%nat eqn:El.
  - apply Nat.eqb_eq in El.
    assert (Hm : 0 <= mean (deque_append ArmCurl.maxlen
                             (ArmCurl.angle_history s) a) <= 180).
    { apply mean_in_range; [| exact Hh].
      intros E. rewrite E in El. discriminate El. }
    repeat (first [break_match | break_if];
            cbn [fst snd ArmCurl.angle_history]);
      (split; [exact Hh |]); intros x Hx; injection Hx as <-; exact Hm.
  - cbn [fst snd ArmCurl.angle_history].
    split; [exact Hh |]. intros x Hx. injection Hx as <-. exact Ha.
Qed.

(** X8: every angle an angle counter returns is a number of degrees in
    [0, 180].  Whatever frames a push-up, squat or arm-curl counter is fed
    after construction, each call returns [None] or an angle between 0 and
    180: the working angle and every sample in the window are in that
    range, and so are the means taken of them. *)
Theorem returned_angles_are_degrees :
  (forall frames : list Keypoints,
      Forall (fun out => forall a, snd out = Some a -> 0 <= a <= 180)
        (outputs PushUp.analyze_pose PushUp.init frames))
  /\ (forall frames : list Keypoints,
      Forall (fun out => forall a, snd out = Some a -> 0 <= a <= 180)
        (outputs Squat.analyze_pose Squat.init frames))
  /\ (forall frames : list Keypoints,
      Forall (fun out => forall a, snd out = Some a -> 0 <= a <= 180)
        (outputs ArmCurl.analyze_pose ArmCurl.init frames)).
Proof.
  split; [| split]; intros frames.
  - apply (every_output PushUp.analyze_pose
             (fun s => Forall (fun x => 0 <= x <= 180) (PushUp.angle_history s)));
      [intros s i; apply pushup_range_step | constructor].
  - apply (every_output Squat.analyze_pose
             (fun s => Forall (fun x => 0 <= x <= 180) (Squat.angle_history s)));
      [intros s i; apply squat_range_step | constructor].
  - apply (every_output ArmCurl.analyze_pose
             (fun s => Forall (fun x => 0 <= x <= 180) (ArmCurl.angle_history s)));
      [intros s i; apply armcurl_range_step | constructor].
Qed.

(** ** The arm-curl state machine *)

(** One [analyze_pose] call of the arm-curl counter: nothing changes, or a
    sample enters the window and, the window being full, the state machine
    rests, curls up, or extends and counts. *)
Lemma armcurl_step_spec (s : ArmCurl.t) (kp : Keypoints) :
  let s' := fst (ArmCurl.analyze_pose s kp) in
  s' = s
  \/ (ArmCurl.up_threshold s' = ArmCurl.up_threshold s
      /\ ArmCurl.down_threshold s' = ArmCurl.down_threshold s
      /\ ArmCurl.frame_count s' = ArmCurl.frame_count s
      /\ (exists a, ArmCurl.angle_history s'
                    = deque_append ArmCurl.maxlen (ArmCurl.angle_history s) a)
      /\ ((ArmCurl.state s' = ArmCurl.state s
           /\ ArmCurl.count s' = ArmCurl.count s)
          \/ (List.length (ArmCurl.angle_history s') = 5%nat
              /\ ArmCurl.state s = ArmCurl.down /\ ArmCurl.state s' = ArmCurl.up
              /\ ArmCurl.count s' = ArmCurl.count s)
          \/ (List.length (ArmCurl.angle_history s') = 5%nat
              /\ ArmCurl.state s = ArmCurl.up /\ ArmCurl.state s' = ArmCurl.down
              /\ ArmCurl.count s' = (ArmCurl.count s + 1)%Z))).
Proof.
  cbv zeta. unfold ArmCurl.analyze_pose.
  destruct kp as [[|j kp]|]; try (left; reflexivity).
  destruct (ArmCurl.get_best_arm_angle _) as [[[a|] c] side];
    [| left; reflexivity].
  unfold ArmCurl.analyze_angle.
  break_if; [left; reflexivity |].
  right.
  destruct (List.length _ =? ArmCurl.maxlen)%nat eqn:El.
  - apply Nat.eqb_eq in El. unfold ArmCurl.maxlen in El at 2.
    destruct (ArmCurl.state s) eqn:Est; break_if;
      cbn [fst ArmCurl.up_threshold ArmCurl.down_threshold ArmCurl.frame_count
           ArmCurl.angle_history ArmCurl.state ArmCurl.count];
      repeat split; try (eexists; reflexivity);
      first [ left; split; [assumption || reflexivity | reflexivity]
            | right; left; repeat split; assumption
            | right; right; repeat split; assumption ].
  - cbn [fst ArmCurl.up_threshold ArmCurl.down_threshold ArmCurl.frame_count
         ArmCurl.angle_history ArmCurl.state ArmCurl.count].
    repeat split; try (eexists; reflexivity). left. split; reflexivity.
Qed.

Lemma armcurl_pace_step (s : ArmCurl.t) (kp : Keypoints) (n : Z) :
  (Z.of_nat (List.length (ArmCurl.angle_history s)) <= n)%Z
  /\ (2 * ArmCurl.count s
      + (match ArmCurl.state s with ArmCurl.up => 1 | ArmCurl.down => 0 end)
      <= Z.max 0 (n - 4))%Z ->
  let s' := fst (ArmCurl.analyze_pose s kp) in
  (Z.of_nat (List.length (ArmCurl.angle_history s')) <= n + 1)%Z
  /\ (2 * ArmCurl.count s'
      + (match ArmCurl.state s' with ArmCurl.up => 1 | ArmCurl.down => 0 end)
      <= Z.max 0 (n + 1 - 4))%Z.
Proof.
  intros (Hl & Hb). cbv zeta.
  destruct (armcurl_step_spec s kp)
    as [-> | (_ & _ & _ & (a & Eh) & H)]; [split; lia |].
  pose proof (deque_append_length ArmCurl.maxlen (ArmCurl.angle_history s) a)
    as Hlen.
  rewrite <- Eh in Hlen.
  destruct H as [(Es & Ec) | [(E5 & E1 & E2 & Ec) | (E5 & E1 & E2 & Ec)]].
  - rewrite Es, Ec. split; lia.
  - rewrite E1 in Hb. rewrite E2, Ec. split; lia.
  - rewrite E1 in Hb. rewrite E2, Ec. split; lia.
Qed.

Lemma armcurl_pace (frames : list Keypoints) :
  forall (s : ArmCurl.t) (n : Z),
    (Z.of_nat (List.length (ArmCurl.angle_history s)) <= n)%Z
    /\ (2 * ArmCurl.count s
        + (match ArmCurl.state s with ArmCurl.up => 1 | ArmCurl.down => 0 end)
        <= Z.max 0 (n - 4))%Z ->
    (2 * ArmCurl.count (final ArmCurl.analyze_pose s frames)
     <= Z.max 0 (n + Z.of_nat (List.length frames) - 4))%Z.
Proof.
  induction frames as [|f rest IH]; intros s n H.
  - change (final ArmCurl.analyze_pose s []) with s.
    change (List.length (@nil Keypoints)) with 0%nat.
    destruct H as (_ & H). destruct (ArmCurl.state s); lia.
  - rewrite final_cons.
    change (List.length (f :: rest)) with (S (List.length rest)).
    replace (n + Z.of_nat (S (List.length rest)))%Z
      with (n + 1 + Z.of_nat (List.length rest))%Z by lia.
    apply IH. apply armcurl_pace_step. exact H.
Qed.

(** X9: the arm-curl counter counts a rep exactly on the calls that take
    the state from up to down, one at a time, and a counter fed [n] frames
    after construction has counted at most [(n - 4) / 2] reps: four frames
    fill the window before the fifth can act, and each rep needs one frame
    to curl and one to extend. *)
Theorem armcurl_counts_on_extension_at_most_every_other_frame :
  (forall (s : ArmCurl.t) (kp : Keypoints),
      let s' := fst (ArmCurl.analyze_pose s kp) in
      (ArmCurl.count s' = (ArmCurl.count s + 1)%Z
       <-> ArmCurl.state s = ArmCurl.up /\ ArmCurl.state s' = ArmCurl.down)
      /\ (ArmCurl.count s' = ArmCurl.count s
          \/ ArmCurl.count s' = (ArmCurl.count s + 1)%Z))
  /\ (forall frames : list Keypoints,
      (2 * ArmCurl.count (final ArmCurl.analyze_pose ArmCurl.init frames)
       <= Z.max 0 (Z.of_nat (List.length frames) - 4))%Z).
Proof.
  split.
  - intros s kp. cbv zeta.
    destruct (armcurl_step_spec s kp)
      as [-> | (_ & _ & _ & _ &
                [(Es & Ec) | [(_ & E1 & E2 & Ec) | (_ & E1 & E2 & Ec)]])].
    + split; [split; [lia | intros [H1 H2]; congruence] | left; reflexivity].
    + rewrite Es, Ec.
      split; [split; [lia | intros [H1 H2]; congruence] | left; reflexivity].
    + rewrite E1, E2, Ec.
      split; [split; [lia | intros [H1 H2]; congruence] | left; reflexivity].
    + rewrite E1, E2, Ec.
      split; [split; [intros; split; reflexivity | reflexivity]
             | right; reflexivity].
  - intros frames.
    pose proof (armcurl_pace frames ArmCurl.init 0) as H.
    replace (0 + Z.of_nat (List.length frames))%Z
      with (Z.of_nat (List.length frames)) in H by lia.
    apply H. cbn. lia.
Qed.

(** ** The pull-up change log *)

Lemma Direction_eqb_neq (x y : PullUp.Direction) :
  PullUp.Direction_eqb x y = false <-> x <> y.
Proof. destruct x, y; simpl; split; intros; congruence. Qed.

(** What [detect_direction_change] does to the direction and to the log. *)
Lemma detect_log_spec (cfg : Config) (now : R) (s : PullUp.t) (d : R) :
  let h := deque_append 30 (PullUp.position_history s) d in
  let r := PullUp.detect_direction_change cfg now s d in
  let s1 := fst r in
  PullUp.position_history s1 = h
  /\ (((List.length h < 5)%nat
       /\ PullUp.direction_history s1 = PullUp.direction_history s
       /\ PullUp.current_direction s1 = PullUp.current_direction s
       /\ fst (snd r) = PullUp.starting)
      \/ ((5 <= List.length h)%nat
          /\ fst (snd r) = PullUp.current_direction s1
          /\ (PullUp.current_direction s1 = PullUp.up
              \/ PullUp.current_direction s1 = PullUp.down
              \/ PullUp.current_direction s1 = PullUp.stable
              \/ PullUp.current_direction s1 = PullUp.current_direction s)
          /\ ((PullUp.current_direction s1 = PullUp.current_direction s
               /\ PullUp.direction_history s1 = PullUp.direction_history s)
              \/ (PullUp.current_direction s1 <> PullUp.current_direction s
                  /\ PullUp.direction_history s1
                     = deque_append 10 (PullUp.direction_history s)
                         (PullUp.current_direction s1, now, d))))).
Proof.
  cbv zeta. unfold PullUp.detect_direction_change.
  destruct (List.length _ <? 5)%nat eqn:El.
  - apply Nat.ltb_lt in El. cbn [fst snd PullUp.position_history
      PullUp.direction_history PullUp.current_direction].
    split; [reflexivity |]. left. repeat split. exact El.
  - apply Nat.ltb_ge in El.
    match goal with
    | |- context [let '(ups, downs) := ?p in _] => destruct p as [ups downs]
    end.
    match goal with
    | |- context [negb (PullUp.Direction_eqb ?c _)] =>
        set (confirmed := c);
        assert (Hc : confirmed = PullUp.up \/ confirmed = PullUp.down
                     \/ confirmed = PullUp.stable
                     \/ confirmed = PullUp.current_direction s)
          by (unfold confirmed; repeat break_if; tauto);
        clearbody confirmed
    end.
    destruct (PullUp.Direction_eqb confirmed (PullUp.current_direction s))
      eqn:Eq; cbn [negb fst snd PullUp.position_history
                   PullUp.direction_history PullUp.current_direction].
    + apply Direction_eqb_eq in Eq. subst confirmed.
      split; [reflexivity |]. right. repeat split; try assumption.
      left. split; reflexivity.
    + apply Direction_eqb_neq in Eq.
      split; [reflexivity |]. right. repeat split; try assumption.
      right. split; [assumption | reflexivity].
Qed.

Lemma alternating_tl (log : list PullUp.Change) :
  alternating log -> alternating (tl log).
Proof. destruct log as [|e rest]; [trivial |]. intros [_ H]. exact H. Qed.

Lemma alternating_snoc (log : list PullUp.Change) (x : PullUp.Change) :
  alternating log ->
  (forall pre e, log = pre ++ [e] -> change_direction e <> change_direction x) ->
  alternating (log ++ [x]).
Proof.
  induction log as [|e1 rest IH]; intros Ha Hlast.
  - simpl. tauto.
  - destruct rest as [|e2 rest'].
    + simpl. split; [| tauto]. apply (Hlast [] e1). reflexivity.
    + destruct Ha as [Hne Hrest].
      change ((e1 :: e2 :: rest') ++ [x]) with (e1 :: ((e2 :: rest') ++ [x])).
      split; [exact Hne |].
      apply IH; [exact Hrest |].
      intros pre e E. apply (Hlast (e1 :: pre) e). rewrite E. reflexivity.
Qed.

Lemma deque_append_last_entry {A : Type} (n : nat) (l pre : list A) (x e : A) :
  deque_append n l x = pre ++ [e] -> e = x.
Proof.
  unfold deque_append. break_if; intros E.
  - apply app_inj_tail in E. symmetry. apply E.
  - destruct l as [|y l']; [destruct pre; discriminate E |].
    cbn [app tl] in E. apply app_inj_tail in E. symmetry. apply E.
Qed.

Lemma deque_append_at_least {A : Type} (n : nat) (l : list A) (x : A) :
  (List.length l <= List.length (deque_append n l x))%nat.
Proof.
  unfold deque_append. break_if.
  - rewrite length_app. simpl. lia.
  - destruct l as [|y l']; [simpl; lia |].
    cbn [app tl]. rewrite length_app. simpl. lia.
Qed.

Lemma pullup_log_detect (cfg : Config) (now : R) (s : PullUp.t) (d : R) :
  (alternating (PullUp.direction_history s)
   /\ (forall pre e, PullUp.direction_history s = pre ++ [e] ->
       change_direction e = PullUp.current_direction s)
   /\ PullUp.current_direction s <> PullUp.starting
   /\ (PullUp.direction_history s = []
       \/ (5 <= List.length (PullUp.position_history s))%nat)) ->
  let s1 := fst (PullUp.detect_direction_change cfg now s d) in
  alternating (PullUp.direction_history s1)
  /\ (forall pre e, PullUp.direction_history s1 = pre ++ [e] ->
      change_direction e = PullUp.current_direction s1)
  /\ PullUp.current_direction s1 <> PullUp.starting
  /\ (PullUp.direction_history s1 = []
      \/ (5 <= List.length (PullUp.position_history s1))%nat).
Proof.
  intros (Ha & Hl & Hs & Hw). cbv zeta.
  destruct (detect_log_spec cfg now s d) as (Eh & H). cbv zeta in Eh, H.
  pose proof (deque_append_at_least 30 (PullUp.position_history s) d) as Hgrow.
  destruct H as [(Hlt & Elog & Ecur & _) | (Hge & _ & Hdir & Hchg)].
  - rewrite Elog, Ecur, Eh. repeat split; try assumption.
    destruct Hw as [Hw | Hw]; [left; exact Hw | right; lia].
  - rewrite Eh.
    assert (Hns : PullUp.current_direction
                    (fst (PullUp.detect_direction_change cfg now s d))
                  <> PullUp.starting)
      by (destruct Hdir as [E | [E | [E | E]]]; rewrite E;
          solve [discriminate | exact Hs]).
    destruct Hchg as [(Ecur & Elog) | (Ene & Elog)].
    + rewrite Elog, Ecur in *. repeat split; try assumption. right. exact Hge.
    + rewrite Elog. split; [| split; [| split]].
      * unfold deque_append. break_if.
        -- apply alternating_snoc; [exact Ha |].
           intros pre e E. rewrite (Hl pre e E). cbn. congruence.
        -- apply alternating_tl, alternating_snoc; [exact Ha |].
           intros pre e E. rewrite (Hl pre e E). cbn. congruence.
      * intros pre e E. apply deque_append_last_entry in E. subst e.
        reflexivity.
      * exact Hns.
      * right. exact Hge.
Qed.

(** What [analyze_pose] adds to the direction detection on a frame it
    analyses: the rep test, by [pullup_step_cases], and the label. *)
Lemma pullup_step_label (cfg : Config) (clk : Clock) (s : PullUp.t)
    (kp : Keypoints) :
  PullUp.analyze_pose cfg clk s kp = (s, (PullUp.count s, "no_person"%string))
  \/ PullUp.analyze_pose cfg clk s kp = (s, (PullUp.count s, "error"%string))
  \/ PullUp.analyze_pose cfg clk s kp
     = (s, (PullUp.count s, "low_confidence"%string))
  \/ exists kpl ls rs lw rw,
       kp = Some kpl
       /\ nth_error kpl PullUp.L_SHOULDER = Some ls
       /\ nth_error kpl PullUp.R_SHOULDER = Some rs
       /\ nth_error kpl PullUp.L_WRIST = Some lw
       /\ nth_error kpl PullUp.R_WRIST = Some rw
       /\ let r1 := PullUp.detect_direction_change cfg (log_time clk) s
                      ((jy lw + jy rw) / 2 - (jy ls + jy rs) / 2) in
          let r := PullUp.analyze_pose cfg clk s kp in
          PullUp.current_direction (fst r) = PullUp.current_direction (fst r1)
          /\ PullUp.position_history (fst r) = PullUp.position_history (fst r1)
          /\ PullUp.position (fst r) = PullUp.position_of (fst (snd r1))
          /\ snd (snd r) = PullUp.position_of (fst (snd r1)).
Proof.
  unfold PullUp.analyze_pose.
  destruct kp as [[|j kp]|]; [left; reflexivity | | left; reflexivity].
  destruct (nth_error (j :: kp) PullUp.L_SHOULDER) as [ls|] eqn:E1;
    [| right; left; reflexivity].
  destruct (nth_error (j :: kp) PullUp.R_SHOULDER) as [rs|] eqn:E2;
    [| right; left; reflexivity].
  destruct (nth_error (j :: kp) PullUp.L_WRIST) as [lw|] eqn:E3;
    [| right; left; reflexivity].
  destruct (nth_error (j :: kp) PullUp.R_WRIST) as [rw|] eqn:E4;
    [| right; left; reflexivity].
  break_if; [right; right; left; reflexivity |].
  right; right; right.
  exists (j :: kp), ls, rs, lw, rw. repeat split; try assumption;
    destruct (PullUp.detect_direction_change cfg (log_time clk) s _)
      as [s1 [direction magnitude]];
    destruct (PullUp.rep_detected cfg (current_time clk) s1); reflexivity.
Qed.

Lemma pullup_log_step (cfg : Config) (s : PullUp.t) (f : Clock * Keypoints) :
  (alternating (PullUp.direction_history s)
   /\ (forall pre e, PullUp.direction_history s = pre ++ [e] ->
       change_direction e = PullUp.current_direction s)
   /\ PullUp.current_direction s <> PullUp.starting
   /\ (PullUp.direction_history s = []
       \/ (5 <= List.length (PullUp.position_history s))%nat)) ->
  let s' := fst (pullup_step cfg s f) in
  alternating (PullUp.direction_history s')
  /\ (forall pre e, PullUp.direction_history s' = pre ++ [e] ->
      change_direction e = PullUp.current_direction s')
  /\ PullUp.current_direction s' <> PullUp.starting
  /\ (PullUp.direction_history s' = []
      \/ (5 <= List.length (PullUp.position_history s'))%nat).
Proof.
  intros Inv. cbv zeta. unfold pullup_step.
  destruct (pullup_step_label cfg (fst f) s (snd f))
    as [E | [E | [E | (kpl & ls & rs & lw & rw & Ekp & L1 & L2 & L3 & L4 & H)]]];
    try (rewrite E; exact Inv).
  cbv zeta in H. destruct H as (Ecur & Ehist & _ & _).
  destruct (pullup_step_cases cfg (fst f) s (snd f))
    as [E | (kpl' & ls' & rs' & lw' & rw' & Ekp' & L1' & L2' & L3' & L4' & H')];
    [rewrite E; exact Inv |].
  rewrite Ekp in Ekp'. injection Ekp' as <-.
  rewrite L1 in L1'. rewrite L2 in L2'. rewrite L3 in L3'. rewrite L4 in L4'.
  injection L1' as <-. injection L2' as <-. injection L3' as <-.
  injection L4' as <-.
  cbv zeta in H'.
  pose proof (pullup_log_detect cfg (log_time (fst f)) s
                ((jy lw + jy rw) / 2 - (jy ls + jy rs) / 2) Inv) as Inv1.
  cbv zeta in Inv1. destruct Inv1 as (Ia & Il & Is & Iw).
  rewrite Ecur, Ehist.
  destruct H' as [(_ & _ & _ & Elog) | (_ & _ & _ & Elog)]; rewrite Elog.
  - repeat split; try assumption.
    + intros pre e E. destruct pre; discriminate E.
    + left. reflexivity.
  - repeat split; assumption.
Qed.

(** X10: the pull-up change log records reversals only.  In every state the
    counter reaches from construction no two neighbouring log entries carry
    the same direction, the last entry carries the current confirmed
    direction, which is never ["starting"], and the log is empty until the
    position window holds five samples.  Hence a call that counts a rep is
    one whose confirmed direction is up: it returns ["pulling_up"]. *)
Theorem change_log_alternates_and_reps_are_reported_pulling_up
    (cfg : Config) (frames : list (Clock * Keypoints)) (f : Clock * Keypoints) :
  let s := final (pullup_step cfg) PullUp.init frames in
  let r := pullup_step cfg s f in
  alternating (PullUp.direction_history s)
  /\ (forall pre e, PullUp.direction_history s = pre ++ [e] ->
      change_direction e = PullUp.current_direction s)
  /\ PullUp.current_direction s <> PullUp.starting
  /\ (PullUp.direction_history s = []
      \/ (5 <= List.length (PullUp.position_history s))%nat)
  /\ (PullUp.count (fst r) = (PullUp.count s + 1)%Z ->
      snd (snd r) = "pulling_up"%string
      /\ PullUp.position (fst r) = "pulling_up"%string
      /\ PullUp.current_direction (fst r) = PullUp.up).
Proof.
  intros s r.
  assert (Inv : alternating (PullUp.direction_history s)
                /\ (forall pre e, PullUp.direction_history s = pre ++ [e] ->
                    change_direction e = PullUp.current_direction s)
                /\ PullUp.current_direction s <> PullUp.starting
                /\ (PullUp.direction_history s = []
                    \/ (5 <= List.length (PullUp.position_history s))%nat)).
  { subst s.
    apply (for_all_calls (pullup_step cfg) (fun s =>
      alternating (PullUp.direction_history s)
      /\ (forall pre e, PullUp.direction_history s = pre ++ [e] ->
          change_direction e = PullUp.current_direction s)
      /\ PullUp.current_direction s <> PullUp.starting
      /\ (PullUp.direction_history s = []
          \/ (5 <= List.length (PullUp.position_history s))%nat)));
      [intros s0 i; apply pullup_log_step |].
    cbn. repeat split.
    - intros pre e E. destruct pre; discriminate E.
    - discriminate.
    - left. reflexivity. }
  destruct Inv as (Ia & Il & Is & Iw).
  split; [exact Ia |]. split; [exact Il |]. split; [exact Is |].
  split; [exact Iw |].
  intros Hcount. subst r. unfold pullup_step in *.
  destruct (pullup_step_label cfg (fst f) s (snd f))
    as [E | [E | [E | (kpl & ls & rs & lw & rw & Ekp & L1 & L2 & L3 & L4 & H)]]];
    try (rewrite E in Hcount; cbn [fst] in Hcount; lia).
  cbv zeta in H. destruct H as (Ecur & Ehist & Epos & Elab).
  destruct (pullup_step_cases cfg (fst f) s (snd f))
    as [E | (kpl' & ls' & rs' & lw' & rw' & Ekp' & L1' & L2' & L3' & L4' & H')];
    [rewrite E in Hcount; lia |].
  rewrite Ekp in Ekp'. injection Ekp' as <-.
  rewrite L1 in L1'. rewrite L2 in L2'. rewrite L3 in L3'. rewrite L4 in L4'.
  injection L1' as <-. injection L2' as <-. injection L3' as <-.
  injection L4' as <-.
  cbv zeta in H'.
  destruct H' as [(Hrep & _) | (_ & Hc & _)]; [| lia].
  apply rep_detected_spec in Hrep
    as (_ & pre & t0 & x0 & t1 & x1 & Hlog & _).
  pose proof (pullup_log_detect cfg (log_time (fst f)) s
                ((jy lw + jy rw) / 2 - (jy ls + jy rs) / 2)
                (conj Ia (conj Il (conj Is Iw)))) as Inv1.
  cbv zeta in Inv1. destruct Inv1 as (_ & Il1 & _ & Iw1).
  assert (Hup : PullUp.current_direction
                  (fst (PullUp.detect_direction_change cfg (log_time (fst f)) s
                          ((jy lw + jy rw) / 2 - (jy ls + jy rs) / 2)))
                = PullUp.up).
  { symmetry.
    apply (Il1 (pre ++ [(PullUp.down, t0, x0)]) (PullUp.up, t1, x1)).
    rewrite Hlog, <- app_assoc. reflexivity. }
  destruct (detect_log_spec cfg (log_time (fst f)) s
              ((jy lw + jy rw) / 2 - (jy ls + jy rs) / 2)) as (Eh & Hd).
  cbv zeta in Eh, Hd.
  assert (Hdir : fst (snd (PullUp.detect_direction_change cfg
                             (log_time (fst f)) s
                             ((jy lw + jy rw) / 2 - (jy ls + jy rs) / 2)))
                 = PullUp.up).
  { destruct Hd as [(Hlt & _) | (_ & Edir & _)]; [| rewrite Edir; exact Hup].
    destruct Iw1 as [Hnil | Hlen].
    - rewrite Hlog in Hnil. destruct pre; discriminate Hnil.
    - rewrite Eh in Hlen. lia. }
  split; [rewrite Elab, Hdir; reflexivity |].
  split; [rewrite Epos, Hdir; reflexivity |].
  rewrite Ecur. exact Hup.
Qed.

(** ** The pull-up warm-up *)

Lemma pullup_warmup_step (cfg : Config) (s : PullUp.t) (f : Clock * Keypoints)
    (n : nat) :
  (n < 4)%nat ->
  (PullUp.count s = 0%Z /\ PullUp.direction_history s = []
   /\ PullUp.current_direction s = PullUp.stable
   /\ PullUp.consecutive_up_frames s = 0
   /\ PullUp.consecutive_down_frames s = 0
   /\ (List.length (PullUp.position_history s) <= n)%nat) ->
  let r := pullup_step cfg s f in
  (PullUp.count (fst r) = 0%Z /\ PullUp.direction_history (fst r) = []
   /\ PullUp.current_direction (fst r) = PullUp.stable
   /\ PullUp.consecutive_up_frames (fst r) = 0
   /\ PullUp.consecutive_down_frames (fst r) = 0
   /\ (List.length (PullUp.position_history (fst r)) <= S n)%nat)
  /\ fst (snd r) = 0%Z
  /\ In (snd (snd r)) ["no_person"; "low_confidence"; "error"; "stable"]%string.
Proof.
  intros Hn (Hc & Hlog & Hcur & Hu & Hd & Hlen). cbv zeta.
  unfold pullup_step, PullUp.analyze_pose.
  destruct (snd f) as [[|j kp]|]; cbn [fst snd];
    try (repeat split; try assumption; try lia; simpl; tauto).
  repeat (break_match; cbn [fst snd];
          try (repeat split; try assumption; try lia; simpl; tauto)).
  all: match goal with
       | H : PullUp.detect_direction_change _ _ _ _ = _ |- _ =>
           revert H; unfold PullUp.detect_direction_change
       end.
  all: match goal with
       | |- context [deque_append 30 ?h ?d] =>
           pose proof (deque_append_length 30 h d) as Hgrow
       end.
  all: replace (List.length _ <? 5)%nat with true
         by (symmetry; apply Nat.ltb_lt; lia).
  all: intros E; injection E as <- <- <-.
  all: match goal with
       | H : PullUp.rep_detected _ _ _ = true |- _ =>
           revert H; unfold PullUp.rep_detected;
           cbn [PullUp.direction_history]; rewrite Hlog;
           repeat break_if; discriminate
       | _ => idtac
       end.
  all: cbn [PullUp.count PullUp.direction_history PullUp.current_direction
            PullUp.consecutive_up_frames PullUp.consecutive_down_frames
            PullUp.position_history PullUp.position PullUp.position_of].
  all: repeat split; try assumption; try lia; simpl; tauto.
Qed.

Lemma pullup_warmup (cfg : Config) (frames : list (Clock * Keypoints)) :
  forall (s : PullUp.t) (n : nat),
    (n + List.length frames <= 4)%nat ->
    (PullUp.count s = 0%Z /\ PullUp.direction_history s = []
     /\ PullUp.current_direction s = PullUp.stable
     /\ PullUp.consecutive_up_frames s = 0
     /\ PullUp.consecutive_down_frames s = 0
     /\ (List.length (PullUp.position_history s) <= n)%nat) ->
    Forall (fun out =>
              fst out = 0%Z
              /\ In (snd out)
                   ["no_person"; "low_confidence"; "error"; "stable"]%string)
      (outputs (pullup_step cfg) s frames).
Proof.
  unfold outputs.
  induction frames as [|f rest IH]; intros s n Hn Hs; simpl; constructor.
  - apply (pullup_warmup_step cfg s f n); [simpl in Hn; lia | exact Hs].
  - apply (IH _ (S n)); [simpl in Hn; lia |].
    apply (pullup_warmup_step cfg s f n); [simpl in Hn; lia | exact Hs].
Qed.

(** X11: the pull-up counter warms up.  Each of the first four calls on a
    new counter returns count 0 and one of the labels ["no_person"],
    ["low_confidence"], ["error"] and ["stable"], whatever the frames show:
    no direction is reported before the position window holds five
    samples. *)
Theorem pullup_first_four_frames_are_stable
    (cfg : Config) (frames : list (Clock * Keypoints)) :
  (List.length frames <= 4)%nat ->
  Forall (fun out =>
            fst out = 0%Z
            /\ In (snd out)
                 ["no_person"; "low_confidence"; "error"; "stable"]%string)
    (outputs (pullup_step cfg) PullUp.init frames).
Proof.
  intros H. apply (pullup_warmup cfg frames PullUp.init 0); [lia |].
  cbn. repeat split; lia.
Qed.

Lemma pullup_warmup_witness :
  (List.length [(mkClock 1 1, Some (hang_frame 0 100 1));
                (mkClock 2 2, Some (hang_frame 0 0 1))] <= 4)%nat
  /\ Forall (fun out =>
               fst out = 0%Z
               /\ In (snd out)
                    ["no_person"; "low_confidence"; "error"; "stable"]%string)
       (outputs (pullup_step config) PullUp.init
          [(mkClock 1 1, Some (hang_frame 0 100 1));
           (mkClock 2 2, Some (hang_frame 0 0 1))]).
Proof.
  assert (H : (List.length [(mkClock 1 1, Some (hang_frame 0 100 1));
                            (mkClock 2 2, Some (hang_frame 0 0 1))] <= 4)%nat)
    by (simpl; lia).
  split; [exact H |].
  exact (pullup_first_four_frames_are_stable config _ H).
Defined.

(** ** The rows a counter reads *)

(** X12: each counter reads six rows of the frame, the pull-up counter
    four, and nothing else: two frames with the same rows at those indices
    have the same effect and the same result (shoulders, elbows and wrists
    5-10 for push-up and arm-curl; hips, knees and ankles 11-16 for squat;
    shoulders 5, 6 and wrists 9, 10 for pull-up, on non-empty frames). *)
Theorem counters_read_only_their_rows (kp kp' : list Joint) :
  (Forall (fun i => nth_error kp i = nth_error kp' i)
     [PushUp.R_SHOULDER; PushUp.R_ELBOW; PushUp.R_WRIST;
      PushUp.L_SHOULDER; PushUp.L_ELBOW; PushUp.L_WRIST] ->
   (forall s, PushUp.analyze_pose s (Some kp) = PushUp.analyze_pose s (Some kp'))
   /\ (forall s, ArmCurl.analyze_pose s (Some kp)
                 = ArmCurl.analyze_pose s (Some kp')))
  /\ (Forall (fun i => nth_error kp i = nth_error kp' i)
        [Squat.R_HIP; Squat.R_KNEE; Squat.R_ANKLE;
         Squat.L_HIP; Squat.L_KNEE; Squat.L_ANKLE] ->
      forall s, Squat.analyze_pose s (Some kp) = Squat.analyze_pose s (Some kp'))
  /\ (Forall (fun i => nth_error kp i = nth_error kp' i)
        [PullUp.L_SHOULDER; PullUp.R_SHOULDER; PullUp.L_WRIST; PullUp.R_WRIST] ->
      kp <> [] -> kp' <> [] ->
      forall cfg clk s,
        PullUp.analyze_pose cfg clk s (Some kp)
        = PullUp.analyze_pose cfg clk s (Some kp')).
Proof.
  split; [| split].
  - intros H.
    assert (Ep : forall s, PushUp.get_best_arm_angle s kp
                           = PushUp.get_best_arm_angle s kp').
    { intros s. unfold PushUp.get_best_arm_angle.
      inversion H as [|? ? E1 H1]; subst. inversion H1 as [|? ? E2 H2]; subst.
      inversion H2 as [|? ? E3 H3]; subst. inversion H3 as [|? ? E4 H4]; subst.
      inversion H4 as [|? ? E5 H5]; subst. inversion H5 as [|? ? E6 H6]; subst.
      rewrite E1, E2, E3, E4, E5, E6. reflexivity. }
    assert (Ea : ArmCurl.get_best_arm_angle kp = ArmCurl.get_best_arm_angle kp').
    { unfold ArmCurl.get_best_arm_angle.
      inversion H as [|? ? E1 H1]; subst. inversion H1 as [|? ? E2 H2]; subst.
      inversion H2 as [|? ? E3 H3]; subst. inversion H3 as [|? ? E4 H4]; subst.
      inversion H4 as [|? ? E5 H5]; subst. inversion H5 as [|? ? E6 H6]; subst.
      change ArmCurl.R_SHOULDER with PushUp.R_SHOULDER.
      change ArmCurl.R_ELBOW with PushUp.R_ELBOW.
      change ArmCurl.R_WRIST with PushUp.R_WRIST.
      change ArmCurl.L_SHOULDER with PushUp.L_SHOULDER.
      change ArmCurl.L_ELBOW with PushUp.L_ELBOW.
      change ArmCurl.L_WRIST with PushUp.L_WRIST.
      rewrite E1, E2, E3, E4, E5, E6. reflexivity. }
    split; intros s.
    + unfold PushUp.analyze_pose.
      destruct kp as [|j kp], kp' as [|j' kp']; try reflexivity.
      * rewrite <- Ep. reflexivity.
      * rewrite Ep. reflexivity.
      * rewrite Ep. reflexivity.
    + unfold ArmCurl.analyze_pose.
      destruct kp as [|j kp], kp' as [|j' kp']; try reflexivity.
      * rewrite <- Ea. reflexivity.
      * rewrite Ea. reflexivity.
      * rewrite Ea. reflexivity.
  - intros H s.
    assert (Es : Squat.get_best_leg_angle kp = Squat.get_best_leg_angle kp').
    { unfold Squat.get_best_leg_angle.
      inversion H as [|? ? E1 H1]; subst. inversion H1 as [|? ? E2 H2]; subst.
      inversion H2 as [|? ? E3 H3]; subst. inversion H3 as [|? ? E4 H4]; subst.
      inversion H4 as [|? ? E5 H5]; subst. inversion H5 as [|? ? E6 H6]; subst.
      rewrite E1, E2, E3, E4, E5, E6. reflexivity. }
    unfold Squat.analyze_pose.
    destruct kp as [|j kp], kp' as [|j' kp']; try reflexivity.
    + rewrite <- Es. reflexivity.
    + rewrite Es. reflexivity.
    + rewrite Es. reflexivity.
  - intros H Hne Hne' cfg clk s. unfold PullUp.analyze_pose.
    destruct kp as [|j kp]; [contradiction |].
    destruct kp' as [|j' kp']; [contradiction |].
    inversion H as [|? ? E1 H1]; subst. inversion H1 as [|? ? E2 H2]; subst.
    inversion H2 as [|? ? E3 H3]; subst. inversion H3 as [|? ? E4 H4]; subst.
    rewrite E1, E2, E3, E4. reflexivity.
Qed.

Lemma counters_read_only_their_rows_witness :
  Forall (fun i => nth_error (arms_frame 0 0 80 1) i
                   = nth_error (mkJoint 7 7 1 :: tl (arms_frame 0 0 80 1)) i)
    [PushUp.R_SHOULDER; PushUp.R_ELBOW; PushUp.R_WRIST;
     PushUp.L_SHOULDER; PushUp.L_ELBOW; PushUp.L_WRIST]
  /\ PushUp.analyze_pose PushUp.init (Some (arms_frame 0 0 80 1))
     = PushUp.analyze_pose PushUp.init
         (Some (mkJoint 7 7 1 :: tl (arms_frame 0 0 80 1))).
Proof.
  assert (H : Forall (fun i => nth_error (arms_frame 0 0 80 1) i
                               = nth_error
                                   (mkJoint 7 7 1 :: tl (arms_frame 0 0 80 1)) i)
                [PushUp.R_SHOULDER; PushUp.R_ELBOW; PushUp.R_WRIST;
                 PushUp.L_SHOULDER; PushUp.L_ELBOW; PushUp.L_WRIST])
    by (repeat constructor).
  split; [exact H |].
  destruct (counters_read_only_their_rows (arms_frame 0 0 80 1)
              (mkJoint 7 7 1 :: tl (arms_frame 0 0 80 1))) as (Harms & _).
  destruct (Harms H) as (Hpush & _). apply Hpush.
Defined.

(** ** The session under any sequence of calls *)

Lemma pushup_reset_after_frame (s : PushUp.t) (kp : Keypoints) :
  PushUp.reset (fst (PushUp.analyze_pose s kp)) = PushUp.reset s.
Proof.
  destruct (pushup_step_spec s kp) as ((E1 & E2 & E3 & E4 & _) & _).
  unfold PushUp.reset. rewrite E1, E2, E3, E4. reflexivity.
Qed.

Lemma squat_reset_after_frame (s : Squat.t) (kp : Keypoints) :
  Squat.reset (fst (Squat.analyze_pose s kp)) = Squat.reset s.
Proof.
  destruct (squat_step_spec s kp) as ((E1 & E2 & E3 & _) & _).
  unfold Squat.reset. rewrite E1, E2, E3. reflexivity.
Qed.

Lemma armcurl_reset_after_frame (s : ArmCurl.t) (kp : Keypoints) :
  ArmCurl.reset (fst (ArmCurl.analyze_pose s kp)) = ArmCurl.reset s.
Proof.
  destruct (armcurl_step_spec s kp) as [-> | (E1 & E2 & _)]; [reflexivity |].
  unfold ArmCurl.reset. rewrite E1, E2. reflexivity.
Qed.

Lemma counter_reset_after_frame (cfg : Config) (clk : Clock)
    (c : Workout.ExerciseCounter) (v : Z) (kp : Keypoints) :
  Workout.counter_reset
    (fst (Workout.counter_analyze_pose cfg clk
            (Workout.set_counter_frame_count c v) kp))
  = Workout.counter_reset c.
Proof.
  destruct c as [c | c | c | c]; cbn [Workout.set_counter_frame_count
                                       Workout.counter_analyze_pose].
  - destruct (PullUp.analyze_pose _ _ _ _) as [c' [n l]]. reflexivity.
  - match goal with
    | |- context [PushUp.analyze_pose ?s0 kp] =>
        pose proof (pushup_reset_after_frame s0 kp) as E;
        destruct (PushUp.analyze_pose s0 kp) as [c' [n a]]
    end.
    cbn [fst Workout.counter_reset] in *. rewrite E. reflexivity.
  - match goal with
    | |- context [Squat.analyze_pose ?s0 kp] =>
        pose proof (squat_reset_after_frame s0 kp) as E;
        destruct (Squat.analyze_pose s0 kp) as [c' [n a]]
    end.
    cbn [fst Workout.counter_reset] in *. rewrite E. reflexivity.
  - match goal with
    | |- context [ArmCurl.analyze_pose ?s0 kp] =>
        pose proof (armcurl_reset_after_frame s0 kp) as E;
        destruct (ArmCurl.analyze_pose s0 kp) as [c' [n a]]
    end.
    cbn [fst Workout.counter_reset] in *. rewrite E. reflexivity.
Qed.

Lemma counters_are_reset (mode : string) (c0 : Workout.ExerciseCounter) :
  Workout.counters mode = Some c0 -> Workout.counter_reset c0 = c0.
Proof.
  unfold Workout.counters. repeat break_if; intros E; try discriminate;
    injection E as <-; reflexivity.
Qed.

Lemma counters_known (mode : string) (c0 : Workout.ExerciseCounter) :
  Workout.counters mode = Some c0 ->
  In mode ["chinup"; "pullup"; "pushup"; "squat"; "armcurl"]%string.
Proof.
  unfold Workout.counters.
  repeat (break_if;
          [match goal with
           | H : String.eqb _ _ = true |- _ =>
               apply String.eqb_eq in H; subst; simpl; tauto
           end |]).
  discriminate.
Qed.

Lemma session_init (mode : string) :
  exists c c0,
    Workout.counter (Workout.init mode) = Some c
    /\ Workout.counters (Workout.mode (Workout.init mode)) = Some c0
    /\ Workout.counter_reset c = c0.
Proof.
  unfold Workout.init, Workout._initialize_counter.
  destruct (Workout.counters mode) as [c0|] eqn:E;
    cbn [Workout.counter Workout.mode].
  - exists c0, c0. repeat split; [exact E | eapply counters_are_reset, E].
  - exists (Workout.PullUpCounter PullUp.init),
      (Workout.PullUpCounter PullUp.init). repeat split.
Qed.

Lemma session_call (w : Workout.t) (c : Call) :
  (exists c1 c0,
      Workout.counter w = Some c1
      /\ Workout.counters (Workout.mode w) = Some c0
      /\ Workout.counter_reset c1 = c0) ->
  exists c1 c0,
    Workout.counter (call w c) = Some c1
    /\ Workout.counters (Workout.mode (call w c)) = Some c0
    /\ Workout.counter_reset c1 = c0.
Proof.
  intros (c1 & c0 & Ec & Em & Er).
  destruct c as [cfg clk kp | | new_mode]; cbn [call].
  - unfold Workout.update. rewrite Ec.
    pose proof (counter_reset_after_frame cfg clk c1
                  (Workout.counter_frame_count c1 + 1) kp) as E.
    destruct (Workout.counter_analyze_pose _ _ _ _) as [c2 r].
    cbn [fst Workout.counter Workout.mode] in *.
    exists c2, c0. repeat split; [exact Em | congruence].
  - unfold Workout.reset. rewrite Ec. cbn [Workout.counter Workout.mode].
    exists (Workout.counter_reset c1), c0. repeat split; [exact Em |].
    rewrite Er. eapply counters_are_reset, Em.
  - unfold Workout.switch_mode. break_if.
    + destruct (session_init new_mode) as (c2 & c3 & E2 & E3 & E4).
      unfold Workout.init, Workout._initialize_counter in *.
      destruct (Workout.counters new_mode);
        cbn [Workout.counter Workout.mode] in *;
        exists c2, c3; repeat split; assumption.
    + exists c1, c0. repeat split; assumption.
Qed.

Lemma session_invariant (cs : list Call) :
  forall w,
    (exists c1 c0,
        Workout.counter w = Some c1
        /\ Workout.counters (Workout.mode w) = Some c0
        /\ Workout.counter_reset c1 = c0) ->
    exists c1 c0,
      Workout.counter (calls w cs) = Some c1
      /\ Workout.counters (Workout.mode (calls w cs)) = Some c0
      /\ Workout.counter_reset c1 = c0.
Proof.
  unfold calls. induction cs as [|c rest IH]; intros w H; [exact H |].
  cbn [fold_left]. apply IH, session_call, H.
Qed.

Lemma counter_analyze_returns_count (cfg : Config) (clk : Clock)
    (c : Workout.ExerciseCounter) (kp : Keypoints) :
  fst (snd (Workout.counter_analyze_pose cfg clk c kp))
  = Workout.counter_count (fst (Workout.counter_analyze_pose cfg clk c kp))
  /\ (Workout.counter_count c
      <= Workout.counter_count
           (fst (Workout.counter_analyze_pose cfg clk c kp)))%Z.
Proof.
  destruct c as [c | c | c | c]; cbn [Workout.counter_analyze_pose].
  - pose proof (pullup_mono cfg clk c kp) as [H1 H2].
    destruct (PullUp.analyze_pose cfg clk c kp) as [c' [n l]].
    cbn [fst snd Workout.counter_count] in *. split; assumption.
  - pose proof (pushup_mono c kp) as H1. pose proof (pushup_returns c kp) as H2.
    destruct (PushUp.analyze_pose c kp) as [c' [n a]].
    cbn [fst snd Workout.counter_count] in *. split; assumption.
  - pose proof (squat_mono c kp) as [H1 H2].
    destruct (Squat.analyze_pose c kp) as [c' [n a]].
    cbn [fst snd Workout.counter_count] in *. split; assumption.
  - pose proof (armcurl_mono c kp) as [H1 H2].
    destruct (ArmCurl.analyze_pose c kp) as [c' [n a]].
    cbn [fst snd Workout.counter_count] in *. split; assumption.
Qed.

Lemma set_frame_count_keeps_count (c : Workout.ExerciseCounter) (v : Z) :
  Workout.counter_count (Workout.set_counter_frame_count c v)
  = Workout.counter_count c.
Proof. destruct c; reflexivity. Qed.

(** X13: a session always has a counter, and it is the one of its mode.
    After [WorkoutCounter(mode)] and any sequence of [update], [reset] and
    [switch_mode] calls, the mode is one of the five known modes (an unknown
    one having become ["chinup"]), the counter is an instance of the class
    registered for that mode, so [update] never takes its "No counter
    initialized" exit: it returns the count that the [count] property then
    reports, and that count is not below the one before the call. *)
Theorem session_always_has_the_counter_of_its_mode
    (mode : string) (cs : list Call) :
  let w := calls (Workout.init mode) cs in
  In (Workout.mode w) ["chinup"; "pullup"; "pushup"; "squat"; "armcurl"]%string
  /\ (exists c c0,
        Workout.counter w = Some c
        /\ Workout.counters (Workout.mode w) = Some c0
        /\ same_class c c0 = true)
  /\ (forall cfg clk keypoints,
        let r := Workout.update cfg clk w keypoints in
        fst (snd r) = Workout.count (fst r)
        /\ (Workout.count w <= Workout.count (fst r))%Z).
Proof.
  intros w.
  destruct (session_invariant cs (Workout.init mode) (session_init mode))
    as (c & c0 & Ec & Em & Er).
  fold w in Ec, Em.
  split; [eapply counters_known, Em |]. split.
  - exists c, c0. repeat split; try assumption.
    subst c0. destruct c; reflexivity.
  - intros cfg clk kp. cbv zeta. unfold Workout.update, Workout.count.
    rewrite Ec.
    pose proof (counter_analyze_returns_count cfg clk
                  (Workout.set_counter_frame_count c
                     (Workout.counter_frame_count c + 1)) kp) as [H1 H2].
    rewrite set_frame_count_keeps_count in H2.
    destruct (Workout.counter_analyze_pose _ _ _ _) as [c2 r].
    cbn [fst snd Workout.counter] in *. split; assumption.
Qed.

(** X14: [reset] returns a session to its constructed state.  After
    [WorkoutCounter(mode)] and any sequence of calls, [reset] leaves exactly
    the session that [WorkoutCounter(w.mode)] constructs: count 0, frame
    counts 0, empty windows and the thresholds of a new counter. *)
Theorem reset_returns_to_the_constructed_state
    (mode : string) (cs : list Call) :
  let w := calls (Workout.init mode) cs in
  Workout.reset w = Workout.init (Workout.mode w)
  /\ Workout.count (Workout.reset w) = 0%Z
  /\ Workout.frame_count (Workout.reset w) = 0%Z.
Proof.
  intros w.
  destruct (session_invariant cs (Workout.init mode) (session_init mode))
    as (c & c0 & Ec & Em & Er).
  fold w in Ec, Em.
  assert (E : Workout.reset w = Workout.init (Workout.mode w)).
  { unfold Workout.reset, Workout.init, Workout._initialize_counter.
    rewrite Ec, Em, Er. reflexivity. }
  rewrite E. split; [reflexivity |].
  unfold Workout.init, Workout._initialize_counter, Workout.count.
  rewrite Em. cbn [Workout.counter Workout.frame_count].
  split; [| reflexivity].
  revert Em. unfold Workout.counters.
  repeat break_if; intros Em; try discriminate; injection Em as <-; reflexivity.
Qed.

Lemma counter_analyze_frame_count (cfg : Config) (clk : Clock)
    (c : Workout.ExerciseCounter) (kp : Keypoints) :
  Workout.counter_frame_count (fst (Workout.counter_analyze_pose cfg clk c kp))
  = (Workout.counter_frame_count c
     + match c with
       | Workout.PushUpCounter _ | Workout.SquatCounter _ => 1
       | _ => 0
       end)%Z.
Proof.
  destruct c as [c | c | c | c]; cbn [Workout.counter_analyze_pose].
  - pose proof (pullup_frame_count cfg clk c kp) as H.
    destruct (PullUp.analyze_pose cfg clk c kp) as [c' [n l]].
    cbn [fst Workout.counter_frame_count] in *. lia.
  - pose proof (pushup_frame_count c kp) as H.
    destruct (PushUp.analyze_pose c kp) as [c' [n a]].
    cbn [fst Workout.counter_frame_count] in *. lia.
  - pose proof (squat_frame_count c kp) as H.
    destruct (Squat.analyze_pose c kp) as [c' [n a]].
    cbn [fst Workout.counter_frame_count] in *. lia.
  - pose proof (armcurl_frame_count c kp) as H.
    destruct (ArmCurl.analyze_pose c kp) as [c' [n a]].
    cbn [fst Workout.counter_frame_count] in *. lia.
Qed.

Lemma set_frame_count_sets (c : Workout.ExerciseCounter) (v : Z) :
  Workout.counter_frame_count (Workout.set_counter_frame_count c v) = v.
Proof. destruct c; reflexivity. Qed.

Lemma class_by_mode (mode : string) (c c0 : Workout.ExerciseCounter) :
  Workout.counters mode = Some c0 -> Workout.counter_reset c = c0 ->
  match c with
  | Workout.PushUpCounter _ => mode = "pushup"%string
  | Workout.SquatCounter _ => mode = "squat"%string
  | Workout.ArmCurlCounter _ => mode = "armcurl"%string
  | Workout.PullUpCounter _ => mode = "chinup"%string \/ mode = "pullup"%string
  end.
Proof.
  unfold Workout.counters.
  repeat (break_if;
          [match goal with
           | H : String.eqb _ _ = true |- _ => apply String.eqb_eq in H; subst
           end |]);
    intros E Er; try discriminate; injection E as <-;
    destruct c; try discriminate Er; tauto.
Qed.

(** X15: what [get_status] reports.  In a session reached by any sequence
    of calls and then updated with a frame, the status dictionary holds the
    count of the [count] property under ["count"], the mode under ["mode"],
    and under ["frame_count"] the counter's own frame counter, which after
    the update is the session's [frame_count] for the pull-up and arm-curl
    counters and one more than it for the push-up and squat counters. *)
Theorem get_status_reports_the_counter
    (mode : string) (cs : list Call) (cfg : Config) (clk : Clock)
    (keypoints : Keypoints) :
  let w := fst (Workout.update cfg clk (calls (Workout.init mode) cs) keypoints) in
  Status.get (Status.get_status w) "count"
  = Some (Status.IntValue (Workout.count w))
  /\ Status.get (Status.get_status w) "mode"
     = Some (Status.StrValue (Workout.mode w))
  /\ Status.get (Status.get_status w) "frame_count"
     = Some (Status.IntValue
               (Workout.frame_count w
                + (if String.eqb (Workout.mode w) "pushup"
                      || String.eqb (Workout.mode w) "squat"
                   then 1 else 0))%Z).
Proof.
  cbv zeta.
  destruct (session_invariant cs (Workout.init mode) (session_init mode))
    as (c & c0 & Ec & Em & Er).
  set (w0 := calls (Workout.init mode) cs) in *.
  pose proof (class_by_mode _ c c0 Em Er) as Hclass.
  unfold Workout.update. rewrite Ec.
  pose proof (counter_analyze_frame_count cfg clk
                (Workout.set_counter_frame_count c
                   (Workout.counter_frame_count c + 1)) keypoints) as Hf.
  pose proof (counter_reset_after_frame cfg clk c
                (Workout.counter_frame_count c + 1) keypoints) as Hr.
  destruct (Workout.counter_analyze_pose _ _ _ _) as [c2 r].
  cbn [fst] in *.
  unfold Status.get_status, Workout.count.
  cbn [Workout.counter Workout.mode Workout.frame_count
       Status.counter_get_status app Status.get String.eqb Ascii.eqb Bool.eqb].
  split; [reflexivity |]. split; [reflexivity |].
  rewrite Hf, set_frame_count_sets. do 2 f_equal. f_equal.
  destruct c as [c | c | c | c]; cbn [Workout.set_counter_frame_count];
    try (destruct Hclass as [-> | ->]); try rewrite Hclass; reflexivity.
Qed.

(** ** The motivation text *)

Lemma getitem_in_range {A : Type} (l : list A) (i : Z) :
  (0 <= i < Z.of_nat (List.length l))%Z ->
  exists x, Motivation.getitem l i = Some x /\ In x l.
Proof.
  intros H. unfold Motivation.getitem.
  replace (i <? 0)%Z with false by (symmetry; apply Z.ltb_ge; lia).
  destruct (nth_error l (Z.to_nat i)) as [x|] eqn:E.
  - exists x. split; [reflexivity |]. eapply nth_error_In, E.
  - apply nth_error_None in E. lia.
Qed.

(** X16: [get_motivation_text] never fails and cycles through its ten
    messages.  For every integer, negative ones included, the message index
    is within the list, so a text is returned; the text is
    ["Ready to start!"] exactly for 0; and the counts [n] and [n + 10] get
    the same message behind their own ["Rep n - "]. *)
Theorem motivation_text_is_total_and_cycles (rep_count : Z) :
  (exists text, Motivation.get_motivation_text rep_count = Some text)
  /\ (Motivation.get_motivation_text rep_count = Some "Ready to start!"%string
      <-> rep_count = 0%Z)
  /\ (rep_count <> 0%Z -> (rep_count + 10)%Z <> 0%Z ->
      exists message,
        In message Motivation.motivational_messages
        /\ Motivation.get_motivation_text rep_count
           = Some ("Rep " ++ Motivation.str rep_count ++ " - " ++ message)%string
        /\ Motivation.get_motivation_text (rep_count + 10)
           = Some ("Rep " ++ Motivation.str (rep_count + 10) ++ " - "
                   ++ message)%string).
Proof.
  assert (Hlen : Z.of_nat (List.length Motivation.motivational_messages) = 10%Z)
    by reflexivity.
  assert (Hidx : forall n,
             (0 <= (n - 1) mod
                   Z.of_nat (List.length Motivation.motivational_messages)
              < Z.of_nat (List.length Motivation.motivational_messages))%Z).
  { intros n. rewrite Hlen. apply Z.mod_pos_bound. lia. }
  assert (Hrep : forall n m,
             ("Rep " ++ Motivation.str n ++ " - " ++ m)%string
             <> "Ready to start!"%string).
  { intros n m. cbn [String.append]. discriminate. }
  unfold Motivation.get_motivation_text.
  split; [| split].
  - destruct (rep_count =? 0)%Z; [eexists; reflexivity |].
    destruct (getitem_in_range Motivation.motivational_messages _
                (Hidx rep_count)) as (m & -> & _).
    eexists; reflexivity.
  - destruct (rep_count =? 0)%Z eqn:E.
    + apply Z.eqb_eq in E. tauto.
    + apply Z.eqb_neq in E.
      destruct (getitem_in_range Motivation.motivational_messages _
                  (Hidx rep_count)) as (m & -> & _).
      split; [| contradiction].
      intros H. exfalso. apply (Hrep rep_count m).
      apply (f_equal (fun o => match o with Some t => t | None => EmptyString end))
        in H.
      exact H.
  - intros H0 H10.
    replace (rep_count =? 0)%Z with false by (symmetry; apply Z.eqb_neq; exact H0).
    replace (rep_count + 10 =? 0)%Z with false
      by (symmetry; apply Z.eqb_neq; exact H10).
    assert (Ei : ((rep_count + 10 - 1)
                  mod Z.of_nat (List.length Motivation.motivational_messages)
                  = (rep_count - 1)
                    mod Z.of_nat (List.length Motivation.motivational_messages))%Z).
    { rewrite Hlen.
      replace (rep_count + 10 - 1)%Z with (rep_count - 1 + 1 * 10)%Z by lia.
      apply Z_mod_plus_full. }
    rewrite Ei.
    destruct (getitem_in_range Motivation.motivational_messages _
                (Hidx rep_count)) as (m & -> & Hin).
    exists m. repeat split. exact Hin.
Qed.

Lemma motivation_text_witness :
  ((-7)%Z <> 0%Z /\ (-7 + 10)%Z <> 0%Z)
  /\ exists message,
       In message Motivation.motivational_messages
       /\ Motivation.get_motivation_text (-7)
          = Some ("Rep " ++ Motivation.str (-7) ++ " - " ++ message)%string
       /\ Motivation.get_motivation_text (-7 + 10)
          = Some ("Rep " ++ Motivation.str (-7 + 10) ++ " - " ++ message)%string.
Proof.
  assert (H0 : (-7)%Z <> 0%Z) by lia.
  assert (H1 : (-7 + 10)%Z <> 0%Z) by lia.
  split; [split; assumption |].
  destruct (motivation_text_is_total_and_cycles (-7)) as (_ & _ & Hcycle).
  exact (Hcycle H0 H1).
Defined.

(** ** The endpoints *)

Lemma checked_mode_supported (mode : string) :
  In (Main.checked_mode mode) Main.supported_modes
  /\ exists c0, Workout.counters (Main.checked_mode mode) = Some c0.
Proof.
  unfold Main.checked_mode, Main.mode_in, Main.supported_modes.
  cbn [existsb].
  repeat match goal with
    | |- context [String.eqb mode ?m] =>
        destruct (String.eqb mode m) eqn:?;
        [match goal with
         | H : String.eqb _ _ = true |- _ => apply String.eqb_eq in H; subst
         end;
         cbn; split; [tauto | eexists; reflexivity] |]
    end.
  cbn. split; [tauto | eexists; reflexivity].
Qed.

Lemma init_mode_known (mode : string) (c0 : Workout.ExerciseCounter) :
  Workout.counters mode = Some c0 ->
  Workout.init mode = Workout.mk mode (Some c0) 0.
Proof.
  intros E. unfold Workout.init, Workout._initialize_counter. rewrite E.
  reflexivity.
Qed.

Lemma update_keeps_mode (cfg : Config) (clk : Clock) (w : Workout.t)
    (kp : Keypoints) :
  Workout.mode (fst (Workout.update cfg clk w kp)) = Workout.mode w.
Proof.
  unfold Workout.update. destruct (Workout.counter w); [| reflexivity].
  destruct (Workout.counter_analyze_pose _ _ _ _). reflexivity.
Qed.

Lemma update_returns_count (cfg : Config) (clk : Clock) (w : Workout.t)
    (kp : Keypoints) :
  fst (snd (Workout.update cfg clk w kp))
  = Workout.count (fst (Workout.update cfg clk w kp)).
Proof.
  unfold Workout.update, Workout.count.
  destruct (Workout.counter w) as [c|] eqn:E; [| cbn; rewrite E; reflexivity].
  pose proof (counter_analyze_returns_count cfg clk
                (Workout.set_counter_frame_count c
                   (Workout.counter_frame_count c + 1)) kp) as [H _].
  destruct (Workout.counter_analyze_pose _ _ _ _) as [c2 r]. exact H.
Qed.

Lemma session_for_mode (sessions : Main.Sessions) (mode : string)
    (c0 : Workout.ExerciseCounter) :
  Workout.counters mode = Some c0 ->
  Workout.mode (Main.session_for sessions mode) = mode.
Proof.
  intros E. unfold Main.session_for. rewrite (init_mode_known _ _ E).
  destruct sessions as [w|]; cbn [Workout.mode].
  - destruct (String.eqb (Workout.mode w) mode) eqn:Em; cbn [negb].
    + apply String.eqb_eq in Em. exact Em.
    + unfold Workout.reset. reflexivity.
  - rewrite String.eqb_refl. reflexivity.
Qed.

(** X17: what [analyze_frame] leaves and returns.  Once the image is
    decoded and the pose detector has answered, whatever the stored session
    and the requested mode, the call stores a session whose mode is
    the requested mode if that is one of the four supported ones and
    ["chinup"] otherwise (so a ["pullup"] request is served as ["chinup"]);
    and a response, when there is one, carries that session's count and
    frame count, the motivation text of that count, and a position only in
    mode ["chinup"]. *)
Theorem analyze_frame_serves_the_checked_mode
    (cfg : Config) (clk : Clock) (sessions : Main.Sessions) (mode : string)
    (keypoints : option (list Joint)) :
  let r := Main.analyze_frame cfg clk sessions mode keypoints in
  In (Main.checked_mode mode) Main.supported_modes
  /\ Main.checked_mode "pullup" = "chinup"%string
  /\ exists w,
       fst r = Some w
       /\ Workout.mode w = Main.checked_mode mode
       /\ forall response, snd r = Some response ->
            Main.repCount response = Workout.count w
            /\ Main.framesSent response = Workout.frame_count w
            /\ Motivation.get_motivation_text (Workout.count w)
               = Some (Main.motivation response)
            /\ (Main.position response <> None ->
                Main.checked_mode mode = "chinup"%string).
Proof.
  cbv zeta.
  destruct (checked_mode_supported mode) as (Hin & c0 & Ec0).
  split; [exact Hin |]. split; [reflexivity |].
  unfold Main.analyze_frame.
  pose proof (session_for_mode sessions _ c0 Ec0) as Hmode.
  set (w0 := Main.session_for sessions (Main.checked_mode mode)) in *.
  destruct keypoints as [kp|].
  - pose proof (update_keeps_mode cfg clk w0 (Some kp)) as Hm.
    pose proof (update_returns_count cfg clk w0 (Some kp)) as Hc.
    destruct (Workout.update cfg clk w0 (Some kp)) as [w [n state]].
    cbn [fst snd] in Hm, Hc. subst n.
    assert (Hchin : Main.mode_in (Main.checked_mode mode)
                      ["chinup"; "pullup"]%string = true ->
                    Main.checked_mode mode = "chinup"%string).
    { unfold Main.mode_in. cbn [existsb]. rewrite orb_false_r.
      intros H. apply orb_true_iff in H as [H | H];
        apply String.eqb_eq in H; [exact H |].
      rewrite H in Hin. cbn in Hin.
      repeat destruct Hin as [Hin | Hin]; try discriminate Hin; contradiction. }
    exists w.
    destruct (Main.mode_in (Main.checked_mode mode) ["chinup"; "pullup"]%string)
      eqn:Echin.
    + repeat break_match; cbn [fst snd];
        (split; [reflexivity |]); (split; [congruence |]);
        intros response Hr; try discriminate Hr; injection Hr as <-;
        cbn [Main.repCount Main.framesSent Main.motivation Main.position];
        repeat split; try assumption; intros _; apply Hchin; reflexivity.
    + repeat break_match; cbn [fst snd];
        (split; [reflexivity |]); (split; [congruence |]);
        intros response Hr; try discriminate Hr; injection Hr as <-;
        cbn [Main.repCount Main.framesSent Main.motivation Main.position];
        repeat split; try assumption; intros H; contradiction.
  - exists w0.
    destruct (Motivation.get_motivation_text (Workout.count w0)) eqn:Em;
      cbn [fst snd]; (split; [reflexivity |]); (split; [exact Hmode |]);
      intros response Hr; try discriminate Hr; injection Hr as <-;
      cbn [Main.repCount Main.framesSent Main.motivation Main.position];
      repeat split; try assumption; intros H; contradiction.
Qed.

Lemma new_counter_counts_nothing_on_first_frame (cfg : Config) (clk : Clock)
    (mode : string) (c0 : Workout.ExerciseCounter) (v : Z) (kp : Keypoints) :
  Workout.counters mode = Some c0 ->
  Workout.counter_count
    (fst (Workout.counter_analyze_pose cfg clk
            (Workout.set_counter_frame_count c0 v) kp)) = 0%Z.
Proof.
  unfold Workout.counters.
  repeat break_if; intros E; try discriminate; injection E as <-;
    cbn [Workout.set_counter_frame_count Workout.counter_analyze_pose].
  - match goal with
    | |- context [PullUp.analyze_pose cfg clk ?s0 kp] =>
        destruct (pullup_step_cases cfg clk s0 kp)
          as [E | (kpl & ls & rs & lw & rw & _ & _ & _ & _ & _ & H)];
        [| cbv zeta in H;
           destruct H as [(Hr & _) | (_ & Hc & _)];
           [apply rep_detected_spec in Hr
              as (_ & pre & t0 & x0 & t1 & x1 & Hlog & _);
            pose proof (detect_keeps_rep_fields cfg (log_time clk) s0
                          ((jy lw + jy rw) / 2 - (jy ls + jy rs) / 2)) as K;
            cbv zeta in K; destruct K as (_ & _ & Kl);
            rewrite Hlog, length_app in Kl; cbn in Kl; lia |]];
        destruct (PullUp.analyze_pose cfg clk s0 kp) as [c' [n l]];
        cbn [fst Workout.counter_count] in *
    end; [rewrite E | rewrite Hc]; reflexivity.
  - match goal with
    | |- context [PullUp.analyze_pose cfg clk ?s0 kp] =>
        destruct (pullup_step_cases cfg clk s0 kp)
          as [E | (kpl & ls & rs & lw & rw & _ & _ & _ & _ & _ & H)];
        [| cbv zeta in H;
           destruct H as [(Hr & _) | (_ & Hc & _)];
           [apply rep_detected_spec in Hr
              as (_ & pre & t0 & x0 & t1 & x1 & Hlog & _);
            pose proof (detect_keeps_rep_fields cfg (log_time clk) s0
                          ((jy lw + jy rw) / 2 - (jy ls + jy rs) / 2)) as K;
            cbv zeta in K; destruct K as (_ & _ & Kl);
            rewrite Hlog, length_app in Kl; cbn in Kl; lia |]];
        destruct (PullUp.analyze_pose cfg clk s0 kp) as [c' [n l]];
        cbn [fst Workout.counter_count] in *
    end; [rewrite E | rewrite Hc]; reflexivity.
  - match goal with
    | |- context [PushUp.analyze_pose ?s0 kp] =>
        destruct (pushup_step_spec s0 kp)
          as (_ & [(_ & Ec & _) | [(_ & _ & Ec & _) | (Ed & _)]]);
        [| | discriminate Ed];
        destruct (PushUp.analyze_pose s0 kp) as [c' [n a]];
        cbn [fst Workout.counter_count] in *; rewrite Ec; reflexivity
    end.
  - match goal with
    | |- context [Squat.analyze_pose ?s0 kp] =>
        destruct (squat_step_spec s0 kp)
          as (_ & [(_ & Ec & _) | [(_ & _ & Ec & _) | (Ed & _)]]);
        [| | discriminate Ed];
        destruct (Squat.analyze_pose s0 kp) as [c' [n a]];
        cbn [fst Workout.counter_count] in *; rewrite Ec; reflexivity
    end.
  - match goal with
    | |- context [ArmCurl.analyze_pose ?s0 kp] =>
        destruct (armcurl_step_spec s0 kp)
          as [E | (_ & _ & _ & _ &
                   [(_ & Ec) | [(_ & _ & _ & Ec) | (_ & Ed & _)]])];
        [| | | discriminate Ed];
        destruct (ArmCurl.analyze_pose s0 kp) as [c' [n a]];
        cbn [fst Workout.counter_count] in *;
        first [rewrite E | rewrite Ec]; reflexivity
    end.
Qed.

(** X18: a change of mode starts the count again.  When [analyze_frame]
    finds no stored session, or one whose mode is not the requested
    (checked) mode, it works on a newly constructed counter, and no counter
    counts a rep on its first frame: the stored session then has count 0,
    and the response, when there is one, reports 0 reps with the text
    ["Ready to start!"]. *)
Theorem mode_change_reports_zero_reps
    (cfg : Config) (clk : Clock) (sessions : Main.Sessions) (mode : string)
    (keypoints : option (list Joint)) :
  (sessions = None
   \/ exists w, sessions = Some w /\ Workout.mode w <> Main.checked_mode mode) ->
  let r := Main.analyze_frame cfg clk sessions mode keypoints in
  (exists w', fst r = Some w' /\ Workout.count w' = 0%Z)
  /\ (forall response, snd r = Some response ->
      Main.repCount response = 0%Z
      /\ Main.motivation response = "Ready to start!"%string).
Proof.
  intros Hnew. cbv zeta.
  destruct (checked_mode_supported mode) as (_ & c0 & Ec0).
  assert (Ew : exists fc,
             Main.session_for sessions (Main.checked_mode mode)
             = Workout.mk (Main.checked_mode mode) (Some c0) fc).
  { unfold Main.session_for. rewrite (init_mode_known _ _ Ec0).
    destruct Hnew as [-> | (w & -> & Hne)]; cbn [Workout.mode].
    - rewrite String.eqb_refl. cbn. eexists. reflexivity.
    - apply String.eqb_neq in Hne. rewrite Hne. cbn [negb].
      unfold Workout.reset. cbn [Workout.counter Workout.mode
                                  Workout.frame_count].
      rewrite (counters_are_reset _ _ Ec0). eexists. reflexivity. }
  destruct Ew as (fc & Ew).
  assert (Hc0 : Workout.counter_count c0 = 0%Z).
  { revert Ec0. unfold Workout.counters.
    repeat break_if; intros E; try discriminate; injection E as <-;
      reflexivity. }
  unfold Main.analyze_frame. rewrite Ew.
  destruct keypoints as [kp|].
  - pose proof (update_returns_count cfg clk
                  (Workout.mk (Main.checked_mode mode) (Some c0) fc) (Some kp))
      as Hret.
    assert (Hzero : Workout.count
                      (fst (Workout.update cfg clk
                              (Workout.mk (Main.checked_mode mode) (Some c0) fc)
                              (Some kp))) = 0%Z).
    { unfold Workout.update, Workout.count. cbn [Workout.counter].
      pose proof (new_counter_counts_nothing_on_first_frame cfg clk _ c0
                    (Workout.counter_frame_count c0 + 1) (Some kp) Ec0) as H.
      destruct (Workout.counter_analyze_pose _ _ _ _) as [c2 r2].
      cbn [fst Workout.counter] in *. exact H. }
    destruct (Workout.update cfg clk _ (Some kp)) as [w [n state]].
    cbn [fst snd] in Hret, Hzero. rewrite Hzero in Hret. subst n.
    change (Motivation.get_motivation_text 0)
      with (Some "Ready to start!"%string).
    split.
    + exists w. repeat break_match; cbn [fst]; split; solve [reflexivity | assumption].
    + intros response.
      repeat break_match; cbn [snd]; intros Hr; try discriminate Hr;
        injection Hr as <-; split; reflexivity.
  - unfold Workout.count. cbn [Workout.counter]. rewrite Hc0.
    change (Motivation.get_motivation_text 0)
      with (Some "Ready to start!"%string).
    cbn [fst snd]. split.
    + eexists. split; [reflexivity |]. cbn. exact Hc0.
    + intros response Hr. injection Hr as <-. split; reflexivity.
Qed.

Lemma mode_change_witness :
  (exists w, Some (Workout.init "pushup") = Some w
             /\ Workout.mode w <> Main.checked_mode "squat")
  /\ forall response,
       snd (Main.analyze_frame config (mkClock 0 0)
              (Some (Workout.init "pushup")) "squat"
              (Some (legs_frame 90 1 90 1))) = Some response ->
       Main.repCount response = 0%Z
       /\ Main.motivation response = "Ready to start!"%string.
Proof.
  assert (H : exists w, Some (Workout.init "pushup") = Some w
                        /\ Workout.mode w <> Main.checked_mode "squat").
  { eexists. split; [reflexivity |]. cbn. discriminate. }
  split; [exact H |].
  destruct (mode_change_reports_zero_reps config (mkClock 0 0)
              (Some (Workout.init "pushup")) "squat"
              (Some (legs_frame 90 1 90 1)) (or_intror H)) as (_ & Hresp).
  exact Hresp.
Defined.

(** ** The dwell test inside a session *)

(** With the dwell over, the push-up state machine follows the smoothed
    angle the call returns. *)
Lemma pushup_step_reacts (s : PushUp.t) (kp : Keypoints) (a : R) :
  (PushUp.MIN_FRAMES_IN_STATE s
   <= PushUp.frame_count s + 1 - PushUp.last_state_change s)%Z ->
  snd (snd (PushUp.analyze_pose s kp)) = Some a ->
  let s' := fst (PushUp.analyze_pose s kp) in
  (PushUp.state s = PushUp.UP -> a < PushUp.DOWN_ANGLE_THRESHOLD s ->
   PushUp.state s' = PushUp.DOWN)
  /\ (PushUp.state s = PushUp.DOWN -> a > PushUp.UP_ANGLE_THRESHOLD s ->
      PushUp.state s' = PushUp.UP
      /\ (PushUp.went_down s = true ->
          PushUp.count s' = (PushUp.count s + 1)%Z)).
Proof.
  intros Hdwell. cbv zeta. unfold PushUp.analyze_pose.
  destruct kp as [[|j kp]|]; try discriminate.
  destruct (PushUp.get_best_arm_angle _ _) as [[x|] c]; [| discriminate].
  unfold PushUp.analyze_angle, PushUp.smooth_angle.
  break_if; [discriminate |].
  match goal with
  | |- context [if ?b then (?s1, Some ?m) else (?s2, Some ?y)] =>
      set (sm := if b then m else y);
      replace (if b then (s1, Some m) else (s2, Some y)) with (s1, Some sm)
        by (unfold sm; destruct b; reflexivity)
  end.
  clearbody sm. cbn [fst snd]. intros E. injection E as ->.
  unfold PushUp.update_state_and_count, PushUp._change_state.
  cbn [PushUp.frame_count PushUp.last_state_change PushUp.MIN_FRAMES_IN_STATE
       PushUp.state PushUp.DOWN_ANGLE_THRESHOLD PushUp.UP_ANGLE_THRESHOLD
       PushUp.set_angle_history PushUp.set_frame_count].
  replace (_ <? _)%Z with false by (symmetry; apply Z.ltb_ge; exact Hdwell).
  split.
  - intros Es Ha. rewrite Es, (Rltb_true _ _ Ha). reflexivity.
  - intros Es Ha. rewrite Es. unfold Rgtb. rewrite (Rltb_true _ _ Ha).
    cbn. split.
    + destruct (PushUp.went_down s); reflexivity.
    + intros ->. reflexivity.
Qed.

(** The same for the squat counter. *)
Lemma squat_step_reacts (s : Squat.t) (kp : Keypoints) (a : R) :
  (Squat.min_frames_in_state s
   <= Squat.frame_count s + 1 - Squat.last_state_change s)%Z ->
  snd (snd (Squat.analyze_pose s kp)) = Some a ->
  let s' := fst (Squat.analyze_pose s kp) in
  (Squat.state s = Squat.up -> a < Squat.down_threshold s ->
   Squat.state s' = Squat.down)
  /\ (Squat.state s = Squat.down -> a > Squat.up_threshold s ->
      Squat.state s' = Squat.up
      /\ (Squat.went_down s = true ->
          Squat.count s' = (Squat.count s + 1)%Z)).
Proof.
  intros Hdwell. cbv zeta. unfold Squat.analyze_pose.
  destruct kp as [[|j kp]|]; try discriminate.
  destruct (Squat.get_best_leg_angle _) as [[x|] c]; [| discriminate].
  unfold Squat.analyze_angle.
  break_if; [discriminate |].
  cbn [Squat.frame_count Squat.last_state_change Squat.min_frames_in_state
       Squat.state Squat.down_threshold Squat.up_threshold Squat.count
       Squat.went_down Squat.angle_history].
  match goal with
  | |- context [Some (if ?b then ?m else x)] =>
      set (sm := if b then m else x); clearbody sm
  end.
  replace (_ <? _)%Z with false by (symmetry; apply Z.ltb_ge; exact Hdwell).
  split.
  - intros Es Ha. revert H. rewrite Es.
    destruct (Rltb sm (Squat.down_threshold s)) eqn:Et; cbn [fst snd];
      intros E; injection E as ->; [reflexivity |].
    apply Rltb_false_iff in Et. lra.
  - intros Es Ha. revert H. rewrite Es. unfold Rgtb.
    destruct (Rltb (Squat.up_threshold s) sm) eqn:Et.
    + destruct (Squat.went_down s); cbn [fst snd]; intros E;
        injection E as ->; split; try reflexivity; discriminate.
    + cbn [fst snd]. intros E. injection E as ->.
      apply Rltb_false_iff in Et. lra.
Qed.

Lemma session_counter_property (P : Workout.ExerciseCounter -> Prop) :
  (forall mode c0, Workout.counters mode = Some c0 -> P c0) ->
  (forall cfg clk c kp, P c ->
     P (fst (Workout.counter_analyze_pose cfg clk
               (Workout.set_counter_frame_count c
                  (Workout.counter_frame_count c + 1)) kp))) ->
  (forall c, P c -> P (Workout.counter_reset c)) ->
  forall mode cs c,
    Workout.counter (calls (Workout.init mode) cs) = Some c -> P c.
Proof.
  intros Hinit Hupdate Hreset mode cs.
  assert (Hnew : forall m c, Workout.counter (Workout.init m) = Some c -> P c).
  { intros m c. unfold Workout.init, Workout._initialize_counter.
    destruct (Workout.counters m) as [c0|] eqn:E; cbn [Workout.counter];
      intros Ec; injection Ec as <-.
    - apply (Hinit m), E.
    - apply (Hinit "chinup"%string). reflexivity. }
  assert (Hcalls : forall w,
             (forall c, Workout.counter w = Some c -> P c) ->
             forall c, Workout.counter (calls w cs) = Some c -> P c).
  { unfold calls. induction cs as [|c1 rest IH]; intros w Hw; [exact Hw |].
    cbn [fold_left]. apply IH.
    destruct c1 as [cfg clk kp | | new_mode]; cbn [call]; intros c.
    - unfold Workout.update.
      destruct (Workout.counter w) as [c0|] eqn:E;
        [| cbn [fst]; rewrite E; discriminate].
      pose proof (Hupdate cfg clk c0 kp (Hw c0 eq_refl)) as Hp.
      destruct (Workout.counter_analyze_pose _ _ _ _) as [c2 r].
      cbn [fst Workout.counter] in *. intros Ec. injection Ec as <-. exact Hp.
    - unfold Workout.reset.
      destruct (Workout.counter w) as [c0|] eqn:E;
        [| cbn [fst]; rewrite E; discriminate].
      cbn [Workout.counter]. intros Ec. injection Ec as <-.
      apply Hreset, Hw. reflexivity.
    - unfold Workout.switch_mode. break_if; [| apply Hw].
      intros Ec. apply (Hnew new_mode).
      revert Ec. unfold Workout.init, Workout._initialize_counter.
      destruct (Workout.counters new_mode); cbn [Workout.counter]; tauto. }
  apply Hcalls, Hnew.
Qed.

(** X19: inside a session the dwell test never holds a frame back.
    [WorkoutCounter.update] advances the counter's [frame_count] by two per
    frame ([update] and [analyze_pose] each add one), so in every session
    reached by [update], [reset] and [switch_mode] calls the push-up (and
    squat) counter has [last_state_change <= frame_count], a minimum dwell
    of 2 and [went_down] set exactly while DOWN, and the next [update]
    always passes the dwell test: when it returns an angle below the down
    threshold while UP the state becomes DOWN, and when it returns an angle
    above the up threshold while DOWN the state becomes UP and the count
    grows by one. *)
Theorem session_updates_always_pass_the_dwell_test
    (mode : string) (cs : list Call) (cfg : Config) (clk : Clock)
    (keypoints : Keypoints) (a : R) :
  let w := calls (Workout.init mode) cs in
  let r := Workout.update cfg clk w keypoints in
  snd (snd r) = Workout.AngleValue (Some a) ->
  (forall c, Workout.counter w = Some (Workout.PushUpCounter c) ->
     (PushUp.last_state_change c <= PushUp.frame_count c)%Z
     /\ exists c',
          Workout.counter (fst r) = Some (Workout.PushUpCounter c')
          /\ (PushUp.state c = PushUp.UP ->
              a < PushUp.DOWN_ANGLE_THRESHOLD c ->
              PushUp.state c' = PushUp.DOWN)
          /\ (PushUp.state c = PushUp.DOWN ->
              a > PushUp.UP_ANGLE_THRESHOLD c ->
              PushUp.state c' = PushUp.UP
              /\ PushUp.count c' = (PushUp.count c + 1)%Z))
  /\ (forall c, Workout.counter w = Some (Workout.SquatCounter c) ->
     (Squat.last_state_change c <= Squat.frame_count c)%Z
     /\ exists c',
          Workout.counter (fst r) = Some (Workout.SquatCounter c')
          /\ (Squat.state c = Squat.up -> a < Squat.down_threshold c ->
              Squat.state c' = Squat.down)
          /\ (Squat.state c = Squat.down -> a > Squat.up_threshold c ->
              Squat.state c' = Squat.up
              /\ Squat.count c' = (Squat.count c + 1)%Z)).
Proof.
  intros w r Hr.
  pose (P := fun c : Workout.ExerciseCounter =>
    match c with
    | Workout.PushUpCounter c =>
        PushUp.MIN_FRAMES_IN_STATE c = 2%Z
        /\ (PushUp.last_state_change c <= PushUp.frame_count c)%Z
        /\ (PushUp.state c = PushUp.DOWN /\ PushUp.went_down c = true
            \/ PushUp.state c = PushUp.UP /\ PushUp.went_down c = false)
    | Workout.SquatCounter c =>
        Squat.min_frames_in_state c = 2%Z
        /\ (Squat.last_state_change c <= Squat.frame_count c)%Z
        /\ (Squat.state c = Squat.down /\ Squat.went_down c = true
            \/ Squat.state c = Squat.up /\ Squat.went_down c = false)
    | _ => True
    end).
  assert (HP : forall c, Workout.counter w = Some c -> P c).
  { apply (session_counter_property P).
    - intros m c0. unfold Workout.counters.
      repeat break_if; intros E; try discriminate; injection E as <-; cbn;
        try exact I; (split; [reflexivity |]); (split; [lia |]);
        right; split; reflexivity.
    - intros cfg0 clk0 c kp HPc.
      destruct c as [c | c | c | c];
        cbn [Workout.set_counter_frame_count Workout.counter_frame_count
             Workout.counter_analyze_pose].
      + destruct (PullUp.analyze_pose _ _ _ _) as [c' [n l]]. exact I.
      + destruct HPc as (Hm & Hl & Hp).
        match goal with
        | |- context [PushUp.analyze_pose ?s0 kp] =>
            pose proof (pushup_step_spec s0 kp) as Hs;
            pose proof (pushup_paired_step s0 kp Hp) as Hq;
            destruct (PushUp.analyze_pose s0 kp) as [c' [n x]]
        end.
        cbv zeta in Hs, Hq.
        cbn [fst snd PushUp.set_frame_count PushUp.frame_count
             PushUp.last_state_change PushUp.MIN_FRAMES_IN_STATE
             PushUp.state PushUp.count PushUp.went_down] in *.
        destruct Hs as ((_ & _ & _ & Em & Ef) & Hs).
        split; [congruence |]. split; [| exact Hq].
        destruct Hs as [(_ & _ & _ & El) | [(_ & _ & _ & _ & El & _)
                                           | (_ & _ & _ & _ & El & _)]]; lia.
      + destruct HPc as (Hm & Hl & Hp).
        match goal with
        | |- context [Squat.analyze_pose ?s0 kp] =>
            pose proof (squat_step_spec s0 kp) as Hs;
            pose proof (squat_paired_step s0 kp Hp) as Hq;
            destruct (Squat.analyze_pose s0 kp) as [c' [n x]]
        end.
        cbv zeta in Hs, Hq.
        cbn [fst snd Squat.frame_count Squat.last_state_change
             Squat.min_frames_in_state Squat.state Squat.count
             Squat.went_down] in *.
        destruct Hs as ((_ & _ & Em & Ef) & Hs).
        split; [congruence |]. split; [| exact Hq].
        destruct Hs as [(_ & _ & _ & El) | [(_ & _ & _ & _ & El & _)
                                           | (_ & _ & _ & _ & El & _)]]; lia.
      + destruct (ArmCurl.analyze_pose _ _) as [c' [n x]]. exact I.
    - intros c HPc. destruct c as [c | c | c | c]; cbn; try exact I;
        destruct HPc as (Hm & _); (split; [exact Hm |]); (split; [lia |]);
        right; split; reflexivity. }
  subst r. unfold Workout.update in *.
  split; intros c Ec; rewrite Ec in Hr |- *; pose proof (HP _ Ec) as HPc;
    cbn [P] in HPc; destruct HPc as (Hm & Hl & Hp);
    (split; [exact Hl |]);
    cbn [Workout.set_counter_frame_count Workout.counter_frame_count
         Workout.counter_analyze_pose] in Hr |- *.
  - match goal with
    | |- context [PushUp.analyze_pose ?s0 keypoints] =>
        pose proof (pushup_step_reacts s0 keypoints a) as Hreact;
        destruct (PushUp.analyze_pose s0 keypoints) as [c' [n x]]
    end.
    cbn [fst snd PushUp.set_frame_count PushUp.frame_count
         PushUp.last_state_change PushUp.MIN_FRAMES_IN_STATE
         PushUp.state PushUp.count PushUp.went_down
         PushUp.DOWN_ANGLE_THRESHOLD PushUp.UP_ANGLE_THRESHOLD
         Workout.counter] in *.
    injection Hr as ->.
    destruct (Hreact ltac:(lia) eq_refl) as (Hdown & Hup).
    exists c'. split; [reflexivity |]. split; [exact Hdown |].
    intros Es Ha. destruct (Hup Es Ha) as (H1 & H2). split; [exact H1 |].
    apply H2. destruct Hp as [[_ Hw] | [Hs _]]; [exact Hw | congruence].
  - match goal with
    | |- context [Squat.analyze_pose ?s0 keypoints] =>
        pose proof (squat_step_reacts s0 keypoints a) as Hreact;
        destruct (Squat.analyze_pose s0 keypoints) as [c' [n x]]
    end.
    cbn [fst snd Squat.frame_count Squat.last_state_change
         Squat.min_frames_in_state Squat.state Squat.count Squat.went_down
         Squat.down_threshold Squat.up_threshold Workout.counter] in *.
    injection Hr as ->.
    destruct (Hreact ltac:(lia) eq_refl) as (Hdown & Hup).
    exists c'. split; [reflexivity |]. split; [exact Hdown |].
    intros Es Ha. destruct (Hup Es Ha) as (H1 & H2). split; [exact H1 |].
    apply H2. destruct Hp as [[_ Hw] | [Hs _]]; [exact Hw | congruence].
Qed.

Lemma session_dwell_witness :
  snd (snd (Workout.update config (mkClock 0 0)
              (calls (Workout.init "pushup") []) (right_arm_at 100)))
  = Workout.AngleValue (Some 100)
  /\ exists c',
       Workout.counter
         (fst (Workout.update config (mkClock 0 0)
                 (calls (Workout.init "pushup") []) (right_arm_at 100)))
       = Some (Workout.PushUpCounter c')
       /\ PushUp.state c' = PushUp.DOWN.
Proof.
  assert (E : snd (snd (Workout.update config (mkClock 0 0)
                          (calls (Workout.init "pushup") []) (right_arm_at 100)))
              = Workout.AngleValue (Some 100)).
  { cbn [calls fold_left]. unfold Workout.update.
    cbn [Workout.init Workout._initialize_counter Workout.counters
         String.eqb Ascii.eqb Bool.eqb Workout.counter Workout.mode
         Workout.set_counter_frame_count Workout.counter_frame_count
         Workout.counter_analyze_pose].
    rewrite pushup_frame_step by (cbn; lra).
    unfold PushUp.analyze_angle, PushUp.smooth_angle,
      PushUp.update_state_and_count, PushUp._change_state.
    cbn. repeat (Rdecide; cbn). reflexivity. }
  split; [exact E |].
  destruct (session_updates_always_pass_the_dwell_test "pushup" []
              config (mkClock 0 0) (right_arm_at 100) 100 E) as (Hpush & _).
  destruct (Hpush PushUp.init eq_refl) as (_ & c' & Hc & Hdown & _).
  exists c'. split; [exact Hc |].
  apply Hdown; [reflexivity | cbn; lra].
Defined.

(** ** Adjusted thresholds *)

Lemma pushup_thresholds_kept (frames : list Keypoints) :
  forall s,
    PushUp.UP_ANGLE_THRESHOLD (final PushUp.analyze_pose s frames)
    = PushUp.UP_ANGLE_THRESHOLD s
    /\ PushUp.DOWN_ANGLE_THRESHOLD (final PushUp.analyze_pose s frames)
       = PushUp.DOWN_ANGLE_THRESHOLD s.
Proof.
  induction frames as [|f rest IH]; intros s; [split; reflexivity |].
  rewrite final_cons. destruct (IH (fst (PushUp.analyze_pose s f))) as [-> ->].
  destruct (pushup_step_spec s f) as ((E1 & E2 & _) & _).
  split; assumption.
Qed.

(** X20: [adjust_thresholds] changes the two thresholds and nothing else,
    and neither frames nor [reset] undo it: after any frames, and after a
    [reset] following them, the push-up counter still has the adjusted
    thresholds.  An argument left out keeps the threshold it stands for. *)
Theorem adjusted_thresholds_persist
    (s : PushUp.t) (up down : R) (frames : list Keypoints) :
  let s0 := PushUp.adjust_thresholds s (Some up) (Some down) in
  let s1 := final PushUp.analyze_pose s0 frames in
  (PushUp.count s0 = PushUp.count s /\ PushUp.state s0 = PushUp.state s
   /\ PushUp.frame_count s0 = PushUp.frame_count s
   /\ PushUp.last_state_change s0 = PushUp.last_state_change s
   /\ PushUp.angle_history s0 = PushUp.angle_history s
   /\ PushUp.went_down s0 = PushUp.went_down s)
  /\ (PushUp.UP_ANGLE_THRESHOLD s1 = up /\ PushUp.DOWN_ANGLE_THRESHOLD s1 = down)
  /\ (PushUp.UP_ANGLE_THRESHOLD (PushUp.reset s1) = up
      /\ PushUp.DOWN_ANGLE_THRESHOLD (PushUp.reset s1) = down)
  /\ PushUp.UP_ANGLE_THRESHOLD (PushUp.adjust_thresholds s None (Some down))
     = PushUp.UP_ANGLE_THRESHOLD s
  /\ PushUp.DOWN_ANGLE_THRESHOLD (PushUp.adjust_thresholds s (Some up) None)
     = PushUp.DOWN_ANGLE_THRESHOLD s.
Proof.
  cbv zeta.
  destruct (pushup_thresholds_kept frames
              (PushUp.adjust_thresholds s (Some up) (Some down))) as [E1 E2].
  cbn [PushUp.reset PushUp.UP_ANGLE_THRESHOLD PushUp.DOWN_ANGLE_THRESHOLD].
  rewrite E1, E2. repeat split.
Qed.
